(** * Altor tutoring client: speech output, listening gate, provider
      boundary, streak bookkeeping and orchestrator handlers

    A shallow embedding of the TypeScript sources

      - [src/hooks/useSpeechSynthesis.ts]  (speech output engine),
      - [src/App.tsx], first part           (session orchestrator),
      - [src/App.tsx], second part          (the Gemini service functions),
      - [src/types.ts]                      (the data model),

    followed by the properties established about them.

    Conventions.  A JavaScript string is a sequence of code units; the
    model keeps the code units below 256 and writes them with Rocq's
    [string] and [list ascii].  JavaScript numbers that hold integers are
    [Z].  React state is a record; a handler reads the values of the render
    it was created in (its closure) and writes to the live store. *)

From Stdlib Require Import List String Ascii ZArith Bool Arith Lia.
Import ListNotations.

Set Implicit Arguments.

(* ================================================================== *)
(** * Part I: definitions                                              *)
(* ================================================================== *)

(** ** JavaScript string primitives *)

Module JsString.

Definition chars := list ascii.

Definition code (c : ascii) : nat := nat_of_ascii c.

(** [\d] of a regular expression without the [u] flag: [0-9]. *)
Definition isDigit (c : ascii) : bool :=
  (48 <=? code c)%nat && (code c <=? 57)%nat.

(** White space and line terminators removed by [String.prototype.trim],
    among the code units below 256: TAB, LF, VT, FF, CR, SP, NBSP. *)
Definition isWhiteSpace (c : ascii) : bool :=
  let n := code c in
  ((9 <=? n)%nat && (n <=? 13)%nat) || (n =? 32)%nat || (n =? 160)%nat.

(** Case-insensitive comparison of a code unit with a lower-case ASCII
    letter of a pattern ([i] flag): the upper-case form is 32 below. *)
Definition eqIgnoreCase (c : ascii) (lower : ascii) : bool :=
  (code c =? code lower)%nat || (code c + 32 =? code lower)%nat.

(** [s.startsWith(p)] *)
Fixpoint startsWith (s p : chars) : bool :=
  match p, s with
  | [], _ => true
  | _ :: _, [] => false
  | a :: p', b :: s' => Ascii.eqb a b && startsWith s' p'
  end.

(** [s.includes(p)] *)
Fixpoint includes (s p : chars) : bool :=
  startsWith s p ||
  match s with
  | [] => false
  | _ :: s' => includes s' p
  end.

(** [a.join(sep)] for an array of one-character strings, as produced by
    [split('')]. *)
Fixpoint joinChars (sep : chars) (a : chars) : chars :=
  match a with
  | [] => []
  | [c] => [c]
  | c :: rest => c :: sep ++ joinChars sep rest
  end.

(** [s.trim().length > 0] *)
Definition hasVisibleText (s : chars) : bool :=
  existsb (fun c => negb (isWhiteSpace c)) s.

Definition ofString (s : string) : chars := list_ascii_of_string s.
Definition toString (l : chars) : string := string_of_list_ascii l.

(** String-level versions. *)
Definition sIncludes (s p : string) : bool := includes (ofString s) (ofString p).
Definition sStartsWith (s p : string) : bool := startsWith (ofString s) (ofString p).

(** [parts.join('')] *)
Definition concatAll (parts : list string) : string := String.concat EmptyString parts.

(** [String.prototype.replace] with a global regular expression whose
    matches are never empty.  [matchAt s] tells whether the expression
    matches at the start of [s]; it then gives the replacement text and
    the text left after the match.  Scanning resumes after each match
    ([lastIndex]); characters outside matches are copied.  [fuel] bounds
    the number of scanning steps; the length of the text is enough. *)
Fixpoint replaceScan (matchAt : chars -> option (chars * chars))
                     (fuel : nat) (s : chars) : chars :=
  match fuel with
  | O => s
  | S fuel' =>
      match s with
      | [] => []
      | c :: tl =>
          match matchAt s with
          | Some (replacement, rest) => replacement ++ replaceScan matchAt fuel' rest
          | None => c :: replaceScan matchAt fuel' tl
          end
      end
  end.

Definition replaceGlobal (matchAt : chars -> option (chars * chars)) (s : chars) : chars :=
  replaceScan matchAt (List.length s) s.

End JsString.

(** ** Text normalisation before synthesis
       ([preprocessTextForSpeech], useSpeechSynthesis.ts lines 9-19) *)

Module Normalize.
Import JsString.

(** Greedy [\d+]: the longest run of digits at the start, and the rest. *)
Fixpoint spanDigits (s : chars) : chars * chars :=
  match s with
  | c :: tl =>
      if isDigit c
      then let (ds, rest) := spanDigits tl in (c :: ds, rest)
      else ([], s)
  | [] => ([], [])
  end.

(** The replacer of the first [replace]:
    [`${integerPart} point ${fractionalPart.split('').join(' ')}`]. *)
Definition decimalReplacement (integerPart fractionalPart : chars) : chars :=
  integerPart ++ ofString " point " ++ joinChars [" "%char] fractionalPart.

(** [/(\d+)\.(\d+)/] anchored at the start of [s].  Both groups are
    greedy; giving digits back never helps, as the character after a
    shorter run is a digit and not the dot. *)
Definition matchDecimal (s : chars) : option (chars * chars) :=
  match spanDigits s with
  | ((_ :: _) as integerPart, "."%char :: afterDot) =>
      match spanDigits afterDot with
      | ((_ :: _) as fractionalPart, rest) =>
          Some (decimalReplacement integerPart fractionalPart, rest)
      | _ => None
      end
  | _ => None
  end.

(** [/use/i] anchored at the start of [s], replaced by ['yuuzh']. *)
Definition matchUse (s : chars) : option (chars * chars) :=
  match s with
  | c1 :: c2 :: c3 :: rest =>
      if eqIgnoreCase c1 "u" && eqIgnoreCase c2 "s" && eqIgnoreCase c3 "e"
      then Some (ofString "yuuzh", rest)
      else None
  | _ => None
  end.

Definition replaceDecimals : chars -> chars := replaceGlobal matchDecimal.
Definition replaceUse : chars -> chars := replaceGlobal matchUse.

Definition preprocessChars (text : chars) : chars :=
  let processedText := replaceDecimals text in
  replaceUse processedText.

Definition preprocessTextForSpeech (text : string) : string :=
  toString (preprocessChars (ofString text)).

End Normalize.

(** ** The speech output engine ([useSpeechSynthesis]) *)

Module Speech.
Import JsString.
Local Open Scope string_scope.

(** [SpeechSegment] of types.ts. *)
Inductive Lang := en | hi.

Record SpeechSegment := { text : string; lang : Lang }.

(** The first argument of [speak]: [string | SpeechSegment[]]. *)
Inductive SpeakInput :=
| Text (t : string)
| Segments (l : list SpeechSegment).

(** [SpeechSynthesisVoice], [SpeechSynthesisUtterance]. *)
Record Voice := { vname : string; vlang : string }.

Record Gendered := { male : option Voice; female : option Voice }.

Record VoiceTable := { voicesEn : Gendered; voicesHi : Gendered }.

Record Utterance := {
  utext : string;
  ulang : string;
  uvoice : option Voice;
  rate : Z;
  pitch : Z
}.

Definition MOUTH_SHAPES : list string := ["A"; "B"; "C"; "D"; "E"; "F"; "G"; "H"].

(** [a || b] on values that are an object or [null]. *)
Definition orElse {A : Type} (a b : option A) : option A :=
  match a with
  | Some _ => a
  | None => b
  end.

Definition locale (l : Lang) : string :=
  match l with
  | hi => "hi-IN"
  | en => "en-US"
  end.

(** [utterance.lang.split('-')[0]] for the two locales above. *)
Definition languageSubtag (l : Lang) : string :=
  match l with
  | hi => "hi"
  | en => "en"
  end.

Section Engine.

(** The engine's client.  A completion callback is a closure of the
    client; what it does to the client's own state is [act].  A closure
    may also call [speak] again, as the nested callbacks of
    [handleSolveDoubt] do. *)
Variable Action : Type.
Variable Client : Type.
Variable act : Action -> Client -> Client.

#[warnings="-register-all"]
Inductive Callback :=
| Do (a : Action)
| SpeakNext (input : SpeakInput) (onEnd : option Callback) (langOrGender : string).

(** [useState] cells and [useRef] cells of the hook. *)
Record Hook := {
  isMuted : bool;
  isSpeaking : bool;
  spokenText : string;
  mouthShape : string;
  utteranceQueue : list Utterance;
  onEndCallback : option Callback;
  voices : VoiceTable
}.

(** [window.speechSynthesis]: the units handed over with [speak()] and
    not yet ended, oldest first (the head is the one being spoken); the
    number of units stopped by [cancel()] while being spoken, whose
    [end] event is still to be delivered (the comment in [cancel] tells
    that it is); and the voices of [getVoices()]. *)
Record Synthesizer := {
  playing : list Utterance;
  interrupted : nat;
  installed : list Voice
}.

(** What can be observed from outside, in order of occurrence. *)
Inductive Event :=
| Submitted (u : Utterance)
| Stopped
| Ended (u : Utterance)
| Invoked (cb : Callback).

Record World := {
  hook : Hook;
  synth : option Synthesizer;
  client : Client;
  history : list Event
}.

(** A call returns, throws, or exceeds the allowed nesting of
    callbacks that call [speak] synchronously. *)
Inductive Outcome :=
| Returned (w : World)
| Thrown (why : string)
| TooDeep.

Definition andThen (m : Outcome) (k : World -> Outcome) : Outcome :=
  match m with
  | Returned w => k w
  | other => other
  end.

(** *** Cell updates *)

Definition withHook (f : Hook -> Hook) (w : World) : World :=
  {| hook := f (hook w); synth := synth w; client := client w; history := history w |}.

Definition setIsMuted (b : bool) : World -> World :=
  withHook (fun h =>
    {| isMuted := b; isSpeaking := isSpeaking h; spokenText := spokenText h;
       mouthShape := mouthShape h; utteranceQueue := utteranceQueue h;
       onEndCallback := onEndCallback h; voices := voices h |}).

Definition setIsSpeaking (b : bool) : World -> World :=
  withHook (fun h =>
    {| isMuted := isMuted h; isSpeaking := b; spokenText := spokenText h;
       mouthShape := mouthShape h; utteranceQueue := utteranceQueue h;
       onEndCallback := onEndCallback h; voices := voices h |}).

Definition setSpokenText (t : string) : World -> World :=
  withHook (fun h =>
    {| isMuted := isMuted h; isSpeaking := isSpeaking h; spokenText := t;
       mouthShape := mouthShape h; utteranceQueue := utteranceQueue h;
       onEndCallback := onEndCallback h; voices := voices h |}).

Definition setMouthShape (m : string) : World -> World :=
  withHook (fun h =>
    {| isMuted := isMuted h; isSpeaking := isSpeaking h; spokenText := spokenText h;
       mouthShape := m; utteranceQueue := utteranceQueue h;
       onEndCallback := onEndCallback h; voices := voices h |}).

Definition setQueue (q : list Utterance) : World -> World :=
  withHook (fun h =>
    {| isMuted := isMuted h; isSpeaking := isSpeaking h; spokenText := spokenText h;
       mouthShape := mouthShape h; utteranceQueue := q;
       onEndCallback := onEndCallback h; voices := voices h |}).

Definition setOnEndCallback (cb : option Callback) : World -> World :=
  withHook (fun h =>
    {| isMuted := isMuted h; isSpeaking := isSpeaking h; spokenText := spokenText h;
       mouthShape := mouthShape h; utteranceQueue := utteranceQueue h;
       onEndCallback := cb; voices := voices h |}).

Definition record (e : Event) (w : World) : World :=
  {| hook := hook w; synth := synth w; client := client w; history := history w ++ [e] |}.

Definition setClient (c : Client) (w : World) : World :=
  {| hook := hook w; synth := synth w; client := c; history := history w |}.

Definition setSynth (s : option Synthesizer) (w : World) : World :=
  {| hook := hook w; synth := s; client := client w; history := history w |}.

(** *** The device *)

(** [window.speechSynthesis.speak(utterance)]; a [TypeError] when the
    object is missing. *)
Definition synthSpeak (u : Utterance) (w : World) : Outcome :=
  match synth w with
  | Some s =>
      Returned (record (Submitted u)
        (setSynth (Some {| playing := playing s ++ [u];
                           interrupted := interrupted s;
                           installed := installed s |}) w))
  | None => Thrown "TypeError: window.speechSynthesis is undefined"
  end.

(** [window.speechSynthesis.cancel()]: every unit leaves the device's
    queue; the one that was being spoken still owes its [end] event. *)
Definition synthCancel (s : Synthesizer) (w : World) : World :=
  record Stopped
    (setSynth (Some {| playing := [];
                       interrupted := interrupted s +
                                      (match playing s with [] => 0 | _ :: _ => 1 end);
                       installed := installed s |}) w).

Definition getVoices (w : World) : list Voice :=
  match synth w with
  | Some s => installed s
  | None => []
  end.

(** *** [processQueue], lines 39-52 *)

Definition processQueueWith (invoke : Callback -> World -> Outcome) (w : World) : Outcome :=
  match utteranceQueue (hook w) with
  | utterance :: rest =>
      synthSpeak utterance (setQueue rest w)
  | [] =>
      let w1 := setMouthShape "X" (setIsSpeaking false w) in
      match onEndCallback (hook w1) with
      | Some cb =>
          andThen (invoke cb w1) (fun w2 => Returned (setOnEndCallback None w2))
      | None => Returned w1
      end
  end.

(** *** [cancel], lines 54-65 *)

Definition cancel (w : World) : Outcome :=
  let w1 := setQueue [] w in
  let w2 := setOnEndCallback None w1 in
  let w3 := match synth w2 with
            | Some s => synthCancel s w2
            | None => w2
            end in
  Returned (setMouthShape "X" (setIsSpeaking false w3)).

(** *** [speak], lines 67-145 *)

(** The body of [segments.map(segment => ...)], lines 96-135. *)
Definition makeUtterance (w : World) (langOrGender : string) (segment : SpeechSegment) : Utterance :=
  let processedText := Normalize.preprocessTextForSpeech (text segment) in
  let table := voices (hook w) in
  let chosen :=
    match lang segment with
    | hi => orElse (female (voicesHi table)) (male (voicesHi table))
    | en => if String.eqb langOrGender "female"
            then female (voicesEn table)
            else male (voicesEn table)
    end in
  let voice :=
    match chosen with
    | Some _ => chosen
    | None =>
        let allVoices := getVoices w in
        orElse (find (fun v => String.eqb (vlang v) (locale (lang segment))) allVoices)
               (find (fun v => sStartsWith (vlang v) (languageSubtag (lang segment))) allVoices)
    end in
  {| utext := processedText; ulang := locale (lang segment); uvoice := voice;
     rate := 1; pitch := 1 |}.

(** [if (onEnd) onEnd()] *)
Definition callIfGiven (invoke : Callback -> World -> Outcome)
                       (onEnd : option Callback) (w : World) : Outcome :=
  match onEnd with
  | Some cb => invoke cb w
  | None => Returned w
  end.

(** Lines 78-86: the segments of the request that have visible text. *)
Definition segmentsOf (textOrSegments : SpeakInput) (langOrGender : string) : list SpeechSegment :=
  let segments :=
    match textOrSegments with
    | Text t => [{| text := t; lang := if String.eqb langOrGender "hi-IN" then hi else en |}]
    | Segments l => l
    end in
  filter (fun s => hasVisibleText (ofString (text s))) segments.

Definition speakWith (invoke : Callback -> World -> Outcome)
                     (textOrSegments : SpeakInput) (onEnd : option Callback)
                     (langOrGender : string) (w : World) : Outcome :=
  if isMuted (hook w) || (match synth w with Some _ => false | None => true end)
  then callIfGiven invoke onEnd w
  else
    andThen (cancel w) (fun w =>
      let segments := segmentsOf textOrSegments langOrGender in
      if (List.length segments =? 0)%nat
      then callIfGiven invoke onEnd w
      else
        let fullOriginalText := concatAll (map text segments) in
        let w := setSpokenText fullOriginalText w in
        let w := setQueue (map (makeUtterance w langOrGender) segments) w in
        if (0 <? List.length (utteranceQueue (hook w)))%nat
        then
          let w := setOnEndCallback onEnd w in
          let w := setIsSpeaking true w in
          let w := setMouthShape "A" w in
          processQueueWith invoke w
        else callIfGiven invoke onEnd w).

(** Calling a completion callback.  [depth] bounds how deeply callbacks
    that call [speak] may nest before one of them returns. *)
Fixpoint invoke (depth : nat) (cb : Callback) (w : World) : Outcome :=
  match depth with
  | O => TooDeep
  | S d =>
      let w := record (Invoked cb) w in
      match cb with
      | Do a => Returned (setClient (act a (client w)) w)
      | SpeakNext input onEnd langOrGender =>
          speakWith (invoke d) input onEnd langOrGender w
      end
  end.

Definition processQueue (depth : nat) : World -> Outcome :=
  processQueueWith (invoke depth).

Definition speak (depth : nat) : SpeakInput -> option Callback -> string -> World -> Outcome :=
  speakWith (invoke depth).

(** *** [toggleMute], lines 147-155 *)

Definition toggleMute (w : World) : Outcome :=
  let nextState := negb (isMuted (hook w)) in
  andThen (if nextState then cancel w else Returned w)
          (fun w => Returned (setIsMuted nextState w)).

(** *** Events of the device *)

(** [utterance.onend = () => processQueue()], for the unit being
    spoken. *)
Definition unitEnded (depth : nat) (w : World) : Outcome :=
  match synth w with
  | Some s =>
      match playing s with
      | u :: rest =>
          processQueue depth
            (record (Ended u)
              (setSynth (Some {| playing := rest; interrupted := interrupted s;
                                 installed := installed s |}) w))
      | [] => Returned w
      end
  | None => Returned w
  end.

(** The same handler, run by the [end] event of a unit that [cancel()]
    stopped. *)
Definition interruptedUnitEnded (depth : nat) (w : World) : Outcome :=
  match synth w with
  | Some s =>
      match interrupted s with
      | S n =>
          processQueue depth
            (setSynth (Some {| playing := playing s; interrupted := n;
                               installed := installed s |}) w)
      | O => Returned w
      end
  | None => Returned w
  end.

(** [utterance.onboundary], lines 123-128; [draw] is
    [Math.floor(Math.random() * MOUTH_SHAPES.length)]. *)
Definition boundary (name : string) (draw : nat) (w : World) : World :=
  if String.eqb name "word"
  then setMouthShape (nth (draw mod List.length MOUTH_SHAPES) MOUTH_SHAPES "X") w
  else w.

Inductive DeviceEvent :=
| UnitEnded
| InterruptedUnitEnded
| Boundary (name : string) (draw : nat).

(** A unit is being spoken. *)
Definition busy (w : World) : bool :=
  match synth w with
  | Some s => match playing s with [] => false | _ :: _ => true end
  | None => false
  end.

(** An event that the device cannot raise in the state at hand changes
    nothing: no unit ends when none is spoken, no boundary is reached
    either. *)
Definition deliver (depth : nat) (e : DeviceEvent) (w : World) : Outcome :=
  match e with
  | UnitEnded => unitEnded depth w
  | InterruptedUnitEnded => interruptedUnitEnded depth w
  | Boundary name draw => Returned (if busy w then boundary name draw w else w)
  end.

Fixpoint deliverAll (depth : nat) (es : list DeviceEvent) (w : World) : Outcome :=
  match es with
  | [] => Returned w
  | e :: rest => andThen (deliver depth e w) (deliverAll depth rest)
  end.

(** The completion callbacks called so far. *)
Definition invocations (w : World) : list Callback :=
  flat_map (fun e => match e with Invoked cb => [cb] | _ => [] end) (history w).

(** The units handed to the device so far. *)
Definition submissions (w : World) : list Utterance :=
  flat_map (fun e => match e with Submitted u => [u] | _ => [] end) (history w).

End Engine.

Arguments Submitted {Action} u.
Arguments Stopped {Action}.
Arguments Ended {Action} u.

End Speech.

(** ** The Gemini service boundary (second part of App.tsx) *)

Module Provider.
Import JsString.
Local Open Scope string_scope.

(** A value caught by [catch (error)]: an [Error] with its message, or
    anything else that was thrown. *)
Inductive Thrown :=
| ErrorObject (message : string)
| OtherValue (shown : string).

(** The promise returned by an exported service function. *)
Inductive Result (A : Type) :=
| Resolved (a : A)
| Rejected (e : Thrown).
Arguments Resolved {A} a.
Arguments Rejected {A} e.

(** What [await ai.models.generateContent(...)] followed by
    [JSON.parse(response.text.trim())] gives inside the [try]: the parsed
    object, or a thrown value (network, quota, [SyntaxError]). *)
Inductive Reply (J : Type) :=
| Parsed (j : J)
| Failed (e : Thrown).
Arguments Parsed {J} j.
Arguments Failed {J} e.

Definition QUOTA_MESSAGE : string :=
  "You've reached the daily API quota for this model. Please try again tomorrow.".

(** [handleApiError], lines 1075-1081. *)
Definition handleApiError (error : Thrown) (context : string) (defaultMessage : string) : Thrown :=
  match error with
  | ErrorObject message =>
      if sIncludes message "429" || sIncludes message "RESOURCE_EXHAUSTED"
      then ErrorObject QUOTA_MESSAGE
      else ErrorObject defaultMessage
  | OtherValue _ => ErrorObject defaultMessage
  end.

(** [err instanceof Error ? err.message : 'An unknown error occurred'],
    the text the orchestrator shows for a rejected call. *)
Definition shownMessage (err : Thrown) : string :=
  match err with
  | ErrorObject message => message
  | OtherValue _ => "An unknown error occurred"
  end.

(** The service functions whose [catch] block ends in
    [throw handleApiError(error, <context>, <default message>)]. *)
Inductive Operation :=
| GenerateInterviewPlan
| GenerateInterviewFollowUp
| GenerateProblemSolution
| GenerateCourseOutline
| GenerateLessonContent
| EvaluateCode
| GenerateChatResponse.

Definition contextOf (op : Operation) : string :=
  match op with
  | GenerateInterviewPlan => "generateInterviewPlan"
  | GenerateInterviewFollowUp => "generateInterviewFollowUp"
  | GenerateProblemSolution => "generateProblemSolution"
  | GenerateCourseOutline => "generateCourseOutline"
  | GenerateLessonContent => "generateLessonContent"
  | EvaluateCode => "evaluateCode"
  | GenerateChatResponse => "generateChatResponse"
  end.

Definition defaultMessageOf (op : Operation) : string :=
  match op with
  | GenerateInterviewPlan =>
      "I had trouble preparing the interview plan. Please check the inputs and try again."
  | GenerateInterviewFollowUp =>
      "Sorry, I'm having a moment of network latency. Could you please repeat that?"
  | GenerateProblemSolution =>
      "I had trouble solving that problem. Please try rephrasing it or checking the uploaded file."
  | GenerateCourseOutline =>
      "I had trouble designing that course. Please try a different topic."
  | GenerateLessonContent =>
      "I had trouble preparing the next lesson. Please try again."
  | EvaluateCode =>
      "I had trouble evaluating your code. Please try again."
  | GenerateChatResponse =>
      "Sorry, I'm having trouble responding right now. Please try again."
  end.

(** The [catch] block of operation [op]. *)
Definition failureOf (op : Operation) (error : Thrown) : Thrown :=
  handleApiError error (contextOf op) (defaultMessageOf op).

(** [generateBadgeTitle], lines 1775-1815, is the one service function
    that does not rethrow: its [catch] returns a fallback title.
    [firstWord] is [skillName.split(' ')[0]]. *)
Fixpoint firstWordChars (s : chars) : chars :=
  match s with
  | [] => []
  | c :: rest => if Ascii.eqb c " " then [] else c :: firstWordChars rest
  end.

Definition generateBadgeTitle (skillName : string) (reply : Reply (option string)) : string :=
  match reply with
  | Parsed (Some title) => if String.eqb title EmptyString then toString (firstWordChars (ofString skillName)) ++ " Master" else title
  | _ => toString (firstWordChars (ofString skillName)) ++ " Master"
  end.

(** *** Lesson content *)

(** The JSON values a field may hold, as far as the checks below tell
    them apart.  Numbers are the integral ones. *)
Inductive JsValue :=
| JUndefined
| JNull
| JNumber (n : Z)
| JString (s : string)
| JBoolean (b : bool).

Record VisualAid := { vaTitle : string; vaContent : string }.

(** A lesson step as parsed; [choices] is [None] when the field is
    missing or [null]. *)
Inductive StepJson :=
| ExplanationJson (content : string) (visualAid : option VisualAid)
| MultipleChoiceJson (question : string) (choices : option (list string))
                     (correctChoiceIndex : JsValue) (feedback : string)
| CodeTaskJson (mission startingCode : string) (visualAid : option VisualAid)
| OtherStepJson (type : string).

(** [topicTitle] is [None] when missing; [steps] is [None] when the field
    is not an array. *)
Record LessonJson := {
  topicTitle : option string;
  steps : option (list StepJson)
}.

Definition isNull (v : JsValue) : bool :=
  match v with JNull => true | _ => false end.

Definition isUndefined (v : JsValue) : bool :=
  match v with JUndefined => true | _ => false end.

(** [typeof v === 'number'] *)
Definition isNumber (v : JsValue) : bool :=
  match v with JNumber _ => true | _ => false end.

(** [v < n] for [v] already known to be a number. *)
Definition lessThan (v : JsValue) (n : Z) : bool :=
  match v with
  | JNumber i => (i <? n)%Z
  | _ => false
  end.

(** Lines 1593-1597. *)
Definition isIndexValid (correctChoiceIndex : JsValue) (choices : option (list string)) : bool :=
  negb (isNull correctChoiceIndex) &&
  negb (isUndefined correctChoiceIndex) &&
  isNumber correctChoiceIndex &&
  match choices with
  | Some cs => lessThan correctChoiceIndex (Z.of_nat (List.length cs))
  | None => false
  end.

(** The predicate handed to [lesson.steps.filter], lines 1590-1605. *)
Definition keepStep (step : StepJson) : bool :=
  match step with
  | MultipleChoiceJson _ choices correctChoiceIndex _ =>
      if negb (isIndexValid correctChoiceIndex choices) then false else true
  | _ => true
  end.

Definition truthyString (s : option string) : bool :=
  match s with
  | Some t => negb (String.eqb t EmptyString)
  | None => false
  end.

(** The part of [generateLessonContent] after the request, lines
    1577-1617.  An error thrown inside the [try] is caught by the same
    [catch] as a failure of the request. *)
Definition generateLessonContent (reply : Reply LessonJson) : Result LessonJson :=
  match reply with
  | Failed error => Rejected (failureOf GenerateLessonContent error)
  | Parsed lesson =>
      match steps lesson with
      | Some allSteps =>
          if negb (truthyString (topicTitle lesson)) || (List.length allSteps =? 0)%nat
          then Rejected (failureOf GenerateLessonContent
                           (ErrorObject "Invalid lesson format from AI."))
          else
            let originalStepCount := List.length allSteps in
            let validatedSteps := filter keepStep allSteps in
            if (List.length validatedSteps =? 0)%nat && (0 <? originalStepCount)%nat
            then Rejected (failureOf GenerateLessonContent
                             (ErrorObject "The AI returned a lesson where all steps were invalid. Please try generating it again."))
            else Resolved {| topicTitle := topicTitle lesson; steps := Some validatedSteps |}
      | None =>
          Rejected (failureOf GenerateLessonContent
                      (ErrorObject "Invalid lesson format from AI."))
      end
  end.

(** *** Code evaluation *)

Record Hint := { conceptual : string; direct : string; solution : string }.

(** The parsed verdict; a field is [None] when it is missing or has the
    wrong type. *)
Record EvaluationJson := {
  isCorrect : option bool;
  feedback : option string;
  hint : option Hint
}.

Record Evaluation := {
  evIsCorrect : bool;
  evFeedback : string;
  evHint : option Hint
}.

(** The part of [evaluateCode] after the request, lines 1659-1676. *)
Definition evaluateCode (reply : Reply EvaluationJson) : Result Evaluation :=
  match reply with
  | Failed error => Rejected (failureOf EvaluateCode error)
  | Parsed evaluation =>
      match isCorrect evaluation, feedback evaluation with
      | Some correct, Some text =>
          if negb correct && (match hint evaluation with None => true | Some _ => false end)
          then Rejected (failureOf EvaluateCode
                           (ErrorObject "AI failed to provide a hint for the incorrect answer."))
          else Resolved {| evIsCorrect := correct; evFeedback := text; evHint := hint evaluation |}
      | _, _ =>
          Rejected (failureOf EvaluateCode (ErrorObject "Invalid evaluation format from AI."))
      end
  end.

(** *** Chat and interview follow-up *)

(** The parsed reply; [responseText] is [None] when missing,
    [isRoundFinished] is [None] when it is not a boolean. *)
Record ChatResponseJson := {
  responseTextJson : option string;
  updatedCodeJson : option string;
  visualAidJson : option VisualAid;
  isRoundFinishedJson : option bool
}.

Record ChatResponse := {
  responseText : string;
  updatedCode : option string;
  visualAid : option VisualAid;
  isRoundFinished : bool
}.

(** The part of [generateChatResponse] after the request, lines
    1759-1771.  The reply has no [isRoundFinished]; the orchestrator
    does not read it in this case. *)
Definition generateChatResponse (reply : Reply ChatResponseJson) : Result ChatResponse :=
  match reply with
  | Failed error => Rejected (failureOf GenerateChatResponse error)
  | Parsed chatResponse =>
      match responseTextJson chatResponse with
      | Some t =>
          if String.eqb t EmptyString
          then Rejected (failureOf GenerateChatResponse
                           (ErrorObject "Invalid chat response format from AI."))
          else Resolved {| responseText := t;
                           updatedCode := updatedCodeJson chatResponse;
                           visualAid := visualAidJson chatResponse;
                           isRoundFinished := false |}
      | None => Rejected (failureOf GenerateChatResponse
                            (ErrorObject "Invalid chat response format from AI."))
      end
  end.

(** The part of [generateInterviewFollowUp] after the request, lines
    1459-1472. *)
Definition generateInterviewFollowUp (reply : Reply ChatResponseJson) : Result ChatResponse :=
  match reply with
  | Failed error => Rejected (failureOf GenerateInterviewFollowUp error)
  | Parsed followUp =>
      match responseTextJson followUp, isRoundFinishedJson followUp with
      | Some t, Some finished =>
          if String.eqb t EmptyString
          then Rejected (failureOf GenerateInterviewFollowUp
                           (ErrorObject "Invalid interview follow-up format from AI."))
          else Resolved {| responseText := t;
                           updatedCode := updatedCodeJson followUp;
                           visualAid := visualAidJson followUp;
                           isRoundFinished := finished |}
      | _, _ => Rejected (failureOf GenerateInterviewFollowUp
                            (ErrorObject "Invalid interview follow-up format from AI."))
      end
  end.

End Provider.

(** ** Streak and activity log on completing a lesson
       ([isYesterday], [isToday], and lines 263-307 of [handleNextStep]) *)

Module Streak.
Local Open Scope Z_scope.

Definition msPerDay : Z := 86400000.

(** The clock of the device: [now] is the time value of [new Date()]
    (milliseconds since the epoch, UTC) and [offset] is local time minus
    UTC, in milliseconds, taken as constant. *)
Record Clock := { now : Z; offset : Z }.

(** A date string ["YYYY-MM-DD"], written as the number of that calendar
    day counted from 1970-01-01. *)
Definition DateString := Z.

(** [new Date("YYYY-MM-DD")]: a date-only string is read as midnight
    UTC. *)
Definition parseDate (dateString : DateString) : Z := dateString * msPerDay.

(** [d.toDateString()] prints the calendar day of [d] in local time;
    two such texts are equal exactly when the local days are. *)
Definition toDateString (c : Clock) (time : Z) : Z := (time + offset c) / msPerDay.

(** [d.toISOString().split('T')[0]]: the calendar day of [d] in UTC. *)
Definition toISODate (time : Z) : DateString := time / msPerDay.

(** Lines 32-37.  [setDate(getDate() - 1)] steps one local calendar day
    back. *)
Definition isYesterday (c : Clock) (dateString : DateString) : bool :=
  let date := parseDate dateString in
  toDateString c date =? toDateString c (now c) - 1.

(** Lines 39-41. *)
Definition isToday (c : Clock) (dateString : DateString) : bool :=
  toDateString c (parseDate dateString) =? toDateString c (now c).

(** The gamification types of types.ts (the icon of a skill is left
    out). *)
Record Badge := {
  badgeId : string;
  courseName : string;
  badgeTitle : string;
  dateAwarded : string
}.

Record Topic := {
  topicId : string;
  topicTitle : string;
  description : string;
  isCompleted : bool;
  topicPoints : Z
}.

Record Skill := {
  skillId : string;
  skillName : string;
  topics : list Topic
}.

Record ActivityLogEntry := { date : DateString; logPoints : Z }.

Record UserProfile := {
  userId : string;
  userName : string;
  password : string;
  points : Z;
  currentStreak : Z;
  longestStreak : Z;
  lastActivityDate : option DateString;
  activityLog : list ActivityLogEntry;
  badges : list Badge;
  skills : list Skill
}.

(** [a.findIndex(p)] *)
Fixpoint findIndexFrom {A : Type} (p : A -> bool) (a : list A) (i : Z) : Z :=
  match a with
  | [] => -1
  | x :: rest => if p x then i else findIndexFrom p rest (i + 1)
  end.

Definition findIndex {A : Type} (p : A -> bool) (a : list A) : Z := findIndexFrom p a 0.

(** [a.map((x, index) => f x index)] *)
Fixpoint mapIndexedFrom {A B : Type} (f : A -> Z -> B) (a : list A) (i : Z) : list B :=
  match a with
  | [] => []
  | x :: rest => f x i :: mapIndexedFrom f rest (i + 1)
  end.

Definition mapIndexed {A B : Type} (f : A -> Z -> B) (a : list A) : list B :=
  mapIndexedFrom f a 0.

(** [x || fallback] on numbers: zero is falsy. *)
Definition orNumber (x fallback : Z) : Z := if x =? 0 then fallback else x.

(** Lines 267-274. *)
Definition nextStreak (c : Clock) (currentUser : UserProfile) : Z :=
  let newStreak := currentStreak currentUser in
  match lastActivityDate currentUser with
  | None => 1
  | Some last =>
      if negb (isToday c last)
      then if isYesterday c last then newStreak + 1 else 1
      else newStreak
  end.

(** Lines 278-288. *)
Definition nextActivityLog (today : DateString) (pointsEarned : Z)
                           (log : list ActivityLogEntry) : list ActivityLogEntry :=
  let todayLogIndex := findIndex (fun entry => date entry =? today) log in
  if -1 <? todayLogIndex
  then mapIndexed (fun entry index =>
                     if index =? todayLogIndex
                     then {| date := date entry; logPoints := logPoints entry + pointsEarned |}
                     else entry) log
  else (log ++ [{| date := today; logPoints := pointsEarned |}])%list.

Definition sameId (a : string) (b : option string) : bool :=
  match b with
  | Some s => String.eqb a s
  | None => false
  end.

(** Lines 264-307: the profile written back when the last step of a
    lesson is left. *)
Definition completeLesson (c : Clock) (currentUser : UserProfile)
                          (currentSkillId : option string)
                          (currentTopic : option Topic) : UserProfile :=
  let pointsEarned :=
    match currentTopic with
    | Some t => orNumber (topicPoints t) 100
    | None => 100
    end in
  let today := toISODate (now c) in
  let newStreak := nextStreak c currentUser in
  let newLongestStreak := Z.max (orNumber (longestStreak currentUser) 0) newStreak in
  let newActivityLog := nextActivityLog today pointsEarned (activityLog currentUser) in
  let updatedSkills :=
    map (fun skill =>
           if sameId (skillId skill) currentSkillId
           then {| skillId := skillId skill; skillName := skillName skill;
                   topics := map (fun topic =>
                                    if sameId (topicId topic) (option_map topicId currentTopic)
                                    then {| topicId := topicId topic;
                                            topicTitle := topicTitle topic;
                                            description := description topic;
                                            isCompleted := true;
                                            topicPoints := topicPoints topic |}
                                    else topic) (topics skill) |}
           else skill) (skills currentUser) in
  {| userId := userId currentUser;
     userName := userName currentUser;
     password := password currentUser;
     points := points currentUser + pointsEarned;
     currentStreak := newStreak;
     longestStreak := newLongestStreak;
     lastActivityDate := Some today;
     activityLog := newActivityLog;
     badges := badges currentUser;
     skills := updatedSkills |}.

End Streak.

(** ** Shared enumerations of types.ts *)

Module Types.

(** [TutorState] of types.ts. *)
Inductive TutorState :=
| IDLE
| SELECTING_SKILL
| LOADING_LESSON
| EXPLAINING
| AWAITING_TASK
| AWAITING_CHOICE
| AWAITING_CONTINUE
| EVALUATING
| CHATTING
| CLARIFYING_DOUBT
| CORRECT
| INCORRECT
| COURSE_COMPLETED
| ERROR.

Definition tutorStateEqb (a b : TutorState) : bool :=
  match a, b with
  | IDLE, IDLE | SELECTING_SKILL, SELECTING_SKILL | LOADING_LESSON, LOADING_LESSON
  | EXPLAINING, EXPLAINING | AWAITING_TASK, AWAITING_TASK
  | AWAITING_CHOICE, AWAITING_CHOICE | AWAITING_CONTINUE, AWAITING_CONTINUE
  | EVALUATING, EVALUATING | CHATTING, CHATTING
  | CLARIFYING_DOUBT, CLARIFYING_DOUBT | CORRECT, CORRECT | INCORRECT, INCORRECT
  | COURSE_COMPLETED, COURSE_COMPLETED | ERROR, ERROR => true
  | _, _ => false
  end.

Inductive AppMode := SELECTION | TUTOR | DOUBT_SOLVER | INTERVIEW_PREP.

Definition appModeEqb (a b : AppMode) : bool :=
  match a, b with
  | SELECTION, SELECTION | TUTOR, TUTOR | DOUBT_SOLVER, DOUBT_SOLVER
  | INTERVIEW_PREP, INTERVIEW_PREP => true
  | _, _ => false
  end.

End Types.

(** ** The listening gate (the effect of App.tsx lines 567-581) *)

Module Gate.

Import Types.

(** The values the effect reads, apart from [isListening]. *)
Record Inputs := {
  tutorState : TutorState;
  isLoading : bool;
  isSpeaking : bool;
  isSpeechSupported : bool
}.

Definition inputsEqb (a b : Inputs) : bool :=
  tutorStateEqb (tutorState a) (tutorState b) &&
  Bool.eqb (isLoading a) (isLoading b) &&
  Bool.eqb (isSpeaking a) (isSpeaking b) &&
  Bool.eqb (isSpeechSupported a) (isSpeechSupported b).

(** Line 568. *)
Definition isAwaitingUserInput (i : Inputs) : bool :=
  tutorStateEqb (tutorState i) AWAITING_TASK ||
  tutorStateEqb (tutorState i) INCORRECT ||
  tutorStateEqb (tutorState i) AWAITING_CHOICE.

(** Line 569. *)
Definition canListen (i : Inputs) : bool :=
  isAwaitingUserInput i && negb (isLoading i) && negb (isSpeaking i) && isSpeechSupported i.

Inductive Request := StartListening | StopListening.

(** Lines 571-577: the body of the effect, for the values of one
    render. *)
Definition effectBody (i : Inputs) (isListening : bool) : list Request :=
  if canListen i && negb isListening then [StartListening]
  else if negb (canListen i) && isListening then [StopListening]
  else [].

(** Lines 578-580: the clean-up the effect returns, run before the next
    run of the effect with the [isListening] of the render that made
    it. *)
Definition effectCleanup (isListening : bool) : list Request :=
  if isListening then [StopListening] else [].

(** Modelled from the spec: [useSpeechRecognition] is not among the
    sources.  Section 4.2 gives it a "currently listening" flag and two
    control operations, start and stop listening, "idempotent, safe to
    call redundantly": a request sets the flag, whatever it was. *)
Definition obey (listening : bool) (r : Request) : bool :=
  match r with
  | StartListening => true
  | StopListening => false
  end.

Definition obeyAll (rs : list Request) (listening : bool) : bool :=
  fold_left obey rs listening.

(** The gate between two renders: the inputs and the [isListening] value
    that the last run of the effect saw, and the flag of the recognition
    engine now. *)
Record Gate := {
  inputs : Inputs;
  seen : bool;
  listening : bool
}.

(** First render: the effect runs, with [isListening] false. *)
Definition mount (i : Inputs) : Gate :=
  {| inputs := i; seen := false;
     listening := obeyAll (effectBody i false) false |}.

(** A later render with inputs [i].  It reads the flag of the engine as
    its [isListening].  When a dependency differs from the last run, the
    old clean-up runs and then the new body. *)
Definition render (i : Inputs) (g : Gate) : Gate :=
  let isListening := listening g in
  if inputsEqb i (inputs g) && Bool.eqb isListening (seen g)
  then g
  else
    {| inputs := i; seen := isListening;
       listening := obeyAll (effectBody i isListening)
                      (obeyAll (effectCleanup (seen g)) (listening g)) |}.

(** Nothing is left to re-render: the flag is the one the last run saw. *)
Definition settled (g : Gate) : bool := Bool.eqb (seen g) (listening g).

(** The configurations the application can be in. *)
Inductive reachable : Gate -> Prop :=
| reach_mount : forall i, reachable (mount i)
| reach_render : forall i g, reachable g -> reachable (render i g).

(** Re-rendering with the same inputs until the flag is stable. *)
Fixpoint settle (rounds : nat) (g : Gate) : Gate :=
  match rounds with
  | O => g
  | S n => if settled g then g else settle n (render (inputs g) g)
  end.

End Gate.

(** ** The session orchestrator (first part of App.tsx) *)

Module App.
Import JsString Types Provider.
Local Open Scope string_scope.

(** *** Data of types.ts as the orchestrator holds it *)

Inductive LessonStep :=
| EXPLANATION (content : string) (visualAid : option VisualAid)
| MULTIPLE_CHOICE (question : string) (choices : list string)
                  (correctChoiceIndex : Z) (feedback : string)
| CODE_TASK (mission startingCode : string) (visualAid : option VisualAid).

Record Lesson := { lessonTopicTitle : string; lessonSteps : list LessonStep }.

Inductive Sender := user | ai.

Record ChatMessage := {
  sender : Sender;
  msgText : string;
  msgCode : option string;
  msgVisualAid : option VisualAid;
  msgChoices : option (list string);
  msgCorrectChoiceIndex : option Z;
  isSystem : option bool
}.

Record ProblemSolution := {
  problemExplanation : string;
  solutionExplanation : string;
  solutionCode : string;
  language : string
}.

Inductive InterviewerGender := genderMale | genderFemale.

Record InterviewRound := {
  roundType : string;
  roundTitle : string;
  completed : bool;
  interviewerName : string;
  interviewerGender : InterviewerGender
}.

Record InterviewSession := {
  company : string;
  role : string;
  rounds : list InterviewRound;
  currentRoundIndex : nat
}.

Record File := { fileName : string }.

(** [{ message, attachment }] *)
Record FailedMessage := { failedText : string; failedAttachment : option File }.

(** *** The [useState] cells read or written by the handlers below.
    [currentSkillName] stands for [currentSkill?.name], which the source
    derives from the user list; [roundAdvances] counts the calls of
    [handleNextInterviewRound], whose timers are not part of this
    development. *)
Record AppState := {
  appMode : AppMode;
  tutorState : TutorState;
  currentSkillName : option string;
  lesson : option Lesson;
  currentStepIndex : nat;
  incorrectAttempts : Z;
  currentHint : option Hint;
  problem : string;
  solution : option ProblemSolution;
  interviewSession : option InterviewSession;
  userCode : string;
  whiteboardDisplayCode : string;
  diagram : option VisualAid;
  clarificationCode : option string;
  conversationHistory : list ChatMessage;
  isLoading : bool;
  error : option string;
  chatError : option string;
  lastFailedMessage : option FailedMessage;
  stateBeforeDoubt : TutorState;
  roundAdvances : nat
}.

(** Cell updates. *)

Definition setTutorState (v : TutorState) (s : AppState) : AppState :=
  {| appMode := appMode s; tutorState := v; currentSkillName := currentSkillName s;
     lesson := lesson s; currentStepIndex := currentStepIndex s;
     incorrectAttempts := incorrectAttempts s; currentHint := currentHint s;
     problem := problem s; solution := solution s;
     interviewSession := interviewSession s; userCode := userCode s;
     whiteboardDisplayCode := whiteboardDisplayCode s; diagram := diagram s;
     clarificationCode := clarificationCode s;
     conversationHistory := conversationHistory s; isLoading := isLoading s;
     error := error s; chatError := chatError s;
     lastFailedMessage := lastFailedMessage s; stateBeforeDoubt := stateBeforeDoubt s;
     roundAdvances := roundAdvances s |}.

Definition setIncorrectAttempts (v : Z) (s : AppState) : AppState :=
  {| appMode := appMode s; tutorState := tutorState s;
     currentSkillName := currentSkillName s; lesson := lesson s;
     currentStepIndex := currentStepIndex s; incorrectAttempts := v;
     currentHint := currentHint s; problem := problem s; solution := solution s;
     interviewSession := interviewSession s; userCode := userCode s;
     whiteboardDisplayCode := whiteboardDisplayCode s; diagram := diagram s;
     clarificationCode := clarificationCode s;
     conversationHistory := conversationHistory s; isLoading := isLoading s;
     error := error s; chatError := chatError s;
     lastFailedMessage := lastFailedMessage s; stateBeforeDoubt := stateBeforeDoubt s;
     roundAdvances := roundAdvances s |}.

Definition setCurrentHint (v : option Hint) (s : AppState) : AppState :=
  {| appMode := appMode s; tutorState := tutorState s;
     currentSkillName := currentSkillName s; lesson := lesson s;
     currentStepIndex := currentStepIndex s; incorrectAttempts := incorrectAttempts s;
     currentHint := v; problem := problem s; solution := solution s;
     interviewSession := interviewSession s; userCode := userCode s;
     whiteboardDisplayCode := whiteboardDisplayCode s; diagram := diagram s;
     clarificationCode := clarificationCode s;
     conversationHistory := conversationHistory s; isLoading := isLoading s;
     error := error s; chatError := chatError s;
     lastFailedMessage := lastFailedMessage s; stateBeforeDoubt := stateBeforeDoubt s;
     roundAdvances := roundAdvances s |}.

Definition setUserCode (v : string) (s : AppState) : AppState :=
  {| appMode := appMode s; tutorState := tutorState s;
     currentSkillName := currentSkillName s; lesson := lesson s;
     currentStepIndex := currentStepIndex s; incorrectAttempts := incorrectAttempts s;
     currentHint := currentHint s; problem := problem s; solution := solution s;
     interviewSession := interviewSession s; userCode := v;
     whiteboardDisplayCode := whiteboardDisplayCode s; diagram := diagram s;
     clarificationCode := clarificationCode s;
     conversationHistory := conversationHistory s; isLoading := isLoading s;
     error := error s; chatError := chatError s;
     lastFailedMessage := lastFailedMessage s; stateBeforeDoubt := stateBeforeDoubt s;
     roundAdvances := roundAdvances s |}.

Definition setWhiteboardDisplayCode (v : string) (s : AppState) : AppState :=
  {| appMode := appMode s; tutorState := tutorState s;
     currentSkillName := currentSkillName s; lesson := lesson s;
     currentStepIndex := currentStepIndex s; incorrectAttempts := incorrectAttempts s;
     currentHint := currentHint s; problem := problem s; solution := solution s;
     interviewSession := interviewSession s; userCode := userCode s;
     whiteboardDisplayCode := v; diagram := diagram s;
     clarificationCode := clarificationCode s;
     conversationHistory := conversationHistory s; isLoading := isLoading s;
     error := error s; chatError := chatError s;
     lastFailedMessage := lastFailedMessage s; stateBeforeDoubt := stateBeforeDoubt s;
     roundAdvances := roundAdvances s |}.

Definition setDiagram (v : option VisualAid) (s : AppState) : AppState :=
  {| appMode := appMode s; tutorState := tutorState s;
     currentSkillName := currentSkillName s; lesson := lesson s;
     currentStepIndex := currentStepIndex s; incorrectAttempts := incorrectAttempts s;
     currentHint := currentHint s; problem := problem s; solution := solution s;
     interviewSession := interviewSession s; userCode := userCode s;
     whiteboardDisplayCode := whiteboardDisplayCode s; diagram := v;
     clarificationCode := clarificationCode s;
     conversationHistory := conversationHistory s; isLoading := isLoading s;
     error := error s; chatError := chatError s;
     lastFailedMessage := lastFailedMessage s; stateBeforeDoubt := stateBeforeDoubt s;
     roundAdvances := roundAdvances s |}.

Definition setClarificationCode (v : option string) (s : AppState) : AppState :=
  {| appMode := appMode s; tutorState := tutorState s;
     currentSkillName := currentSkillName s; lesson := lesson s;
     currentStepIndex := currentStepIndex s; incorrectAttempts := incorrectAttempts s;
     currentHint := currentHint s; problem := problem s; solution := solution s;
     interviewSession := interviewSession s; userCode := userCode s;
     whiteboardDisplayCode := whiteboardDisplayCode s; diagram := diagram s;
     clarificationCode := v; conversationHistory := conversationHistory s;
     isLoading := isLoading s; error := error s; chatError := chatError s;
     lastFailedMessage := lastFailedMessage s; stateBeforeDoubt := stateBeforeDoubt s;
     roundAdvances := roundAdvances s |}.

Definition setConversationHistory (v : list ChatMessage) (s : AppState) : AppState :=
  {| appMode := appMode s; tutorState := tutorState s;
     currentSkillName := currentSkillName s; lesson := lesson s;
     currentStepIndex := currentStepIndex s; incorrectAttempts := incorrectAttempts s;
     currentHint := currentHint s; problem := problem s; solution := solution s;
     interviewSession := interviewSession s; userCode := userCode s;
     whiteboardDisplayCode := whiteboardDisplayCode s; diagram := diagram s;
     clarificationCode := clarificationCode s; conversationHistory := v;
     isLoading := isLoading s; error := error s; chatError := chatError s;
     lastFailedMessage := lastFailedMessage s; stateBeforeDoubt := stateBeforeDoubt s;
     roundAdvances := roundAdvances s |}.

Definition setIsLoading (v : bool) (s : AppState) : AppState :=
  {| appMode := appMode s; tutorState := tutorState s;
     currentSkillName := currentSkillName s; lesson := lesson s;
     currentStepIndex := currentStepIndex s; incorrectAttempts := incorrectAttempts s;
     currentHint := currentHint s; problem := problem s; solution := solution s;
     interviewSession := interviewSession s; userCode := userCode s;
     whiteboardDisplayCode := whiteboardDisplayCode s; diagram := diagram s;
     clarificationCode := clarificationCode s;
     conversationHistory := conversationHistory s; isLoading := v; error := error s;
     chatError := chatError s; lastFailedMessage := lastFailedMessage s;
     stateBeforeDoubt := stateBeforeDoubt s; roundAdvances := roundAdvances s |}.

Definition setError (v : option string) (s : AppState) : AppState :=
  {| appMode := appMode s; tutorState := tutorState s;
     currentSkillName := currentSkillName s; lesson := lesson s;
     currentStepIndex := currentStepIndex s; incorrectAttempts := incorrectAttempts s;
     currentHint := currentHint s; problem := problem s; solution := solution s;
     interviewSession := interviewSession s; userCode := userCode s;
     whiteboardDisplayCode := whiteboardDisplayCode s; diagram := diagram s;
     clarificationCode := clarificationCode s;
     conversationHistory := conversationHistory s; isLoading := isLoading s; error := v;
     chatError := chatError s; lastFailedMessage := lastFailedMessage s;
     stateBeforeDoubt := stateBeforeDoubt s; roundAdvances := roundAdvances s |}.

Definition setChatError (v : option string) (s : AppState) : AppState :=
  {| appMode := appMode s; tutorState := tutorState s;
     currentSkillName := currentSkillName s; lesson := lesson s;
     currentStepIndex := currentStepIndex s; incorrectAttempts := incorrectAttempts s;
     currentHint := currentHint s; problem := problem s; solution := solution s;
     interviewSession := interviewSession s; userCode := userCode s;
     whiteboardDisplayCode := whiteboardDisplayCode s; diagram := diagram s;
     clarificationCode := clarificationCode s;
     conversationHistory := conversationHistory s; isLoading := isLoading s;
     error := error s; chatError := v; lastFailedMessage := lastFailedMessage s;
     stateBeforeDoubt := stateBeforeDoubt s; roundAdvances := roundAdvances s |}.

Definition setLastFailedMessage (v : option FailedMessage) (s : AppState) : AppState :=
  {| appMode := appMode s; tutorState := tutorState s;
     currentSkillName := currentSkillName s; lesson := lesson s;
     currentStepIndex := currentStepIndex s; incorrectAttempts := incorrectAttempts s;
     currentHint := currentHint s; problem := problem s; solution := solution s;
     interviewSession := interviewSession s; userCode := userCode s;
     whiteboardDisplayCode := whiteboardDisplayCode s; diagram := diagram s;
     clarificationCode := clarificationCode s;
     conversationHistory := conversationHistory s; isLoading := isLoading s;
     error := error s; chatError := chatError s; lastFailedMessage := v;
     stateBeforeDoubt := stateBeforeDoubt s; roundAdvances := roundAdvances s |}.

Definition setStateBeforeDoubt (v : TutorState) (s : AppState) : AppState :=
  {| appMode := appMode s; tutorState := tutorState s;
     currentSkillName := currentSkillName s; lesson := lesson s;
     currentStepIndex := currentStepIndex s; incorrectAttempts := incorrectAttempts s;
     currentHint := currentHint s; problem := problem s; solution := solution s;
     interviewSession := interviewSession s; userCode := userCode s;
     whiteboardDisplayCode := whiteboardDisplayCode s; diagram := diagram s;
     clarificationCode := clarificationCode s;
     conversationHistory := conversationHistory s; isLoading := isLoading s;
     error := error s; chatError := chatError s;
     lastFailedMessage := lastFailedMessage s; stateBeforeDoubt := v;
     roundAdvances := roundAdvances s |}.

Definition setRoundAdvances (v : nat) (s : AppState) : AppState :=
  {| appMode := appMode s; tutorState := tutorState s;
     currentSkillName := currentSkillName s; lesson := lesson s;
     currentStepIndex := currentStepIndex s; incorrectAttempts := incorrectAttempts s;
     currentHint := currentHint s; problem := problem s; solution := solution s;
     interviewSession := interviewSession s; userCode := userCode s;
     whiteboardDisplayCode := whiteboardDisplayCode s; diagram := diagram s;
     clarificationCode := clarificationCode s;
     conversationHistory := conversationHistory s; isLoading := isLoading s;
     error := error s; chatError := chatError s;
     lastFailedMessage := lastFailedMessage s; stateBeforeDoubt := stateBeforeDoubt s;
     roundAdvances := v |}.

Definition appendHistory (ms : list ChatMessage) (s : AppState) : AppState :=
  setConversationHistory (conversationHistory s ++ ms)%list s.

(** [{ sender, text }] with the optional fields absent. *)
Definition plainMessage (who : Sender) (t : string) : ChatMessage :=
  {| sender := who; msgText := t; msgCode := None; msgVisualAid := None;
     msgChoices := None; msgCorrectChoiceIndex := None; isSystem := None |}.

(** *** Completion callbacks handed to [speak] *)

Inductive Action :=
| SetTutorState (s : TutorState)
| HandleNextInterviewRound.

Definition act (a : Action) (s : AppState) : AppState :=
  match a with
  | SetTutorState t => setTutorState t s
  | HandleNextInterviewRound => setRoundAdvances (S (roundAdvances s)) s
  end.

Definition World := Speech.World Action AppState.
Definition Outcome := Speech.Outcome Action AppState.

Definition update (f : AppState -> AppState) (w : World) : World :=
  Speech.setClient (f (Speech.client w)) w.

(** Completion callbacks of App.tsx nest at most three calls of [speak]
    ([handleSolveDoubt]). *)
Definition callbackDepth : nat := 4.

Definition speak : Speech.SpeakInput -> option (Speech.Callback Action) -> string -> World -> Outcome :=
  Speech.speak act callbackDepth.

(** *** Derived values *)

(** [lesson?.steps[currentStepIndex]] *)
Definition currentStep (r : AppState) : option LessonStep :=
  match lesson r with
  | Some l => nth_error (lessonSteps l) (currentStepIndex r)
  | None => None
  end.

(** [interviewSession?.rounds[interviewSession.currentRoundIndex]] *)
Definition currentInterviewRound (r : AppState) : option InterviewRound :=
  match interviewSession r with
  | Some session => nth_error (rounds session) (currentRoundIndex session)
  | None => None
  end.

Definition genderName (g : InterviewerGender) : string :=
  match g with
  | genderMale => "male"
  | genderFemale => "female"
  end.

Definition quote : string := String (ascii_of_nat 34) EmptyString.
Definition newline : string := String (ascii_of_nat 10) EmptyString.

(** *** String helpers of the multiple-choice shortcut *)

(** [toLowerCase] on code units below 256: A-Z, and the Latin-1 capitals
    other than the multiplication sign. *)
Definition lowerChar (c : ascii) : ascii :=
  let n := code c in
  if ((65 <=? n) && (n <=? 90))%nat || (((192 <=? n) && (n <=? 222))%nat && negb (n =? 215)%nat)
  then ascii_of_nat (n + 32)
  else c.

Definition toLowerCase (s : chars) : chars := map lowerChar s.

(** [replace(/[.,?]/g, '')] *)
Definition stripPunctuation (s : chars) : chars :=
  filter (fun c => negb (Ascii.eqb c "." || Ascii.eqb c "," || Ascii.eqb c "?")) s.

Fixpoint trimStart (s : chars) : chars :=
  match s with
  | c :: rest => if isWhiteSpace c then trimStart rest else s
  | [] => []
  end.

Definition trim (s : chars) : chars := rev (trimStart (rev (trimStart s))).

(** Lines 370-372: the index of the first choice that contains the
    cleaned message, if any. *)
Definition matchChoice (choices : list string) (message : string) : option nat :=
  let lowered := map (fun c => toLowerCase (ofString c)) choices in
  let cleanedUserChoice := trim (stripPunctuation (toLowerCase (ofString message))) in
  let matchedIndex := Streak.findIndex (fun c => includes c cleanedUserChoice) lowered in
  if (-1 <? matchedIndex)%Z then Some (Z.to_nat matchedIndex) else None.

(** *** [handleAnswerMcq], lines 344-361.  [r] holds the values of the
    render the handler was created in. *)
Definition handleAnswerMcq (r : AppState) (choiceIndex : nat) (w : World) : Outcome :=
  match currentStep r with
  | Some (MULTIPLE_CHOICE _ choices correctChoiceIndex feedback) =>
      let w := update (appendHistory
                 [plainMessage user ("Selected: " ++ quote ++ nth choiceIndex choices "undefined" ++ quote)]) w in
      if (Z.of_nat choiceIndex =? correctChoiceIndex)%Z
      then
        let feedback := if String.eqb feedback EmptyString then "Bilkul sahi!" else feedback in
        speak (Speech.Text feedback) (Some (Speech.Do (SetTutorState AWAITING_CONTINUE))) "hi-IN" w
      else
        let feedback := "Yeh sahi nahi hai. Ek baar phir sochiye." in
        Speech.andThen (speak (Speech.Text feedback) None "hi-IN" w)
          (fun w => Speech.Returned (update (setTutorState INCORRECT) w))
  | _ => Speech.Returned w
  end.

(** *** [handleSendChatMessage], lines 364-457 *)

(** What the [try] block obtains before it uses the answer: the guards
    of lines 397 and 421 and the awaited service call. *)
Definition chatAnswer (r : AppState) (reply : Reply ChatResponseJson) : Result ChatResponse :=
  if appModeEqb (appMode r) INTERVIEW_PREP
  then
    match interviewSession r, currentInterviewRound r with
    | Some _, Some _ => generateInterviewFollowUp reply
    | _, _ => Rejected (ErrorObject "Interview session not initialized.")
    end
  else
    let contextLesson :=
      if appModeEqb (appMode r) TUTOR
      then match lesson r with Some _ => true | None => false end
      else match solution r with Some _ => true | None => false end in
    let contextSkillName :=
      if appModeEqb (appMode r) TUTOR
      then currentSkillName r
      else option_map language (solution r) in
    if negb contextLesson || negb (truthyString contextSkillName)
    then Rejected (ErrorObject "Chat context not available.")
    else generateChatResponse reply.

(** [aiResponse.updatedCode] when it is truthy. *)
Definition truthyCode (c : option string) : option string :=
  match c with
  | Some t => if String.eqb t EmptyString then None else Some t
  | None => None
  end.

Definition aiMessageOf (a : ChatResponse) : ChatMessage :=
  {| sender := ai; msgText := responseText a; msgCode := updatedCode a;
     msgVisualAid := visualAid a; msgChoices := None;
     msgCorrectChoiceIndex := None; isSystem := None |}.

(** Lines 382-456, after the multiple-choice shortcut. *)
Definition chatExchange (r : AppState) (message : string) (attachment : option File)
                        (isSystemMessage : bool) (reply : Reply ChatResponseJson)
                        (w : World) : Outcome :=
  let userMessage :=
    {| sender := user; msgText := message; msgCode := None; msgVisualAid := None;
       msgChoices := None; msgCorrectChoiceIndex := None; isSystem := Some isSystemMessage |} in
  let newHistory := (conversationHistory r ++ [userMessage])%list in
  let w := update (setConversationHistory newHistory) w in
  let w := update (setStateBeforeDoubt (tutorState r)) w in
  let w := update (setTutorState CHATTING) w in
  let w := update (setChatError None) w in
  let w := update (setLastFailedMessage None) w in
  match chatAnswer r reply with
  | Resolved aiResponse =>
      let interview := appModeEqb (appMode r) INTERVIEW_PREP in
      let responseSpeechGender :=
        if interview
        then match currentInterviewRound r with
             | Some round => genderName (interviewerGender round)
             | None => "hi"
             end
        else "hi" in
      if interview && isRoundFinished aiResponse
      then
        let w := update (appendHistory [aiMessageOf aiResponse]) w in
        speak (Speech.Text (responseText aiResponse))
              (Some (Speech.Do HandleNextInterviewRound)) responseSpeechGender w
      else
        let w := update (appendHistory [aiMessageOf aiResponse]) w in
        Speech.andThen
          (speak (Speech.Text (responseText aiResponse)) None
                 (if String.eqb responseSpeechGender "hi" then "hi-IN" else responseSpeechGender) w)
          (fun w =>
             let w :=
               match truthyCode (updatedCode aiResponse) with
               | Some c =>
                   let w := update (setUserCode c) w in
                   if appModeEqb (appMode r) TUTOR
                   then update (setClarificationCode (Some c)) w
                   else update (setWhiteboardDisplayCode c) w
               | None => w
               end in
             let w :=
               match visualAid aiResponse with
               | Some d => update (setDiagram (Some d)) w
               | None => w
               end in
             let nextState :=
               if appModeEqb (appMode r) TUTOR then CLARIFYING_DOUBT else AWAITING_TASK in
             Speech.Returned (update (setTutorState nextState) w))
  | Rejected err =>
      let errorMsg := shownMessage err in
      let w := update (setChatError (Some errorMsg)) w in
      let w := update (setLastFailedMessage
                         (Some {| failedText := message; failedAttachment := attachment |})) w in
      Speech.Returned (update (setTutorState (stateBeforeDoubt r)) w)
  end.

Definition handleSendChatMessage (r : AppState) (message : string) (attachment : option File)
                                 (isSystemMessage : bool) (reply : Reply ChatResponseJson)
                                 (w : World) : Outcome :=
  if negb (hasVisibleText (ofString message)) &&
     (match attachment with None => true | Some _ => false end)
  then Speech.Returned w
  else
    let shortcut :=
      if appModeEqb (appMode r) TUTOR && tutorStateEqb (tutorState r) AWAITING_CHOICE &&
         negb isSystemMessage
      then match currentStep r with
           | Some (MULTIPLE_CHOICE _ choices _ _) => matchChoice choices message
           | _ => None
           end
      else None in
    match shortcut with
    | Some matchedIndex => handleAnswerMcq r matchedIndex w
    | None => chatExchange r message attachment isSystemMessage reply w
    end.

(** *** [handleSubmitCode], lines 481-524 *)

Definition isCodeTask (step : option LessonStep) : bool :=
  match step with
  | Some (CODE_TASK _ _ _) => true
  | _ => false
  end.

Definition hasSkill (r : AppState) : bool :=
  match currentSkillName r with Some _ => true | None => false end.

Definition handleSubmitCode (r : AppState) (evaluation : Reply EvaluationJson)
                            (chat : Reply ChatResponseJson) (w : World) : Outcome :=
  if (negb (appModeEqb (appMode r) TUTOR) && negb (appModeEqb (appMode r) INTERVIEW_PREP)) ||
     (appModeEqb (appMode r) TUTOR && (negb (hasSkill r) || negb (isCodeTask (currentStep r))))
  then Speech.Returned w
  else
    let w := update (setIsLoading true) w in
    let w := update (setError None) w in
    let w := update (setTutorState EVALUATING) w in
    let finally (o : Outcome) : Outcome :=
      Speech.andThen o (fun w => Speech.Returned (update (setIsLoading false) w)) in
    if appModeEqb (appMode r) INTERVIEW_PREP
    then
      finally
        (Speech.andThen
           (handleSendChatMessage r
              ("(I've written my code solution on the whiteboard. Here it is:" ++ newline ++ newline ++
               userCode r ++ newline ++ newline ++
               "Please evaluate it and provide feedback on time/space complexity, and suggest optimizations.)")
              None false chat w)
           (fun w => Speech.Returned (update (setIsLoading false) w)))
    else
      if isCodeTask (currentStep r) && hasSkill r
      then
        match evaluateCode evaluation with
        | Resolved verdict =>
            let w := update (appendHistory
                       [plainMessage user "(Submitting code for evaluation)";
                        plainMessage ai (evFeedback verdict)]) w in
            if evIsCorrect verdict
            then
              let w := update (setIncorrectAttempts 0) w in
              let w := update (setCurrentHint None) w in
              let w := update (setTutorState AWAITING_CONTINUE) w in
              finally
                (speak (Speech.Text (evFeedback verdict))
                       (Some (Speech.Do (SetTutorState AWAITING_CONTINUE))) "hi-IN" w)
            else
              let w := update (fun s => setIncorrectAttempts (incorrectAttempts s + 1) s) w in
              let w := update (setCurrentHint (evHint verdict)) w in
              finally
                (Speech.andThen (speak (Speech.Text (evFeedback verdict)) None "hi-IN" w)
                   (fun w => Speech.Returned (update (setTutorState INCORRECT) w)))
        | Rejected err =>
            let w := update (setError (Some (shownMessage err))) w in
            let w := update (setTutorState ERROR) w in
            finally (Speech.Returned w)
        end
      else finally (Speech.Returned w).

End App.

(** ** Readings of the specification used to state its claims *)

Module Reading.
Import JsString.

(** [\w] *)
Definition isWordChar (c : ascii) : bool :=
  let n := code c in
  ((48 <=? n) && (n <=? 57))%nat || ((65 <=? n) && (n <=? 90))%nat ||
  ((97 <=? n) && (n <=? 122))%nat || (n =? 95)%nat.

Definition startsWithUse (s : chars) : bool :=
  match Normalize.matchUse s with
  | Some _ => true
  | None => false
  end.

Definition wordCharAfterThree (s : chars) : bool :=
  match s with
  | _ :: _ :: _ :: c :: _ => isWordChar c
  | _ => false
  end.

(** "use" occurs as a whole word: the three letters, in any case, with no
    word character right before or right after. *)
Fixpoint wholeWordUseFrom (previousIsWord : bool) (s : chars) : bool :=
  match s with
  | [] => false
  | c :: tl =>
      (negb previousIsWord && startsWithUse s && negb (wordCharAfterThree s)) ||
      wholeWordUseFrom (isWordChar c) tl
  end.

Definition hasWholeWordUse (text : string) : bool :=
  wholeWordUseFrom false (ofString text).

(** No match of the expression starts inside [pre], when [pre] is
    followed by [rest]. *)
Fixpoint noMatchWithin (matchAt : chars -> option (chars * chars)) (pre rest : chars) : bool :=
  match pre with
  | [] => true
  | _ :: pre' =>
      match matchAt (pre ++ rest) with
      | Some _ => false
      | None => noMatchWithin matchAt pre' rest
      end
  end.

(** Every match of the expression takes at least one character. *)
Definition consuming (matchAt : chars -> option (chars * chars)) : Prop :=
  forall s replacement rest,
    matchAt s = Some (replacement, rest) -> (List.length rest < List.length s)%nat.

(** The text does not start with a digit. *)
Definition noLeadingDigit (s : chars) : bool :=
  match s with
  | c :: _ => negb (isDigit c)
  | [] => true
  end.

(** The three letters u, s, e in any case. *)
Definition spellsUse (c1 c2 c3 : ascii) : bool :=
  eqIgnoreCase c1 "u" && eqIgnoreCase c2 "s" && eqIgnoreCase c3 "e".

(** The engine has nothing to say and nothing to call back. *)
Definition quiet {Action Client : Type} (w : Speech.World Action Client) : Prop :=
  Speech.utteranceQueue (Speech.hook w) = [] /\
  Speech.onEndCallback (Speech.hook w) = None /\
  Speech.isSpeaking (Speech.hook w) = false /\
  Speech.mouthShape (Speech.hook w) = "X"%string /\
  Speech.busy w = false.

(** The rate-limit signal looked for in a caught value. *)
Definition quotaSignal (error : Provider.Thrown) : bool :=
  match error with
  | Provider.ErrorObject message =>
      sIncludes message "429" || sIncludes message "RESOURCE_EXHAUSTED"
  | Provider.OtherValue _ => false
  end.

(** A rejection that carries one of the two fixed texts of operation
    [op]. *)
Definition fixedMessage {A : Type} (op : Provider.Operation) (r : Provider.Result A) : Prop :=
  match r with
  | Provider.Rejected e =>
      e = Provider.ErrorObject Provider.QUOTA_MESSAGE \/
      e = Provider.ErrorObject (Provider.defaultMessageOf op)
  | Provider.Resolved _ => True
  end.

(** What the gate can look like between renders: the value the last run
    saw, the flag of the engine, and the condition of line 569. *)
Definition coherent (g : Gate.Gate) : bool :=
  match Gate.seen g, Gate.listening g, Gate.canListen (Gate.inputs g) with
  | true, false, _ => true
  | true, true, true => true
  | false, true, true => true
  | false, false, false => true
  | _, _, _ => false
  end.

(** How a call of [speak] leaves the world when its callback, if any,
    only acts on the client: either playback has started and the callback
    waits, or nothing of this call is spoken and the callback has run. *)
Definition afterSpeak {Action Client : Type} (act : Action -> Client -> Client)
                      (onEnd : option Action) (w w' : Speech.World Action Client) : Prop :=
  (Speech.isSpeaking (Speech.hook w') = true /\ Speech.busy w' = true /\
   Speech.client w' = Speech.client w /\
   Speech.invocations w' = Speech.invocations w /\
   Speech.onEndCallback (Speech.hook w') = option_map (@Speech.Do Action) onEnd)
  \/
  (Speech.client w' = match onEnd with
                      | Some a => act a (Speech.client w)
                      | None => Speech.client w
                      end /\
   Speech.invocations w' = (Speech.invocations w ++
                            match onEnd with
                            | Some a => [Speech.Do a]
                            | None => []
                            end)%list).

(** The events of units spoken one after the other, the first of which
    is already with the device: each ends before the next is handed
    over. *)
Fixpoint oneByOne {Action : Type} (first : Speech.Utterance) (others : list Speech.Utterance)
  : list (Speech.Event Action) :=
  match others with
  | [] => [Speech.Ended first]
  | next :: rest => Speech.Ended first :: Speech.Submitted next :: oneByOne next rest
  end.

End Reading.

(** ** Concrete situations used in examples *)

Module Scenario.
Import Speech.
Local Open Scope string_scope.

Definition noVoices : VoiceTable :=
  {| voicesEn := {| male := None; female := None |};
     voicesHi := {| male := None; female := None |} |}.

(** The hook as [useState] and [useRef] initialise it. *)
Definition freshHook (Action : Type) : Hook Action :=
  {| isMuted := false; isSpeaking := false; spokenText := EmptyString; mouthShape := "X";
     utteranceQueue := []; onEndCallback := None; voices := noVoices |}.

(** A device with nothing to say and no voice installed. *)
Definition idleSynth : Synthesizer :=
  {| playing := []; interrupted := 0; installed := [] |}.

Definition freshWorld (Action Client : Type) (c : Client) : World Action Client :=
  {| hook := freshHook Action; synth := Some idleSynth; client := c; history := [] |}.

(** The unit built for a segment when no voice is known. *)
Definition unit (t : string) (l : Lang) : Utterance :=
  {| utext := Normalize.preprocessTextForSpeech t; ulang := locale l; uvoice := None;
     rate := 1; pitch := 1 |}.

(** A lesson as the provider may send it: the second step names no
    choice, its index is below the first one. *)
Definition lessonWithNegativeIndex : Provider.LessonJson :=
  {| Provider.topicTitle := Some "Loops";
     Provider.steps :=
       Some [Provider.ExplanationJson "Loop ek kaam ko baar baar karta hai." None;
             Provider.MultipleChoiceJson "Loop kis keyword se shuru hota hai?"
               (Some ["for"; "if"; "print"]) (Provider.JNumber (-1)) "Bilkul sahi!"] |}.

(** Friday 2024-05-10 is day 19853.  The clock shows 15:00 UTC on a
    device five hours west of UTC, where it is 10:00 of the same day. *)
Definition may10 : Streak.DateString := 19853%Z.

Definition morningWestOfUTC : Streak.Clock :=
  {| Streak.now := (19853 * 86400000 + 15 * 3600000)%Z;
     Streak.offset := (- (5 * 3600000))%Z |}.

(** A learner who has already completed a lesson on that day. *)
Definition learner : Streak.UserProfile :=
  {| Streak.userId := "user-1"; Streak.userName := "Asha"; Streak.password := "1234";
     Streak.points := 100%Z; Streak.currentStreak := 3%Z; Streak.longestStreak := 3%Z;
     Streak.lastActivityDate := Some may10;
     Streak.activityLog := [{| Streak.date := may10; Streak.logPoints := 100%Z |}];
     Streak.badges := []; Streak.skills := [] |}.

(** A multiple-choice question is open, nothing loads, nothing is spoken
    (the engine is muted), recognition is supported; then the learner
    picks a wrong choice, which sets the state to [INCORRECT]. *)
Definition questionOpen : Gate.Inputs :=
  {| Gate.tutorState := Types.AWAITING_CHOICE; Gate.isLoading := false;
     Gate.isSpeaking := false; Gate.isSpeechSupported := true |}.

Definition wrongChoicePicked : Gate.Inputs :=
  {| Gate.tutorState := Types.INCORRECT; Gate.isLoading := false;
     Gate.isSpeaking := false; Gate.isSpeechSupported := true |}.

(** The gate once the question is open and listening has started. *)
Definition listeningToChoice : Gate.Gate :=
  Gate.render questionOpen (Gate.mount questionOpen).

(** A lesson whose first step explains and whose second step is a code
    task. *)
Definition loopsLesson : App.Lesson :=
  {| App.lessonTopicTitle := "Loops";
     App.lessonSteps :=
       [App.EXPLANATION "Loop ek kaam ko baar baar karta hai." None;
        App.CODE_TASK "Print the numbers 1 to 5." "# yahan apna code likhiye" None] |}.

Definition oldHint : Provider.Hint :=
  {| Provider.conceptual := "Think about repetition.";
     Provider.direct := "Use a for loop over range(1, 6).";
     Provider.solution := "for i in range(1, 6): print(i)" |}.

(** Guided lesson, the explanation has been spoken, the learner may
    continue; no doubt has been asked yet, so [stateBeforeDoubt] still has
    the value [useState] gave it. *)
Definition afterExplanation : App.AppState :=
  {| App.appMode := Types.TUTOR; App.tutorState := Types.AWAITING_CONTINUE;
     App.currentSkillName := Some "Python"; App.lesson := Some loopsLesson;
     App.currentStepIndex := 0; App.incorrectAttempts := 0%Z; App.currentHint := None;
     App.problem := EmptyString; App.solution := None; App.interviewSession := None;
     App.userCode := "# yahan apna code likhiye";
     App.whiteboardDisplayCode := "# yahan apna code likhiye";
     App.diagram := None; App.clarificationCode := None; App.conversationHistory := [];
     App.isLoading := false; App.error := None; App.chatError := None;
     App.lastFailedMessage := None; App.stateBeforeDoubt := Types.AWAITING_TASK;
     App.roundAdvances := 0 |}.

(** The same lesson at its code task, after two wrong submissions. *)
Definition atCodeTask : App.AppState :=
  {| App.appMode := Types.TUTOR; App.tutorState := Types.AWAITING_TASK;
     App.currentSkillName := Some "Python"; App.lesson := Some loopsLesson;
     App.currentStepIndex := 1; App.incorrectAttempts := 2%Z; App.currentHint := Some oldHint;
     App.problem := EmptyString; App.solution := None; App.interviewSession := None;
     App.userCode := "for i in range(1, 6): print(i)";
     App.whiteboardDisplayCode := "# yahan apna code likhiye";
     App.diagram := None; App.clarificationCode := None; App.conversationHistory := [];
     App.isLoading := false; App.error := None; App.chatError := None;
     App.lastFailedMessage := None; App.stateBeforeDoubt := Types.AWAITING_TASK;
     App.roundAdvances := 0 |}.

Definition correctVerdict : Provider.Reply Provider.EvaluationJson :=
  Provider.Parsed {| Provider.isCorrect := Some true;
                     Provider.feedback := Some "Shabash! Bilkul sahi.";
                     Provider.hint := None |}.

(** The reply to a chat request that is never sent. *)
Definition noChat : Provider.Reply Provider.ChatResponseJson :=
  Provider.Failed (Provider.OtherValue "not requested").

(** The application with a fresh speech engine. *)
Definition appWorld (s : App.AppState) : App.World :=
  freshWorld App.Action s.

(** The three sentences of [handleSolveDoubt], lines 607-611: each is
    spoken from the completion callback of the one before. *)
Definition problemExplanation : string := "You are asked to sum the numbers 1 to 10.".
Definition solutionExplanation : string := "A loop adds each number to a total.".
Definition invitation : string :=
  "Aap is solution ko dekh sakte hain, aur agar koi sawaal ho to pooch sakte hain.".

Definition thenInvite : Callback App.Action :=
  SpeakNext (Text invitation) None "hi-IN".

Definition thenExplainSolution : Callback App.Action :=
  SpeakNext (Text solutionExplanation) (Some thenInvite) "hi-IN".

End Scenario.

(** ** Runs of the speech engine *)

Module Runs.
Import Speech.

Section Calls.

Variable Action : Type.
Variable Client : Type.
Variable act : Action -> Client -> Client.

(** What the client and the device do to the engine, one step at a time:
    the three operations the hook returns, the [end] event of the unit
    being spoken and a boundary event of that unit. *)
Inductive Call :=
| CallSpeak (input : SpeakInput) (onEnd : option (Callback Action)) (langOrGender : string)
| CallCancel
| CallToggleMute
| UnitEnds
| BoundaryReached (name : string) (draw : nat).

Definition perform (depth : nat) (c : Call) (w : World Action Client) : Outcome Action Client :=
  match c with
  | CallSpeak input onEnd langOrGender => speak act depth input onEnd langOrGender w
  | CallCancel => cancel w
  | CallToggleMute => toggleMute w
  | UnitEnds => deliver act depth UnitEnded w
  | BoundaryReached name draw => deliver act depth (Boundary name draw) w
  end.

Fixpoint performAll (depth : nat) (cs : list Call) (w : World Action Client)
  : Outcome Action Client :=
  match cs with
  | [] => Returned w
  | c :: rest => andThen (perform depth c w) (performAll depth rest)
  end.

(** At most one unit is with the device, and units wait in the queue only
    while one is. *)
Definition singleFlight (w : World Action Client) : bool :=
  match synth w with
  | None => true
  | Some s =>
      match playing s with
      | [] => match utteranceQueue (hook w) with [] => true | _ :: _ => false end
      | [_] => true
      | _ :: _ :: _ => false
      end
  end.

(** The outcome is a world in single flight, or the nesting bound was
    hit; nothing was thrown. *)
Definition keepsSingleFlight (o : Outcome Action Client) : Prop :=
  match o with
  | Returned w => singleFlight w = true
  | Thrown _ _ _ => False
  | TooDeep _ _ => True
  end.

End Calls.

Arguments CallCancel {Action}.
Arguments CallToggleMute {Action}.
Arguments UnitEnds {Action}.
Arguments BoundaryReached {Action} name draw.

End Runs.

(** ** The voice table ([getAndSetVoices] of [useSpeechSynthesis]) *)

Module Voices.
Import JsString Speech.
Local Open Scope string_scope.

(** [v.name.includes(part)] *)
Definition named (part : string) (v : Voice) : bool := sIncludes (vname v) part.

(** [allVoices.filter(v => v.lang === locale)] *)
Definition ofLocale (l : string) (allVoices : list Voice) : list Voice :=
  filter (fun v => String.eqb (vlang v) l) allVoices.

(** Lines 159-198 on the table held by the [voices] ref: nothing is
    written when the device reports no voice. *)
Definition refreshTable (allVoices : list Voice) (old : VoiceTable) : VoiceTable :=
  match allVoices with
  | [] => old
  | _ :: _ =>
      let enVoices := ofLocale "en-US" allVoices in
      let enFemale :=
        orElse (orElse (orElse (find (named "Female") enVoices)
                               (find (fun v => named "Google" v && negb (named "Male" v)) enVoices))
                       (find (named "Zira") enVoices))
               (find (named "Samantha") enVoices) in
      let enMale :=
        orElse (orElse (find (named "Male") enVoices)
                       (find (named "David") enVoices))
               (find (named "Alex") enVoices) in
      let hiVoices := ofLocale "hi-IN" allVoices in
      let hiFemale :=
        orElse (orElse (find (named "Female") hiVoices)
                       (find (named "Kalpana") hiVoices))
               (find (named "Google") hiVoices) in
      let hiMale :=
        orElse (find (named "Male") hiVoices)
               (find (named "Hemant") hiVoices) in
      let enTable :=
        match enFemale, enMale with
        | None, None => {| male := hd_error enVoices; female := hd_error enVoices |}
        | _, _ => {| male := enMale; female := enFemale |}
        end in
      let hiTable :=
        match hiFemale, hiMale with
        | None, None => {| male := hd_error hiVoices; female := hd_error hiVoices |}
        | _, _ => {| male := hiMale; female := hiFemale |}
        end in
      {| voicesEn := enTable; voicesHi := hiTable |}
  end.

(** An entry of the table is empty or holds one of the voices the device
    reported, of the given locale. *)
Definition installedFor (l : string) (allVoices : list Voice) (o : option Voice) : Prop :=
  forall v, o = Some v -> In v allVoices /\ vlang v = l.

Section OnTheWorld.

Variable Action : Type.
Variable Client : Type.

Definition setVoices (t : VoiceTable) : World Action Client -> World Action Client :=
  withHook (fun h =>
    {| isMuted := isMuted h; isSpeaking := isSpeaking h; spokenText := spokenText h;
       mouthShape := mouthShape h; utteranceQueue := utteranceQueue h;
       onEndCallback := onEndCallback h; voices := t |}).

(** [getAndSetVoices], lines 158-206: run once when the hook mounts and
    again on every [voiceschanged] event. *)
Definition getAndSetVoices (w : World Action Client) : Outcome Action Client :=
  match synth w with
  | Some s => Returned (setVoices (refreshTable (installed s) (voices (hook w))) w)
  | None => Thrown _ _ "TypeError: window.speechSynthesis is undefined"
  end.

(** The device installs other voices and fires [voiceschanged]. *)
Definition voicesChanged (now : list Voice) (w : World Action Client) : Outcome Action Client :=
  match synth w with
  | Some s =>
      getAndSetVoices
        (setSynth (Some {| playing := playing s; interrupted := interrupted s;
                           installed := now |}) w)
  | None => Returned w
  end.

End OnTheWorld.

End Voices.


(** ** The other service functions that reject through [handleApiError] *)

Module Services.
Import JsString Provider.
Local Open Scope string_scope.

(** [!v] for a field that holds a string or is missing. *)
Definition falsyString (s : option string) : bool := negb (truthyString s).

(** A topic of a generated outline, as parsed. *)
Record TopicJson := { tTitle : string; tDescription : string; tPoints : Z }.

(** The parsed outline; [topicsJson] is [None] when the field is not an
    array. *)
Record CourseOutlineJson := {
  skillNameJson : option string;
  topicsJson : option (list TopicJson)
}.

(** The part of [generateCourseOutline] after the request, lines
    1538-1549.  The parsed object is returned as it is. *)
Definition generateCourseOutline (reply : Reply CourseOutlineJson) : Result CourseOutlineJson :=
  match reply with
  | Failed error => Rejected (failureOf GenerateCourseOutline error)
  | Parsed curriculum =>
      if falsyString (skillNameJson curriculum) ||
         (match topicsJson curriculum with Some _ => false | None => true end)
      then Rejected (failureOf GenerateCourseOutline
                       (ErrorObject "Invalid curriculum format from AI."))
      else Resolved curriculum
  end.

Record ProblemSolutionJson := {
  problemExplanationJson : option string;
  solutionExplanationJson : option string;
  solutionCodeJson : option string;
  languageJson : option string
}.

(** The part of [generateProblemSolution] after the request, lines
    1505-1516. *)
Definition generateProblemSolution (reply : Reply ProblemSolutionJson)
  : Result ProblemSolutionJson :=
  match reply with
  | Failed error => Rejected (failureOf GenerateProblemSolution error)
  | Parsed solution =>
      if falsyString (problemExplanationJson solution) ||
         falsyString (solutionExplanationJson solution) ||
         falsyString (solutionCodeJson solution) ||
         falsyString (languageJson solution)
      then Rejected (failureOf GenerateProblemSolution
                       (ErrorObject "Invalid solution format from AI."))
      else Resolved solution
  end.

(** The parsed plan; [roundsJson] is [None] when the field is missing or
    [null] (an array, empty or not, is truthy); a round is kept as its
    title. *)
Record InterviewPlanJson := {
  roundsJson : option (list string);
  openingStatementJson : option string
}.

(** The part of [generateInterviewPlan] after the request, lines
    1399-1411. *)
Definition generateInterviewPlan (reply : Reply InterviewPlanJson) : Result InterviewPlanJson :=
  match reply with
  | Failed error => Rejected (failureOf GenerateInterviewPlan error)
  | Parsed plan =>
      if (match roundsJson plan with Some _ => false | None => true end) ||
         falsyString (openingStatementJson plan)
      then Rejected (failureOf GenerateInterviewPlan
                       (ErrorObject "Invalid interview plan format from AI."))
      else Resolved plan
  end.

(** A reply was received and parsed, and the function still rejected:
    the rejection carries the default text of the operation. *)
Definition resolvedOrDefault {A : Type} (op : Operation) (r : Result A) : Prop :=
  match r with
  | Resolved _ => True
  | Rejected e => e = ErrorObject (defaultMessageOf op)
  end.

End Services.

(** ** The end of a lesson: progress and badge (lines 262-341 of
       [handleNextStep]) *)

Module Course.
Import Streak.
Local Open Scope string_scope.

(** The points of a log, added up. *)
Definition loggedPoints (log : list ActivityLogEntry) : Z :=
  fold_right (fun entry total => (logPoints entry + total)%Z) 0%Z log.

(** [currentTopic?.points || 100] *)
Definition pointsEarned (currentTopic : option Topic) : Z :=
  match currentTopic with
  | Some t => orNumber (topicPoints t) 100
  | None => 100%Z
  end.

(** The two functions handed to [map] in lines 290-297. *)
Definition markTopic (currentTopic : option Topic) (topic : Topic) : Topic :=
  if sameId (topicId topic) (option_map topicId currentTopic)
  then {| topicId := topicId topic; topicTitle := topicTitle topic;
          description := description topic; isCompleted := true;
          topicPoints := topicPoints topic |}
  else topic.

Definition markSkill (currentSkillId : option string) (currentTopic : option Topic)
                     (skill : Skill) : Skill :=
  if sameId (skillId skill) currentSkillId
  then {| skillId := skillId skill; skillName := skillName skill;
          topics := map (markTopic currentTopic) (topics skill) |}
  else skill.

(** [updatedSkills.find(s => s.id === currentSkillId)] *)
Definition findSkill (allSkills : list Skill) (currentSkillId : option string) : option Skill :=
  find (fun s => sameId (skillId s) currentSkillId) allSkills.

(** [updatedUser.badges.some(b => b.courseName === name)] *)
Definition hasBadge (u : UserProfile) (name : string) : bool :=
  existsb (fun b => String.eqb (courseName b) name) (badges u).

(** What the award of a badge reads from outside: the decimal text of
    [Date.now()], the text of [new Date().toISOString()], and the reply
    to the request for a title. *)
Record Mint := {
  stamp : string;
  awardedAt : string;
  titleReply : Provider.Reply (option string)
}.

(** Lines 313-318. *)
Definition newBadge (m : Mint) (completedSkill : Skill) : Badge :=
  {| badgeId := "badge-" ++ skillId completedSkill ++ "-" ++ stamp m;
     courseName := skillName completedSkill;
     badgeTitle := Provider.generateBadgeTitle (skillName completedSkill) (titleReply m);
     dateAwarded := awardedAt m |}.

(** [{ ...updatedUser, badges: [...updatedUser.badges, newBadge] }] *)
Definition withBadge (u : UserProfile) (b : Badge) : UserProfile :=
  {| userId := userId u; userName := userName u; password := password u;
     points := points u; currentStreak := currentStreak u;
     longestStreak := longestStreak u; lastActivityDate := lastActivityDate u;
     activityLog := activityLog u; badges := (badges u ++ [b])%list;
     skills := skills u |}.

(** The [else] branch of [handleNextStep], lines 262-341, as far as the
    profile and the tutor state go: the profile written back and the
    state set. *)
Definition finishLesson (c : Clock) (m : Mint) (currentUser : UserProfile)
                        (currentSkillId : option string) (currentTopic : option Topic)
  : UserProfile * Types.TutorState :=
  let updatedUser := completeLesson c currentUser currentSkillId currentTopic in
  match findSkill (skills updatedUser) currentSkillId with
  | Some completedSkill =>
      if forallb isCompleted (topics completedSkill)
      then
        (if negb (hasBadge updatedUser (skillName completedSkill))
         then withBadge updatedUser (newBadge m completedSkill)
         else updatedUser,
         Types.COURSE_COMPLETED)
      else (updatedUser, Types.CORRECT)
  | None => (updatedUser, Types.CORRECT)
  end.

(** [users.map(u => u.id === currentUser.id ? updatedUser : u)], line 338. *)
Definition writeBack (users : list UserProfile) (currentUser updatedUser : UserProfile)
  : list UserProfile :=
  map (fun u => if String.eqb (userId u) (userId currentUser) then updatedUser else u) users.

(** The date a stored day shows as on the device: the day itself at UTC
    and east of it, the day before west of it. *)
Definition shownDay (c : Clock) (d : DateString) : Z :=
  if (0 <=? offset c)%Z then d else (d - 1)%Z.

End Course.

(** ** Further handlers of the orchestrator *)

Module Handlers.
Import JsString Types Provider App.
Local Open Scope string_scope.

(** The text chosen in [handleRequestHint], lines 530-535. *)
Definition hintTextOf (incorrectAttempts : Z) (currentHint : Hint) : string :=
  if (incorrectAttempts =? 1)%Z then "Hint: " ++ conceptual currentHint
  else if (2 <=? incorrectAttempts)%Z
       then "Okay, here's a more direct hint: " ++ direct currentHint
       else EmptyString.

(** [handleRequestHint], lines 526-541. *)
Definition handleRequestHint (r : AppState) (w : World) : Outcome :=
  match currentHint r with
  | None => Speech.Returned w
  | Some hint =>
      let hintText := hintTextOf (incorrectAttempts r) hint in
      if String.eqb hintText EmptyString
      then Speech.Returned w
      else
        Speech.andThen (speak (Speech.Text hintText) None "hi-IN" w)
          (fun w => Speech.Returned (update (appendHistory [plainMessage ai hintText]) w))
  end.

Definition solutionSpeech : string :=
  "Koi baat nahi, sometimes the best way to learn is to see the answer. Maine solution whiteboard par likh diya hai. Ek baar dekh lijiye, phir hum aage badhenge.".

(** [handleShowSolution], lines 543-553. *)
Definition handleShowSolution (r : AppState) (w : World) : Outcome :=
  match currentHint r with
  | None => Speech.Returned w
  | Some hint =>
      if String.eqb (Provider.solution hint) EmptyString
      then Speech.Returned w
      else
        let w := update (setUserCode (Provider.solution hint)) w in
        let w := update (setWhiteboardDisplayCode (Provider.solution hint)) w in
        Speech.andThen
          (speak (Speech.Text solutionSpeech)
                 (Some (Speech.Do (SetTutorState AWAITING_CONTINUE))) "hi-IN" w)
          (fun w => Speech.Returned (update (appendHistory [plainMessage ai solutionSpeech]) w))
  end.

(** [handleTryAgain], lines 760-769. *)
Definition handleTryAgain (r : AppState) (w : World) : Outcome :=
  match currentStep r with
  | Some (MULTIPLE_CHOICE _ _ _ _) =>
      let w := update (setTutorState AWAITING_CHOICE) w in
      speak (Speech.Text "Koi baat nahi, phir se koshish karein.") None "hi-IN" w
  | _ =>
      let w := update (setTutorState AWAITING_TASK) w in
      speak (Speech.Text "No problem, take another look at the task and try again.") None "hi-IN" w
  end.

Definition continueSpeech : string := "Great! Let's get back to it.".

(** [handleContinueLesson], lines 771-779. *)
Definition handleContinueLesson (r : AppState) (w : World) : Outcome :=
  let w := update (setClarificationCode None) w in
  let w := update (setTutorState (stateBeforeDoubt r)) w in
  Speech.andThen (speak (Speech.Text continueSpeech) None "en" w)
    (fun w => Speech.Returned (update (appendHistory [plainMessage ai continueSpeech]) w)).

(** The loop of lines 462-468: the index of the last message of the
    user. *)
Fixpoint lastUserIndexFrom (history : list ChatMessage) (i : nat) (found : option nat)
  : option nat :=
  match history with
  | [] => found
  | m :: rest =>
      lastUserIndexFrom rest (S i)
        (match sender m with user => Some i | ai => found end)
  end.

Definition lastUserIndex (history : list ChatMessage) : option nat :=
  lastUserIndexFrom history 0 None.

(** [handleRetryChat], lines 459-478.  The message is sent again with the
    two optional arguments as given: no system flag. *)
Definition handleRetryChat (r : AppState) (reply : Reply ChatResponseJson) (w : World)
  : Outcome :=
  match lastFailedMessage r with
  | None => Speech.Returned w
  | Some failed =>
      let w :=
        match lastUserIndex (conversationHistory r) with
        | Some userMessageIndex =>
            update (fun s => setConversationHistory
                               (firstn userMessageIndex (conversationHistory s)) s) w
        | None => w
        end in
      let w := update (setLastFailedMessage None) w in
      let w := update (setChatError None) w in
      handleSendChatMessage r (failedText failed) (failedAttachment failed) false reply w
  end.

(** The message of the user as [handleSendChatMessage] records it. *)
Definition userMessageOf (message : string) (isSystemMessage : bool) : ChatMessage :=
  {| sender := user; msgText := message; msgCode := None; msgVisualAid := None;
     msgChoices := None; msgCorrectChoiceIndex := None; isSystem := Some isSystemMessage |}.

End Handlers.

(** ** Presenting a step and moving on ([processStep], [handleNextStep]) *)

Module Steps.
Import JsString Types Provider App.
Local Open Scope string_scope.

(** What these two handlers read and write besides the cells of
    [AppState]: the list of profiles kept by [useLocalStorage]. *)
Record Session := { app : AppState; users : list Streak.UserProfile }.

(** The completion callback [onEnd] of [processStep], lines 184-188: it
    is always handed to [speak], and sets the state only when
    [postSpeechState] is not [null]. *)
Inductive StepAction := AfterSpeech (postSpeechState : option TutorState).

Definition onApp (f : AppState -> AppState) (s : Session) : Session :=
  {| app := f (app s); users := users s |}.

Definition stepAct (a : StepAction) (s : Session) : Session :=
  match a with
  | AfterSpeech (Some t) => onApp (setTutorState t) s
  | AfterSpeech None => s
  end.

Definition World := Speech.World StepAction Session.
Definition Outcome := Speech.Outcome StepAction Session.

Definition update (f : AppState -> AppState) (w : World) : World :=
  Speech.setClient (onApp f (Speech.client w)) w.

Definition setUsers (us : list Streak.UserProfile) (w : World) : World :=
  Speech.setClient {| app := app (Speech.client w); users := us |} w.

Definition speak : Speech.SpeakInput -> option (Speech.Callback StepAction) -> string
                   -> World -> Outcome :=
  Speech.speak stepAct callbackDepth.

Definition setCurrentStepIndex (v : nat) (s : AppState) : AppState :=
  {| appMode := appMode s; tutorState := tutorState s; currentSkillName := currentSkillName s;
     lesson := lesson s; currentStepIndex := v;
     incorrectAttempts := incorrectAttempts s; currentHint := currentHint s;
     problem := problem s; solution := solution s;
     interviewSession := interviewSession s; userCode := userCode s;
     whiteboardDisplayCode := whiteboardDisplayCode s; diagram := diagram s;
     clarificationCode := clarificationCode s;
     conversationHistory := conversationHistory s; isLoading := isLoading s;
     error := error s; chatError := chatError s;
     lastFailedMessage := lastFailedMessage s; stateBeforeDoubt := stateBeforeDoubt s;
     roundAdvances := roundAdvances s |}.

(** The message [processStep] adds to the conversation. *)
Definition stepMessage (step : LessonStep) : ChatMessage :=
  match step with
  | EXPLANATION content visualAid =>
      {| sender := ai; msgText := content; msgCode := None; msgVisualAid := visualAid;
         msgChoices := None; msgCorrectChoiceIndex := None; isSystem := None |}
  | MULTIPLE_CHOICE question choices correctChoiceIndex _ =>
      {| sender := ai; msgText := question; msgCode := None; msgVisualAid := None;
         msgChoices := Some choices; msgCorrectChoiceIndex := Some correctChoiceIndex;
         isSystem := None |}
  | CODE_TASK mission _ visualAid =>
      {| sender := ai; msgText := "Ab, aapki baari. " ++ mission; msgCode := None;
         msgVisualAid := visualAid; msgChoices := None; msgCorrectChoiceIndex := None;
         isSystem := None |}
  end.

(** [nextState] of the [switch], lines 155-176. *)
Definition stateFor (step : LessonStep) : TutorState :=
  match step with
  | EXPLANATION _ _ => EXPLAINING
  | MULTIPLE_CHOICE _ _ _ _ => AWAITING_CHOICE
  | CODE_TASK _ _ _ => AWAITING_TASK
  end.

Definition visualAidOf (step : LessonStep) : option VisualAid :=
  match step with
  | EXPLANATION _ visualAid => visualAid
  | MULTIPLE_CHOICE _ _ _ _ => None
  | CODE_TASK _ _ visualAid => visualAid
  end.

Definition postSpeechStateOf (step : LessonStep) : option TutorState :=
  match step with
  | EXPLANATION _ _ => Some AWAITING_CONTINUE
  | _ => None
  end.

(** [processStep], lines 144-194; [None] is a step that is
    [undefined]. *)
Definition processStep (step : option LessonStep) (w : World) : Outcome :=
  match step with
  | None => Speech.Returned w
  | Some step =>
      let w := update (setTutorState (stateFor step)) w in
      let w := update (appendHistory [stepMessage step]) w in
      let w := update (setDiagram (visualAidOf step)) w in
      let onEnd := Some (Speech.Do (AfterSpeech (postSpeechStateOf step))) in
      match step with
      | CODE_TASK mission _ _ =>
          speak (Speech.Segments [{| Speech.text := "Ab, aapki baari. "; Speech.lang := Speech.hi |};
                                  {| Speech.text := mission; Speech.lang := Speech.en |}])
                onEnd "hi-IN" w
      | EXPLANATION textToSpeak _ | MULTIPLE_CHOICE textToSpeak _ _ _ =>
          if String.eqb textToSpeak EmptyString
          then Speech.Returned w
          else speak (Speech.Text textToSpeak) onEnd "hi-IN" w
      end
  end.

(** What [handleNextStep] reads besides the cells of [AppState]. *)
Record Progress := {
  currentUser : option Streak.UserProfile;
  currentSkillId : option string;
  currentTopicId : option string;
  clock : Streak.Clock;
  mint : Course.Mint
}.

Definition congratsSegments (userName skillName : string) : list Speech.SpeechSegment :=
  [{| Speech.text := "Bahut badhiya, " ++ userName ++ "! "; Speech.lang := Speech.hi |};
   {| Speech.text := "You've completed the " ++ skillName ++
                     " course! You can view your certificate on the dashboard.";
      Speech.lang := Speech.en |}].

(** [handleNextStep], lines 250-342.  [r] holds the cells of the render
    the handler was created in, [p] the profile data of that render;
    [currentSkill] is present when the user has a skill with the current
    id. *)
Definition handleNextStep (r : AppState) (p : Progress) (allUsers : list Streak.UserProfile)
                          (w : World) : Outcome :=
  Speech.andThen (Speech.cancel w) (fun w =>
    match lesson r, currentUser p with
    | Some l, Some learner =>
        match Course.findSkill (Streak.skills learner) (currentSkillId p) with
        | None => Speech.Returned w
        | Some currentSkill =>
            let currentTopic :=
              find (fun t => Streak.sameId (Streak.topicId t) (currentTopicId p))
                   (Streak.topics currentSkill) in
            let nextStepIndex := S (currentStepIndex r) in
            if (nextStepIndex <? List.length (lessonSteps l))%nat
            then
              let w := update (setCurrentStepIndex nextStepIndex) w in
              processStep (nth_error (lessonSteps l) nextStepIndex) w
            else
              let finished :=
                Course.finishLesson (clock p) (mint p) learner (currentSkillId p) currentTopic in
              let updatedUser := fst finished in
              let after (w : World) : Outcome :=
                Speech.Returned
                  (setUsers (Course.writeBack allUsers learner updatedUser) w) in
              match snd finished with
              | COURSE_COMPLETED =>
                  let name :=
                    match Course.findSkill (Streak.skills updatedUser) (currentSkillId p) with
                    | Some completedSkill => Streak.skillName completedSkill
                    | None => EmptyString
                    end in
                  let w := update (setTutorState COURSE_COMPLETED) w in
                  Speech.andThen
                    (speak (Speech.Segments (congratsSegments (Streak.userName learner) name))
                           None "hi-IN" w)
                    after
              | _ => after (update (setTutorState CORRECT) w)
              end
        end
    | _, _ => Speech.Returned w
    end).

End Steps.

(** ** Choosing a topic ([handleSelectTopic], [handleNextLesson],
       [handleStartLearning]) *)

Module Catalog.
Import JsString Types Streak.
Local Open Scope string_scope.

(** The cells these handlers read and write. *)
Record Selection := {
  tutorState : TutorState;
  currentSkillId : option string;
  currentTopicId : option string;
  lessonLoaded : bool
}.

Definition World := Speech.World unit Selection.
Definition Outcome := Speech.Outcome unit Selection.

Definition update (f : Selection -> Selection) (w : World) : World :=
  Speech.setClient (f (Speech.client w)) w.

Definition setCurrentTopicId (v : option string) (s : Selection) : Selection :=
  {| tutorState := tutorState s; currentSkillId := currentSkillId s;
     currentTopicId := v; lessonLoaded := lessonLoaded s |}.

(** [setLesson(null)] *)
Definition clearLesson (s : Selection) : Selection :=
  {| tutorState := tutorState s; currentSkillId := currentSkillId s;
     currentTopicId := currentTopicId s; lessonLoaded := false |}.

Definition setTutorState (v : TutorState) (s : Selection) : Selection :=
  {| tutorState := v; currentSkillId := currentSkillId s;
     currentTopicId := currentTopicId s; lessonLoaded := lessonLoaded s |}.

(** [currentUser?.skills.find(s => s.id === currentSkillId)] *)
Definition skillOf (currentUser : option UserProfile) (r : Selection) : option Skill :=
  match currentUser with
  | Some u => find (fun s => sameId (skillId s) (currentSkillId r)) (skills u)
  | None => None
  end.

(** [skill.topics.findIndex(t => t.id === topicId)] *)
Definition topicIndexOf (skill : Skill) (topicId : option string) : Z :=
  findIndex (fun t => sameId (Streak.topicId t) topicId) (topics skill).

(** The test of line 732: the topic has a predecessor that is not
    completed. *)
Definition locked (skill : Skill) (topicId : string) : bool :=
  let topicIndex := topicIndexOf skill (Some topicId) in
  (0 <? topicIndex)%Z &&
  match nth_error (topics skill) (Z.to_nat (topicIndex - 1)) with
  | Some previous => negb (isCompleted previous)
  | None => false
  end.

(** [handleSelectTopic], lines 721-740. *)
Definition handleSelectTopic (r : Selection) (currentUser : option UserProfile)
                             (topicId : string) (w : World) : Outcome :=
  if sameId topicId (currentTopicId r) && lessonLoaded r
  then Speech.Returned w
  else
    match skillOf currentUser r with
    | Some skill =>
        if locked skill topicId
        then Speech.Returned w
        else
          Speech.andThen (Speech.cancel w) (fun w =>
            let w := update (setCurrentTopicId (Some topicId)) w in
            let w := update clearLesson w in
            Speech.Returned (update (setTutorState LOADING_LESSON) w))
    | None =>
        Speech.andThen (Speech.cancel w) (fun w =>
          let w := update (setCurrentTopicId (Some topicId)) w in
          let w := update clearLesson w in
          Speech.Returned (update (setTutorState LOADING_LESSON) w))
    end.

(** [handleNextLesson], lines 749-758. *)
Definition handleNextLesson (r : Selection) (currentUser : option UserProfile)
                            (w : World) : Outcome :=
  match skillOf currentUser r with
  | Some currentSkill =>
      let currentIdx := topicIndexOf currentSkill (currentTopicId r) in
      if (currentIdx <? Z.of_nat (List.length (topics currentSkill)) - 1)%Z
      then
        match nth_error (topics currentSkill) (Z.to_nat (currentIdx + 1)) with
        | Some nextTopic => handleSelectTopic r currentUser (Streak.topicId nextTopic) w
        | None => Speech.Returned w
        end
      else Speech.Returned w
  | None => Speech.Returned w
  end.

(** The topic the learner is at: [currentSkill?.topics.find(...)],
    line 88. *)
Definition currentTopicOf (currentUser : option UserProfile) (r : Selection) : option Topic :=
  match skillOf currentUser r with
  | Some skill => find (fun t => sameId (Streak.topicId t) (currentTopicId r)) (topics skill)
  | None => None
  end.

End Catalog.

(** ** Accounts ([handleSignUp], [handleLogin]) *)

Module Auth.
Import JsString Streak.
Local Open Scope string_scope.

(** The list of profiles and the cell [currentUserId]. *)
Record Accounts := { users : list UserProfile; currentUserId : option string }.

(** [name.toLowerCase()] *)
Definition lowerName (name : string) : string :=
  toString (App.toLowerCase (ofString name)).

(** [u.name.toLowerCase() === name.toLowerCase()] *)
Definition sameName (name : string) (u : UserProfile) : bool :=
  String.eqb (lowerName (userName u)) (lowerName name).

Definition newUser (stamp name pin : string) : UserProfile :=
  {| userId := "user-" ++ stamp; userName := name; password := pin;
     points := 0%Z; currentStreak := 0%Z; longestStreak := 0%Z;
     lastActivityDate := None; activityLog := []; badges := []; skills := [] |}.

(** [handleSignUp], lines 809-831; [stamp] is the decimal text of
    [Date.now()].  The second component is the message returned, [None]
    for [undefined]. *)
Definition handleSignUp (stamp name pin : string) (a : Accounts) : Accounts * option string :=
  if existsb (sameName name) (users a)
  then (a, Some "Username already taken. Please choose another.")
  else ({| users := (users a ++ [newUser stamp name pin])%list;
           currentUserId := Some (userId (newUser stamp name pin)) |}, None).

(** [handleLogin], lines 833-847. *)
Definition handleLogin (name pin : string) (a : Accounts) : Accounts * option string :=
  match find (sameName name) (users a) with
  | None => (a, Some "User not found. Please check the name or sign up.")
  | Some u =>
      if negb (String.eqb (password u) pin)
      then (a, Some "Incorrect PIN. Please try again.")
      else ({| users := users a; currentUserId := Some (userId u) |}, None)
  end.

(** The names of the profiles, lower-cased. *)
Definition lowerNames (a : Accounts) : list string :=
  map (fun u => lowerName (userName u)) (users a).

End Auth.

(** ** Further concrete values used by worked instances *)

Module Examples.
Import Speech.
Local Open Scope string_scope.

Definition david : Voice :=
  {| vname := "Microsoft David - English (United States)"; vlang := "en-US" |}.
Definition zira : Voice :=
  {| vname := "Microsoft Zira - English (United States)"; vlang := "en-US" |}.
Definition hemant : Voice :=
  {| vname := "Microsoft Hemant - Hindi (India)"; vlang := "hi-IN" |}.
Definition hazel : Voice :=
  {| vname := "Microsoft Hazel - English (Great Britain)"; vlang := "en-GB" |}.

(** A device that is idle and reports the given voices. *)
Definition deviceWith (vs : list Voice) : Synthesizer :=
  {| playing := []; interrupted := 0; installed := vs |}.

Definition worldWith (vs : list Voice) (s : App.AppState) : App.World :=
  setSynth (Some (deviceWith vs)) (Scenario.appWorld s).

(** A lesson as the provider may send it: the second question gives an
    index beyond its three choices. *)
Definition lessonWithOneBadQuestion : Provider.LessonJson :=
  {| Provider.topicTitle := Some "Loops";
     Provider.steps :=
       Some [Provider.ExplanationJson "Loop ek kaam ko baar baar karta hai." None;
             Provider.MultipleChoiceJson "Loop kis keyword se shuru hota hai?"
               (Some ["for"; "if"; "print"]) (Provider.JNumber 0) "Bilkul sahi!";
             Provider.MultipleChoiceJson "range(3) kitne number deta hai?"
               (Some ["2"; "3"; "4"]) (Provider.JNumber 3) "Sahi jawab!";
             Provider.CodeTaskJson "1 se 5 tak print karo." "for i in range(1, 6):" None] |}.

(** A learner half way through a course of two topics, on a device at
    UTC, the day after the first lesson. *)
Definition variables : Streak.Topic :=
  {| Streak.topicId := "topic-1"; Streak.topicTitle := "Variables";
     Streak.description := "Naam aur value"; Streak.isCompleted := true;
     Streak.topicPoints := 100%Z |}.

Definition loops : Streak.Topic :=
  {| Streak.topicId := "topic-2"; Streak.topicTitle := "Loops";
     Streak.description := "Baar baar"; Streak.isCompleted := false;
     Streak.topicPoints := 150%Z |}.

Definition python : Streak.Skill :=
  {| Streak.skillId := "skill-1"; Streak.skillName := "Python Basics";
     Streak.topics := [variables; loops] |}.

Definition student : Streak.UserProfile :=
  {| Streak.userId := "user-1"; Streak.userName := "Asha"; Streak.password := "1234";
     Streak.points := 100%Z; Streak.currentStreak := 1%Z; Streak.longestStreak := 4%Z;
     Streak.lastActivityDate := Some Scenario.may10;
     Streak.activityLog := [{| Streak.date := Scenario.may10; Streak.logPoints := 100%Z |}];
     Streak.badges := []; Streak.skills := [python] |}.

Definition may11AtUTC : Streak.Clock :=
  {| Streak.now := (19854 * 86400000 + 9 * 3600000)%Z; Streak.offset := 0%Z |}.

Definition mint : Course.Mint :=
  {| Course.stamp := "1715418000000"; Course.awardedAt := "2024-05-11T09:00:00.000Z";
     Course.titleReply := Provider.Parsed (Some "Python Novice") |}.

(** Two answers of the provider to questions of the learner. *)
Definition firstAnswer : Provider.Reply Provider.ChatResponseJson :=
  Provider.Parsed {| Provider.responseTextJson := Some "range(1, 6) 1 se 5 tak deta hai.";
                     Provider.updatedCodeJson := Some "for i in range(1, 6): print(i)";
                     Provider.visualAidJson := None;
                     Provider.isRoundFinishedJson := None |}.

Definition secondAnswer : Provider.Reply Provider.ChatResponseJson :=
  Provider.Parsed {| Provider.responseTextJson := Some "Haan, 6 shaamil nahi hota.";
                     Provider.updatedCodeJson := None;
                     Provider.visualAidJson := None;
                     Provider.isRoundFinishedJson := None |}.

Definition quotaFailure : Provider.Reply Provider.ChatResponseJson :=
  Provider.Failed (Provider.ErrorObject "got status: 429 Too Many Requests").

(** A lesson whose second step is a question, open for an answer; and the
    same question with the index -1 that passes the lesson filter. *)
Definition quizLesson (index : Z) : App.Lesson :=
  {| App.lessonTopicTitle := "Loops";
     App.lessonSteps :=
       [App.EXPLANATION "Loop ek kaam ko baar baar karta hai." None;
        App.MULTIPLE_CHOICE "Loop kis keyword se shuru hota hai?"
          ["for"; "if"; "print"] index "Bilkul sahi!"] |}.

Definition atQuestion (index : Z) : App.AppState :=
  {| App.appMode := Types.TUTOR; App.tutorState := Types.AWAITING_CHOICE;
     App.currentSkillName := Some "Python"; App.lesson := Some (quizLesson index);
     App.currentStepIndex := 1; App.incorrectAttempts := 0%Z; App.currentHint := None;
     App.problem := EmptyString; App.solution := None; App.interviewSession := None;
     App.userCode := EmptyString; App.whiteboardDisplayCode := EmptyString;
     App.diagram := None; App.clarificationCode := None; App.conversationHistory := [];
     App.isLoading := false; App.error := None; App.chatError := None;
     App.lastFailedMessage := None; App.stateBeforeDoubt := Types.AWAITING_TASK;
     App.roundAdvances := 0 |}.

(** The student at the explanation of the lesson on loops. *)
Definition progress : Steps.Progress :=
  {| Steps.currentUser := Some student; Steps.currentSkillId := Some "skill-1"%string;
     Steps.currentTopicId := Some "topic-2"%string;
     Steps.clock := may11AtUTC; Steps.mint := mint |}.

Definition stepWorld (s : App.AppState) : Steps.World :=
  Scenario.freshWorld Steps.StepAction {| Steps.app := s; Steps.users := [student] |}.

(** A lesson whose second step is an explanation without text. *)
Definition lessonWithSilentStep : App.Lesson :=
  {| App.lessonTopicTitle := "Loops";
     App.lessonSteps :=
       [App.EXPLANATION "Loop ek kaam ko baar baar karta hai." None;
        App.EXPLANATION EmptyString None;
        App.CODE_TASK "Print the numbers 1 to 5." "# yahan apna code likhiye" None] |}.

Definition beforeSilentStep : App.AppState :=
  {| App.appMode := Types.TUTOR; App.tutorState := Types.AWAITING_CONTINUE;
     App.currentSkillName := Some "Python Basics"; App.lesson := Some lessonWithSilentStep;
     App.currentStepIndex := 0; App.incorrectAttempts := 0%Z; App.currentHint := None;
     App.problem := EmptyString; App.solution := None; App.interviewSession := None;
     App.userCode := EmptyString; App.whiteboardDisplayCode := EmptyString;
     App.diagram := None; App.clarificationCode := None; App.conversationHistory := [];
     App.isLoading := false; App.error := None; App.chatError := None;
     App.lastFailedMessage := None; App.stateBeforeDoubt := Types.AWAITING_TASK;
     App.roundAdvances := 0 |}.

(** A course of three topics, the first completed, and a learner at its
    second topic. *)
Definition functions : Streak.Topic :=
  {| Streak.topicId := "topic-3"; Streak.topicTitle := "Functions";
     Streak.description := "Kaam ko naam dena"; Streak.isCompleted := false;
     Streak.topicPoints := 0%Z |}.

Definition pythonCourse : Streak.Skill :=
  {| Streak.skillId := "skill-2"; Streak.skillName := "Python";
     Streak.topics := [variables; loops; functions] |}.

Definition pupil : Streak.UserProfile :=
  {| Streak.userId := "user-2"; Streak.userName := "Ravi"; Streak.password := "4321";
     Streak.points := 100%Z; Streak.currentStreak := 1%Z; Streak.longestStreak := 1%Z;
     Streak.lastActivityDate := Some Scenario.may10;
     Streak.activityLog := [{| Streak.date := Scenario.may10; Streak.logPoints := 100%Z |}];
     Streak.badges := []; Streak.skills := [pythonCourse] |}.

Definition atLoops : Catalog.Selection :=
  {| Catalog.tutorState := Types.CORRECT; Catalog.currentSkillId := Some "skill-2"%string;
     Catalog.currentTopicId := Some "topic-2"%string; Catalog.lessonLoaded := true |}.

Definition catalogWorld (s : Catalog.Selection) : Catalog.World :=
  Scenario.freshWorld unit s.

End Examples.

(* ================================================================== *)
(** * Part II: properties                                              *)
(* ================================================================== *)

(** ** Global replacement *)

Section ReplaceGlobal.
Import JsString Reading.

Variable matchAt : chars -> option (chars * chars).
Hypothesis matchAt_consuming : consuming matchAt.

(** Any fuel not below the length of the text gives the same result. *)
Lemma replaceScan_enough_fuel :
  forall f1 f2 s,
    (List.length s <= f1)%nat -> (List.length s <= f2)%nat ->
    replaceScan matchAt f1 s = replaceScan matchAt f2 s.
Proof.
  induction f1 as [|f1 IH]; intros f2 s H1 H2.
  - destruct s; [destruct f2; reflexivity | simpl in H1; lia].
  - destruct f2 as [|f2].
    + destruct s; [reflexivity | simpl in H2; lia].
    + destruct s as [|c tl]; [reflexivity|].
      simpl. destruct (matchAt (c :: tl)) as [[r rest]|] eqn:E.
      * apply matchAt_consuming in E. simpl in *.
        f_equal. apply IH; lia.
      * simpl in *. f_equal. apply IH; lia.
Qed.

Lemma replaceGlobal_nil : replaceGlobal matchAt [] = [].
Proof. reflexivity. Qed.

Lemma replaceGlobal_match :
  forall s replacement rest,
    matchAt s = Some (replacement, rest) ->
    replaceGlobal matchAt s = replacement ++ replaceGlobal matchAt rest.
Proof.
  intros s r rest E. unfold replaceGlobal.
  pose proof (matchAt_consuming E) as L.
  destruct s as [|c tl]; [simpl in L; lia|].
  simpl. rewrite E. f_equal.
  apply replaceScan_enough_fuel; simpl in L; lia.
Qed.

Lemma replaceGlobal_copy :
  forall c tl,
    matchAt (c :: tl) = None ->
    replaceGlobal matchAt (c :: tl) = c :: replaceGlobal matchAt tl.
Proof.
  intros c tl E. unfold replaceGlobal. simpl. rewrite E. reflexivity.
Qed.

(** The leftmost match: the text before it is copied, the match is
    replaced, and scanning goes on after it. *)
Lemma replaceGlobal_leftmost :
  forall pre s replacement rest,
    noMatchWithin matchAt pre s = true ->
    matchAt s = Some (replacement, rest) ->
    replaceGlobal matchAt (pre ++ s) = pre ++ replacement ++ replaceGlobal matchAt rest.
Proof.
  induction pre as [|c pre IH]; intros s r rest Hno Hm.
  - simpl. apply replaceGlobal_match. exact Hm.
  - simpl in Hno.
    destruct (matchAt (c :: pre ++ s)) eqn:E; [discriminate|].
    change ((c :: pre) ++ s) with (c :: (pre ++ s)).
    rewrite replaceGlobal_copy by exact E.
    simpl. f_equal. apply IH; assumption.
Qed.

End ReplaceGlobal.

(** ** The two rewrites of [preprocessTextForSpeech] *)

Section NormalizeFacts.
Import JsString Normalize Reading.

Lemma spanDigits_split :
  forall s ds rest, spanDigits s = (ds, rest) -> s = ds ++ rest.
Proof.
  induction s as [|c tl IH]; intros ds rest E; simpl in E.
  - inversion E. reflexivity.
  - destruct (isDigit c).
    + destruct (spanDigits tl) as [ds' rest'] eqn:E'.
      inversion E; subst. simpl. f_equal. apply IH. reflexivity.
    + inversion E. reflexivity.
Qed.

Lemma spanDigits_run :
  forall ds rest,
    forallb isDigit ds = true -> noLeadingDigit rest = true ->
    spanDigits (ds ++ rest) = (ds, rest).
Proof.
  induction ds as [|d ds IH]; intros rest Hd Hr.
  - simpl. destruct rest as [|c tl]; [reflexivity|].
    simpl in *. destruct (isDigit c); [discriminate | reflexivity].
  - simpl in Hd. apply andb_true_iff in Hd as [Hd1 Hd2].
    simpl. rewrite Hd1. rewrite IH by assumption. reflexivity.
Qed.

Lemma matchDecimal_consuming : consuming matchDecimal.
Proof.
  intros s r rest E. unfold matchDecimal in E.
  destruct (spanDigits s) as [ip r1] eqn:E1.
  destruct ip as [|i ip]; [discriminate|].
  destruct r1 as [|c afterDot]; [discriminate|].
  destruct (Ascii.eqb_spec c "."%char) as [->|Hc].
  - destruct (spanDigits afterDot) as [fp r3] eqn:E2.
    destruct fp as [|f fp]; [discriminate|].
    inversion E; subst.
    apply spanDigits_split in E1. apply spanDigits_split in E2.
    subst. simpl. rewrite !length_app. simpl. rewrite !length_app. simpl. lia.
  - exfalso.
    destruct c as [[] [] [] [] [] [] [] []]; try discriminate E.
    apply Hc; reflexivity.
Qed.

Lemma matchUse_consuming : consuming matchUse.
Proof.
  intros s r rest E. unfold matchUse in E.
  destruct s as [|c1 [|c2 [|c3 tl]]]; try discriminate.
  destruct (eqIgnoreCase c1 "u" && eqIgnoreCase c2 "s" && eqIgnoreCase c3 "e");
    [|discriminate].
  inversion E; subst. simpl. lia.
Qed.

Lemma matchDecimal_no_digit :
  forall c tl, isDigit c = false -> matchDecimal (c :: tl) = None.
Proof.
  intros c tl H. unfold matchDecimal. simpl. rewrite H. reflexivity.
Qed.

Lemma no_decimal_within_digit_free :
  forall pre s,
    forallb (fun c => negb (isDigit c)) pre = true ->
    noMatchWithin matchDecimal pre s = true.
Proof.
  induction pre as [|c pre IH]; intros s H; [reflexivity|].
  simpl in H. apply andb_true_iff in H as [Hc Hp].
  apply negb_true_iff in Hc.
  simpl. rewrite matchDecimal_no_digit by exact Hc. apply IH. exact Hp.
Qed.

Lemma matchDecimal_at :
  forall integerPart fractionalPart rest,
    integerPart <> [] -> fractionalPart <> [] ->
    forallb isDigit integerPart = true ->
    forallb isDigit fractionalPart = true ->
    noLeadingDigit rest = true ->
    matchDecimal (integerPart ++ "."%char :: fractionalPart ++ rest)
    = Some (decimalReplacement integerPart fractionalPart, rest).
Proof.
  intros ip fp rest Hi Hf Hid Hfd Hr. unfold matchDecimal.
  rewrite spanDigits_run by (assumption || reflexivity).
  destruct ip as [|i ip]; [contradiction|].
  rewrite spanDigits_run by assumption.
  destruct fp as [|f fp]; [contradiction|]. reflexivity.
Qed.

(** A decimal after digit-free text: the integer part is kept, the dot
    becomes " point " and the digits of the fraction are spaced out. *)
Lemma replaceDecimals_decimal :
  forall pre integerPart fractionalPart rest,
    forallb (fun c => negb (isDigit c)) pre = true ->
    integerPart <> [] -> fractionalPart <> [] ->
    forallb isDigit integerPart = true ->
    forallb isDigit fractionalPart = true ->
    noLeadingDigit rest = true ->
    replaceDecimals (pre ++ integerPart ++ "."%char :: fractionalPart ++ rest)
    = pre ++ integerPart ++ ofString " point " ++ joinChars [" "%char] fractionalPart
          ++ replaceDecimals rest.
Proof.
  intros pre ip fp rest Hp Hi Hf Hid Hfd Hr. unfold replaceDecimals.
  rewrite (@replaceGlobal_leftmost matchDecimal matchDecimal_consuming pre
             (ip ++ "."%char :: fp ++ rest) (decimalReplacement ip fp) rest).
  - unfold decimalReplacement. rewrite <- !app_assoc. reflexivity.
  - apply no_decimal_within_digit_free. exact Hp.
  - apply matchDecimal_at; assumption.
Qed.

(** The leftmost "use", in any case and wherever it stands, becomes
    "yuuzh". *)
Lemma replaceUse_leftmost :
  forall pre c1 c2 c3 rest,
    noMatchWithin matchUse pre (c1 :: c2 :: c3 :: rest) = true ->
    spellsUse c1 c2 c3 = true ->
    replaceUse (pre ++ c1 :: c2 :: c3 :: rest)
    = pre ++ ofString "yuuzh" ++ replaceUse rest.
Proof.
  intros pre c1 c2 c3 rest Hno Hs. unfold replaceUse.
  apply (@replaceGlobal_leftmost matchUse matchUse_consuming); [exact Hno|].
  unfold matchUse. unfold spellsUse in Hs. rewrite Hs. reflexivity.
Qed.

End NormalizeFacts.


(** ** The speech output engine *)

Section SpeechFacts.
Import JsString Speech.
Local Open Scope string_scope.
Local Open Scope list_scope.

Variable Action : Type.
Variable Client : Type.
Variable act : Action -> Client -> Client.

(** The world right after [cancel()]. *)
Lemma cancel_effect :
  forall w : World Action Client,
    exists w',
      cancel w = Returned w' /\
      isSpeaking (hook w') = false /\
      mouthShape (hook w') = "X" /\
      utteranceQueue (hook w') = [] /\
      onEndCallback (hook w') = None /\
      spokenText (hook w') = spokenText (hook w) /\
      isMuted (hook w') = isMuted (hook w) /\
      voices (hook w') = voices (hook w) /\
      client w' = client w /\
      invocations w' = invocations w /\
      submissions w' = submissions w /\
      busy w' = false /\
      getVoices w' = getVoices w.
Proof.
  intros w. unfold cancel. eexists. split; [reflexivity|].
  destruct w as [h [s|] c hist]; simpl.
  - unfold invocations, submissions, busy, getVoices; simpl.
    rewrite !flat_map_app; simpl. rewrite !app_nil_r.
    repeat split; reflexivity.
  - unfold invocations, submissions, busy, getVoices; simpl.
    repeat split; reflexivity.
Qed.

(** A call of [speak] that starts playback: the caption is the original
    text, the first unit goes to the device, the others wait in the queue,
    each with its text normalised, and the callback is kept for later. *)
Lemma speak_starts_playback :
  forall depth input onEnd langOrGender (w : World Action Client) s seg segs,
    isMuted (hook w) = false ->
    synth w = Some s ->
    segmentsOf input langOrGender = seg :: segs ->
    exists w',
      speak act depth input onEnd langOrGender w = Returned w' /\
      spokenText (hook w') = concatAll (map text (seg :: segs)) /\
      isSpeaking (hook w') = true /\
      mouthShape (hook w') = "A" /\
      onEndCallback (hook w') = onEnd /\
      utteranceQueue (hook w') = map (makeUtterance w langOrGender) segs /\
      synth w' = Some {| playing := [makeUtterance w langOrGender seg];
                         interrupted := interrupted s +
                                        (match playing s with [] => 0 | _ :: _ => 1 end);
                         installed := installed s |} /\
      history w' = history w ++ [Stopped; Submitted (makeUtterance w langOrGender seg)] /\
      client w' = client w /\
      isMuted (hook w') = false /\
      voices (hook w') = voices (hook w).
Proof.
  intros depth input onEnd lg w s seg segs Hm Hs Hseg.
  unfold speak, speakWith. rewrite Hm, Hs. simpl orb. cbv iota.
  unfold cancel, andThen. rewrite Hseg.
  destruct w as [h sy c hist]. simpl in Hm, Hs. subst sy.
  simpl. eexists. split; [reflexivity|].
  simpl. rewrite <- app_assoc. simpl.
  repeat split; try reflexivity. exact Hm.
Qed.

(** The text of a unit is the normalised text of its segment. *)
Lemma makeUtterance_text :
  forall (w : World Action Client) langOrGender segment,
    utext (makeUtterance w langOrGender segment)
    = Normalize.preprocessTextForSpeech (text segment).
Proof. reflexivity. Qed.

End SpeechFacts.


(** ** Normalisation is for the synthesiser only (claim C8) *)

Example preprocess_sample :
  Normalize.preprocessTextForSpeech "The user's total is 12.340, because."
  = "The yuuzhr's total is 12 point 3 4 0, becayuuzh."%string.
Proof. reflexivity. Qed.

(** A second dot does not start a second decimal: the scan goes on after
    the first match. *)
Example preprocess_version_number :
  Normalize.preprocessTextForSpeech "v1.2.3" = "v1 point 2.3"%string.
Proof. reflexivity. Qed.

Section Captions.
Import JsString Normalize Reading Speech.
Local Open Scope string_scope.
Local Open Scope list_scope.




End Captions.


(** ** Cancelling (claims C3 and C10) *)

Section Cancelling.
Import JsString Reading Speech.
Local Open Scope string_scope.
Local Open Scope list_scope.

Variable Action : Type.
Variable Client : Type.
Variable act : Action -> Client -> Client.

(** What an event of the device leaves untouched in a quiet engine. *)
Lemma deliver_quiet :
  forall depth e (w : World Action Client),
    quiet w ->
    exists w',
      deliver act depth e w = Returned w' /\
      quiet w' /\
      client w' = client w /\
      invocations w' = invocations w /\
      submissions w' = submissions w /\
      spokenText (hook w') = spokenText (hook w) /\
      isMuted (hook w') = isMuted (hook w).
Proof.
  intros depth e w (Hq & Hcb & Hsp & Hm & Hb).
  assert (Hsame : exists w', Returned w = Returned w' /\ quiet w' /\
                    client w' = client w /\ invocations w' = invocations w /\
                    submissions w' = submissions w /\
                    spokenText (hook w') = spokenText (hook w) /\
                    isMuted (hook w') = isMuted (hook w)).
  { exists w. split; [reflexivity|]. split; [unfold quiet; auto|]. repeat split; reflexivity. }
  destruct e as [| |name draw].
  - (* no unit is being spoken: the event cannot occur *)
    unfold deliver, unitEnded. unfold busy in Hb.
    destruct (synth w) as [s|]; [|exact Hsame].
    destruct (playing s); [exact Hsame | discriminate].
  - unfold deliver, interruptedUnitEnded.
    destruct (synth w) as [s|] eqn:Es; [|exact Hsame].
    destruct (interrupted s) as [|n] eqn:En; [exact Hsame|].
    unfold processQueue, processQueueWith. simpl. rewrite Hq. simpl. rewrite Hcb.
    eexists. split; [reflexivity|].
    unfold quiet, busy, invocations, submissions. simpl.
    unfold busy in Hb. rewrite Es in Hb.
    repeat split; auto.
  - unfold deliver. rewrite Hb. exact Hsame.
Qed.

Lemma deliverAll_quiet :
  forall depth es (w : World Action Client),
    quiet w ->
    exists w',
      deliverAll act depth es w = Returned w' /\
      quiet w' /\
      client w' = client w /\
      invocations w' = invocations w /\
      submissions w' = submissions w /\
      spokenText (hook w') = spokenText (hook w) /\
      isMuted (hook w') = isMuted (hook w).
Proof.
  intros depth es. induction es as [|e es IH]; intros w Hq.
  - exists w. simpl. split; [reflexivity|]. split; [exact Hq|]. repeat split; reflexivity.
  - destruct (deliver_quiet depth e Hq) as (w1 & H1 & Hq1 & Hc1 & Hi1 & Hs1 & Ht1 & Hm1).
    destruct (IH w1 Hq1) as (w2 & H2 & Hq2 & Hc2 & Hi2 & Hs2 & Ht2 & Hm2).
    exists w2. simpl. rewrite H1. simpl. split; [exact H2|].
    split; [exact Hq2|]. repeat split; congruence.
Qed.

Lemma cancel_quiet :
  forall w : World Action Client,
    exists w', cancel w = Returned w' /\ quiet w'.
Proof.
  intros w.
  destruct (cancel_effect w) as (w' & H & Hsp & Hm & Hq & Hcb & _ & _ & _ & _ & _ & _ & Hb & _).
  exists w'. split; [exact H|]. unfold quiet. repeat split; assumption.
Qed.

End Cancelling.

Section CancelClaims.
Import JsString Reading Speech.
Local Open Scope string_scope.
Local Open Scope list_scope.

(** C3.  In whatever state [cancel()] is called, an empty queue with
    nothing playing included, it returns without throwing and leaves the
    speaking flag false, the mouth shape at "X" and the queue empty; it
    calls no completion callback, and the callback that was pending is
    forgotten: whatever events the device still delivers for the units it
    stopped, no callback is called and the flags stay as [cancel()] left
    them. *)
Theorem cancel_silences_the_engine :
  forall (Action Client : Type) (act : Action -> Client -> Client)
         depth (w : World Action Client) (late : list DeviceEvent),
  exists w1 w2,
    cancel w = Returned w1 /\
    isSpeaking (hook w1) = false /\
    mouthShape (hook w1) = "X" /\
    utteranceQueue (hook w1) = [] /\
    onEndCallback (hook w1) = None /\
    invocations w1 = invocations w /\
    client w1 = client w /\
    deliverAll act depth late w1 = Returned w2 /\
    isSpeaking (hook w2) = false /\
    mouthShape (hook w2) = "X" /\
    utteranceQueue (hook w2) = [] /\
    onEndCallback (hook w2) = None /\
    invocations w2 = invocations w /\
    client w2 = client w.
Proof.
  intros Action Client act depth w late.
  destruct (cancel_effect w)
    as (w1 & H & Hsp & Hm & Hq & Hcb & _ & _ & _ & Hc & Hi & _ & Hb & _).
  assert (Hquiet : quiet w1) by (unfold quiet; repeat split; assumption).
  destruct (deliverAll_quiet act depth late Hquiet)
    as (w2 & H2 & (Hq2 & Hcb2 & Hsp2 & Hm2 & _) & Hc2 & Hi2 & _).
  exists w1, w2. repeat split; try assumption; congruence.
Qed.

(** C10.  [cancel()] changes neither the caption nor the mute flag: called
    right after a call of [speak] that started playback, it leaves the text
    that call published as caption, and the events the device delivers
    afterwards for the units it stopped change neither. *)
Theorem cancel_keeps_caption_and_mute :
  forall (Action Client : Type) (act : Action -> Client -> Client),
    (forall w : World Action Client,
       exists w',
         cancel w = Returned w' /\
         spokenText (hook w') = spokenText (hook w) /\
         isMuted (hook w') = isMuted (hook w))
    /\
    (forall depth input onEnd langOrGender (w : World Action Client) s seg segs,
       isMuted (hook w) = false ->
       synth w = Some s ->
       segmentsOf input langOrGender = seg :: segs ->
       exists w1 w2,
         speak act depth input onEnd langOrGender w = Returned w1 /\
         cancel w1 = Returned w2 /\
         spokenText (hook w2) = concatAll (map text (seg :: segs)) /\
         isMuted (hook w2) = isMuted (hook w))
    /\
    (forall depth (late : list DeviceEvent) (w : World Action Client),
       exists w1 w2,
         cancel w = Returned w1 /\
         deliverAll act depth late w1 = Returned w2 /\
         spokenText (hook w2) = spokenText (hook w) /\
         isMuted (hook w2) = isMuted (hook w)).
Proof.
  intros Action Client act.
  split; [|split].
  - intros w0.
    destruct (cancel_effect w0) as (w0' & H & _ & _ & _ & _ & Ht & Hmu & _).
    exists w0'. repeat split; assumption.
  - intros depth input onEnd lg w s seg segs Hm Hs Hseg.
    destruct (speak_starts_playback act depth input onEnd lg w Hm Hs Hseg)
      as (w1 & Hrun & Hcap & _ & _ & _ & _ & _ & _ & _ & Hm1 & _).
    destruct (cancel_effect w1) as (w2 & H & _ & _ & _ & _ & Ht & Hmu & _).
    exists w1, w2. repeat split; try assumption; congruence.
  - intros depth late w.
    destruct (cancel_effect w) as (w1 & H & Hsp & Hm & Hq & Hcb & Ht & Hmu & _ & _ & _ & _ & Hb & _).
    assert (Hquiet : quiet w1) by (unfold quiet; repeat split; assumption).
    destruct (deliverAll_quiet act depth late Hquiet)
      as (w2 & H2 & _ & _ & _ & _ & Ht2 & Hmu2).
    exists w1, w2. repeat split; try assumption; congruence.
Qed.

(** The theorem at work: a caption published, then [cancel()]. *)
Lemma cancel_keeps_caption_and_mute_witness :
  exists w1 w2,
    speak (fun (_ : unit) (c : unit) => c) 1
          (Segments [{| text := "Ab, aapki baari. "; lang := hi |};
                     {| text := "Print 2.5"; lang := en |}]) None "hi-IN"
          (Scenario.freshWorld unit tt) = Returned w1 /\
    cancel w1 = Returned w2 /\
    spokenText (hook w2) = "Ab, aapki baari. Print 2.5" /\
    isMuted (hook w2) = false.
Proof.
  destruct (@cancel_keeps_caption_and_mute unit unit (fun _ c => c)) as (_ & Hspeak & _).
  destruct (Hspeak 1
              (Segments [{| text := "Ab, aapki baari. "; lang := hi |};
                         {| text := "Print 2.5"; lang := en |}]) None "hi-IN"
              (Scenario.freshWorld unit tt) Scenario.idleSynth
              {| text := "Ab, aapki baari. "; lang := hi |}
              [{| text := "Print 2.5"; lang := en |}]
              eq_refl eq_refl eq_refl)
    as (w1 & w2 & H1 & H2 & H3 & H4).
  exists w1, w2. repeat split; assumption.
Defined.

End CancelClaims.


(** ** The provider boundary (claims C9 and C4) *)

Section ProviderFacts.
Import JsString Reading Provider.
Local Open Scope string_scope.
Local Open Scope list_scope.

Lemma failureOf_message :
  forall op error,
    failureOf op error
    = ErrorObject (if quotaSignal error then QUOTA_MESSAGE else defaultMessageOf op).
Proof.
  intros op [message|shown]; unfold failureOf, handleApiError, quotaSignal.
  - destruct (sIncludes message "429" || sIncludes message "RESOURCE_EXHAUSTED"); reflexivity.
  - reflexivity.
Qed.

Lemma failureOf_fixed :
  forall (A : Type) op error, fixedMessage op (@Rejected A (failureOf op error)).
Proof.
  intros A op error. simpl. rewrite failureOf_message.
  destruct (quotaSignal error); [left | right]; reflexivity.
Qed.

(** A multiple-choice step is kept exactly when its index is a number
    below the number of choices. *)
Lemma keepStep_multiple_choice :
  forall question choices index feedback,
    keepStep (MultipleChoiceJson question choices index feedback) = true <->
    exists n cs, index = JNumber n /\ choices = Some cs /\ (n < Z.of_nat (List.length cs))%Z.
Proof.
  intros q choices index f. unfold keepStep, isIndexValid. split.
  - destruct index as [| |n|t|b]; simpl; try discriminate.
    destruct choices as [cs|]; simpl; [|discriminate].
    destruct (n <? Z.of_nat (List.length cs))%Z eqn:E; [|discriminate].
    intros _. exists n, cs. repeat split. apply Z.ltb_lt. exact E.
  - intros (n & cs & -> & -> & H). simpl.
    apply Z.ltb_lt in H. rewrite H. reflexivity.
Qed.

(** A step that is not a multiple-choice question is always kept. *)
Lemma keepStep_other :
  forall step,
    (forall q c i f, step <> MultipleChoiceJson q c i f) -> keepStep step = true.
Proof.
  intros [c v|q c i f|m sc v|t] H; try reflexivity.
  exfalso. apply (H q c i f). reflexivity.
Qed.

(** When no step of a lesson that has steps is kept, the fetch is
    rejected with the default text of the operation. *)
Lemma all_steps_invalid_rejected :
  forall title allSteps,
    truthyString title = true ->
    allSteps <> [] ->
    filter keepStep allSteps = [] ->
    generateLessonContent (Parsed {| topicTitle := title; steps := Some allSteps |})
    = Rejected (ErrorObject (defaultMessageOf GenerateLessonContent)).
Proof.
  intros title allSteps Ht Hne Hf. unfold generateLessonContent. simpl.
  rewrite Ht, Hf. destruct allSteps as [|x xs]; [contradiction|]. reflexivity.
Qed.




(** C4, at a failing input.  An index of -1 is out of range for the three
    choices of the step, and the step passes the filter: the check of
    lines 1593-1597 has an upper bound only.  The lesson is returned with
    the step in it. *)
Theorem negative_index_passes_the_filter :
  generateLessonContent (Parsed Scenario.lessonWithNegativeIndex)
  = Resolved Scenario.lessonWithNegativeIndex.
Proof. reflexivity. Qed.

End ProviderFacts.


(** ** Streak and activity log (claim C5) *)

Section StreakFacts.
Import Streak.
Local Open Scope Z_scope.

Lemma findIndexFrom_first :
  forall (A : Type) (p : A -> bool) l1 e l2 i,
    forallb (fun x => negb (p x)) l1 = true -> p e = true ->
    findIndexFrom p (l1 ++ e :: l2) i = i + Z.of_nat (List.length l1).
Proof.
  intros A p l1. induction l1 as [|x l1 IH]; intros e l2 i Hl He.
  - simpl. rewrite He. lia.
  - simpl in Hl. apply andb_true_iff in Hl as [Hx Hl].
    apply negb_true_iff in Hx. simpl app. simpl findIndexFrom. rewrite Hx.
    rewrite IH by assumption. simpl List.length. lia.
Qed.

Lemma findIndexFrom_absent :
  forall (A : Type) (p : A -> bool) l i,
    forallb (fun x => negb (p x)) l = true -> findIndexFrom p l i = -1.
Proof.
  intros A p l. induction l as [|x l IH]; intros i Hl; [reflexivity|].
  simpl in Hl. apply andb_true_iff in Hl as [Hx Hl].
  apply negb_true_iff in Hx. simpl. rewrite Hx. apply IH. exact Hl.
Qed.

Lemma mapIndexedFrom_elsewhere :
  forall (A : Type) (g : A -> A) k l i,
    (k < i \/ i + Z.of_nat (List.length l) <= k) ->
    mapIndexedFrom (fun x index => if index =? k then g x else x) l i = l.
Proof.
  intros A g k l. induction l as [|x l IH]; intros i H; [reflexivity|].
  simpl. simpl List.length in H.
  destruct (Z.eqb_spec i k) as [E|E]; [lia|].
  f_equal. apply IH. lia.
Qed.

Lemma mapIndexedFrom_at :
  forall (A : Type) (g : A -> A) l1 e l2 i,
    mapIndexedFrom (fun x index => if index =? i + Z.of_nat (List.length l1) then g x else x)
                   (l1 ++ e :: l2) i
    = (l1 ++ g e :: l2)%list.
Proof.
  intros A g l1. induction l1 as [|x l1 IH]; intros e l2 i.
  - simpl. replace (i + 0) with i by lia. rewrite Z.eqb_refl.
    f_equal. apply mapIndexedFrom_elsewhere. lia.
  - simpl. destruct (Z.eqb_spec i (i + Z.pos (Pos.of_succ_nat (List.length l1)))) as [E|E]; [lia|].
    f_equal.
    replace (i + Z.pos (Pos.of_succ_nat (List.length l1)))
      with ((i + 1) + Z.of_nat (List.length l1)) by lia.
    apply IH.
Qed.

(** The points of today go to the entry of today when the log has one,
    and to a new last entry when it has none. *)
Lemma nextActivityLog_accumulates :
  forall today pointsEarned l1 e l2,
    forallb (fun x => negb (date x =? today)) l1 = true ->
    date e = today ->
    nextActivityLog today pointsEarned (l1 ++ e :: l2)
    = (l1 ++ {| date := date e; logPoints := logPoints e + pointsEarned |} :: l2)%list.
Proof.
  intros today p l1 e l2 Hl He. unfold nextActivityLog, findIndex, mapIndexed.
  rewrite (findIndexFrom_first (fun entry => date entry =? today) l1 e l2 0 Hl)
    by (apply Z.eqb_eq; exact He).
  destruct (Z.ltb_spec (-1) (0 + Z.of_nat (List.length l1))) as [_|H]; [|lia].
  apply (mapIndexedFrom_at
           (fun entry => {| date := date entry; logPoints := logPoints entry + p |})).
Qed.

Lemma nextActivityLog_appends :
  forall today pointsEarned log,
    forallb (fun x => negb (date x =? today)) log = true ->
    nextActivityLog today pointsEarned log
    = (log ++ [{| date := today; logPoints := pointsEarned |}])%list.
Proof.
  intros today p log H. unfold nextActivityLog, findIndex.
  rewrite findIndexFrom_absent by exact H. reflexivity.
Qed.

(** A stored date shows as its own day on a device at UTC, or east of it
    by less than a day. *)
Lemma stored_date_shown_east :
  forall c d, 0 <= offset c < msPerDay -> toDateString c (parseDate d) = d.
Proof.
  intros c d H. unfold toDateString, parseDate, msPerDay in *.
  symmetry. apply (Z.div_unique (d * 86400000 + offset c) 86400000 d (offset c)); lia.
Qed.

(** West of UTC it shows as the day before. *)
Lemma stored_date_shown_west :
  forall c d, - msPerDay <= offset c < 0 -> toDateString c (parseDate d) = d - 1.
Proof.
  intros c d H. unfold toDateString, parseDate, msPerDay in *.
  symmetry.
  apply (Z.div_unique (d * 86400000 + offset c) 86400000 (d - 1) (offset c + 86400000)); lia.
Qed.

(** On a device at UTC the streak follows the stored date: raised by one
    when it is yesterday, kept when it is today, one otherwise. *)
Lemma nextStreak_at_utc :
  forall c u,
    offset c = 0 ->
    nextStreak c u =
      match lastActivityDate u with
      | None => 1
      | Some last =>
          if last =? toISODate (now c) then currentStreak u
          else if last =? toISODate (now c) - 1 then currentStreak u + 1
          else 1
      end.
Proof.
  intros c u H. unfold nextStreak.
  destruct (lastActivityDate u) as [last|]; [|reflexivity].
  unfold isToday, isYesterday.
  rewrite (stored_date_shown_east c last) by (unfold msPerDay; lia).
  unfold toDateString, toISODate. rewrite H, Z.add_0_r.
  destruct (last =? now c / msPerDay); reflexivity.
Qed.

(** West of UTC a stored date is never "today" when it is the day the
    device shows and the day the code is about to store. *)
Lemma today_not_recognised_west :
  forall c,
    - msPerDay <= offset c < 0 ->
    toDateString c (now c) = toISODate (now c) ->
    isToday c (toISODate (now c)) = false /\
    isYesterday c (toISODate (now c)) = true.
Proof.
  intros c H Hsame. unfold isToday, isYesterday.
  rewrite stored_date_shown_west by exact H. rewrite Hsame.
  split; [apply Z.eqb_neq; lia | apply Z.eqb_eq; lia].
Qed.

(** C5, at a failing input.  The learner completed a lesson earlier on
    2024-05-10, so [lastActivityDate] is the date the code computes as
    [today], and is that day on the local calendar too.  The stored date is
    read back as midnight UTC and shown in local time, five hours
    earlier, as 2024-05-09: [isToday] fails, [isYesterday] holds, and the
    streak goes from 3 to 4 instead of staying.  The points do go to the
    entry of today. *)
Theorem second_lesson_of_the_day_raises_the_streak :
  toISODate (now Scenario.morningWestOfUTC) = Scenario.may10 /\
  toDateString Scenario.morningWestOfUTC (now Scenario.morningWestOfUTC) = Scenario.may10 /\
  lastActivityDate Scenario.learner = Some Scenario.may10 /\
  currentStreak Scenario.learner = 3 /\
  isToday Scenario.morningWestOfUTC Scenario.may10 = false /\
  isYesterday Scenario.morningWestOfUTC Scenario.may10 = true /\
  currentStreak (completeLesson Scenario.morningWestOfUTC Scenario.learner None None) = 4 /\
  activityLog (completeLesson Scenario.morningWestOfUTC Scenario.learner None None)
  = [{| date := Scenario.may10; logPoints := 200 |}].
Proof. repeat split; vm_compute; reflexivity. Qed.

End StreakFacts.


(** ** The listening gate (claim C2) *)

Section GateFacts.
Import Types Gate Reading.

Lemma tutorStateEqb_eq : forall a b, tutorStateEqb a b = true <-> a = b.
Proof.
  intros a b. split.
  - destruct a, b; simpl; intros H; try discriminate; reflexivity.
  - intros ->. destruct b; reflexivity.
Qed.

Lemma inputsEqb_eq : forall a b, inputsEqb a b = true <-> a = b.
Proof.
  intros [ta la sa pa] [tb lb sb pb]. unfold inputsEqb. simpl.
  rewrite !andb_true_iff, tutorStateEqb_eq, !Bool.eqb_true_iff.
  split.
  - intros [[[-> ->] ->] ->]. reflexivity.
  - intros H. inversion H. auto.
Qed.

Lemma inputsEqb_refl : forall a, inputsEqb a a = true.
Proof. intros a. apply inputsEqb_eq. reflexivity. Qed.

(** The condition of line 569, spelled out. *)
Lemma canListen_spelled_out :
  forall i,
    canListen i = true <->
    (tutorState i = AWAITING_TASK \/ tutorState i = INCORRECT \/ tutorState i = AWAITING_CHOICE) /\
    isLoading i = false /\ isSpeaking i = false /\ isSpeechSupported i = true.
Proof.
  intros i. unfold canListen, isAwaitingUserInput.
  rewrite !andb_true_iff, !orb_true_iff, !negb_true_iff, !tutorStateEqb_eq.
  tauto.
Qed.

Lemma mount_coherent : forall i, coherent (mount i) = true.
Proof.
  intros i. unfold coherent, mount, effectBody. simpl.
  destruct (canListen i); reflexivity.
Qed.

Lemma render_coherent : forall i g, coherent g = true -> coherent (render i g) = true.
Proof.
  intros i [j s l] H. unfold render. simpl.
  destruct (inputsEqb i j && Bool.eqb l s); [exact H|].
  unfold coherent, effectBody, effectCleanup in *. simpl in *.
  destruct s, l, (canListen i); simpl; try reflexivity;
    destruct (canListen j); simpl in *; congruence.
Qed.

Lemma reachable_coherent : forall g, reachable g -> coherent g = true.
Proof.
  intros g H. induction H as [i | i g _ IH].
  - apply mount_coherent.
  - apply render_coherent. exact IH.
Qed.

Lemma settled_coherent :
  forall g, coherent g = true -> settled g = true -> listening g = canListen (inputs g).
Proof.
  intros [i s l]. unfold coherent, settled. simpl.
  destruct s, l, (canListen i); simpl; congruence.
Qed.

Lemma settle_coherent :
  forall g,
    coherent g = true ->
    settled (settle 2 g) = true /\
    listening (settle 2 g) = canListen (inputs g) /\
    inputs (settle 2 g) = inputs g.
Proof.
  intros [i s l] H. unfold coherent in H. simpl in H.
  unfold settle, settled, render, effectBody, effectCleanup. simpl.
  rewrite !inputsEqb_refl.
  destruct s, l, (canListen i) eqn:E; simpl in *; try discriminate;
    rewrite ?inputsEqb_refl, ?E; simpl; rewrite ?E; simpl; auto.
Qed.




End GateFacts.


(** ** Calls of [speak] with a plain callback *)

Section PlainCallbacks.
Import JsString Reading Speech.
Local Open Scope string_scope.
Local Open Scope list_scope.

Variable Action : Type.
Variable Client : Type.
Variable act : Action -> Client -> Client.

Lemma callIfGiven_plain :
  forall d (onEnd : option Action) (w v : World Action Client),
    client v = client w -> invocations v = invocations w ->
    exists w',
      callIfGiven (invoke act (S d)) (option_map (@Do Action) onEnd) v = Returned w' /\
      afterSpeak act onEnd w w'.
Proof.
  intros d onEnd w v Hc Hi. destruct onEnd as [a|]; simpl.
  - eexists. split; [reflexivity|]. right.
    unfold invocations in *. simpl. rewrite flat_map_app. simpl.
    rewrite Hc, Hi. auto.
  - exists v. split; [reflexivity|]. right. rewrite app_nil_r. auto.
Qed.

(** Such a call always returns. *)
Lemma speak_plain_returns :
  forall d input (onEnd : option Action) langOrGender (w : World Action Client),
    exists w',
      speak act (S d) input (option_map (@Do Action) onEnd) langOrGender w = Returned w' /\
      afterSpeak act onEnd w w'.
Proof.
  intros d input onEnd lg w.
  destruct (isMuted (hook w)) eqn:Hm.
  - unfold speak, speakWith. rewrite Hm. simpl orb. cbv iota.
    apply callIfGiven_plain; reflexivity.
  - destruct (synth w) as [s|] eqn:Hs.
    + destruct (segmentsOf input lg) as [|seg segs] eqn:Hseg.
      * unfold speak, speakWith. rewrite Hm, Hs. simpl orb. cbv iota.
        destruct (cancel_effect w) as (w1 & H1 & _ & _ & _ & _ & _ & _ & _ & Hc & Hi & _).
        rewrite H1. unfold andThen. rewrite Hseg. simpl.
        apply callIfGiven_plain; assumption.
      * destruct (speak_starts_playback act (S d) input (option_map (@Do Action) onEnd) lg w
                    Hm Hs Hseg)
          as (w' & Hrun & _ & Hsp & _ & Hcb & _ & Hsy & Hh & Hc & _).
        exists w'. split; [exact Hrun|]. left.
        unfold busy, invocations. rewrite Hsy, Hh, flat_map_app. simpl.
        rewrite app_nil_r. auto.
    + unfold speak, speakWith. rewrite Hm, Hs. simpl orb. cbv iota.
      apply callIfGiven_plain; reflexivity.
Qed.

End PlainCallbacks.


(** ** The orchestrator's handlers (claims C6 and C7) *)

Section HandlerFacts.
Import JsString Types Reading Provider Speech App.
Local Open Scope string_scope.
Local Open Scope list_scope.

(** A verdict that says "incorrect" comes with a hint. *)
Lemma evaluateCode_incorrect_has_hint :
  forall reply verdict,
    evaluateCode reply = Resolved verdict ->
    evIsCorrect verdict = false ->
    evHint verdict <> None.
Proof.
  intros [j|e] verdict H Hc; unfold evaluateCode in H; [|discriminate].
  destruct (Provider.isCorrect j) as [correct|]; [|discriminate].
  destruct (Provider.feedback j) as [t|]; [|discriminate].
  destruct (Provider.hint j) as [h|] eqn:Eh.
  - rewrite andb_false_r in H. inversion H; subst. simpl. discriminate.
  - destruct correct; simpl in H; [|discriminate].
    inversion H; subst. simpl in Hc. discriminate.
Qed.

(** A failed exchange: the state put back is the snapshot that the
    handler's closure holds, that is, the one taken by the exchange
    before; the message is kept for a retry. *)
Lemma chatExchange_failure :
  forall r message attachment isSystemMessage reply (w : App.World) e,
    chatAnswer r reply = Rejected e ->
    exists w',
      chatExchange r message attachment isSystemMessage reply w = Returned w' /\
      tutorState (client w') = stateBeforeDoubt r /\
      stateBeforeDoubt (client w') = tutorState r /\
      lastFailedMessage (client w')
        = Some {| failedText := message; failedAttachment := attachment |} /\
      chatError (client w') = Some (shownMessage e) /\
      hook w' = hook w /\ synth w' = synth w /\ history w' = history w.
Proof.
  intros r message attachment sys reply w e H.
  unfold chatExchange. rewrite H. eexists. split; [reflexivity|].
  simpl. repeat split; reflexivity.
Qed.

(** C7, at a failing input.  The explanation has been spoken and the
    state is AWAITING_CONTINUE; the learner asks a first question and the
    provider call fails.  The [catch] block writes [stateBeforeDoubt] as
    the handler's closure holds it, AWAITING_TASK from [useState], and
    not the AWAITING_CONTINUE that [setStateBeforeDoubt(tutorState)] has
    just stored: the state after the failure is AWAITING_TASK.  The failed
    message is kept. *)
Theorem failed_chat_restores_a_stale_state :
  exists w',
    handleSendChatMessage Scenario.afterExplanation "Loop kya hota hai?" None false
      (Failed (ErrorObject "fetch failed")) (Scenario.appWorld Scenario.afterExplanation)
    = Returned w' /\
    tutorState Scenario.afterExplanation = AWAITING_CONTINUE /\
    tutorState (client w') = AWAITING_TASK /\
    stateBeforeDoubt (client w') = AWAITING_CONTINUE /\
    lastFailedMessage (client w')
      = Some {| failedText := "Loop kya hota hai?"; failedAttachment := None |} /\
    chatError (client w')
      = Some "Sorry, I'm having trouble responding right now. Please try again.".
Proof.
  eexists. split; [vm_compute; reflexivity|].
  repeat split; reflexivity.
Qed.


Lemma segmentsOf_visible_text :
  forall t langOrGender,
    hasVisibleText (ofString t) = true ->
    segmentsOf (Text t) langOrGender
    = [{| text := t; lang := if String.eqb langOrGender "hi-IN" then hi else en |}].
Proof.
  intros t lg H. unfold segmentsOf. simpl. rewrite H. reflexivity.
Qed.



(** A multiple-choice step with a negative index, once shown, has no
    right answer: whatever choice is picked, the state becomes
    INCORRECT. *)
Lemma negative_index_has_no_right_answer :
  forall r question choices index feedback choiceIndex (w : App.World),
    currentStep r = Some (MULTIPLE_CHOICE question choices index feedback) ->
    (index < 0)%Z ->
    exists w',
      handleAnswerMcq r choiceIndex w = Returned w' /\
      tutorState (client w') = INCORRECT.
Proof.
  intros r q choices index f choiceIndex w Hstep Hneg.
  unfold handleAnswerMcq. rewrite Hstep.
  destruct (Z.eqb_spec (Z.of_nat choiceIndex) index) as [E|_]; [lia|].
  match goal with
  | |- exists w', andThen (App.speak ?i ?cb ?lg ?x) _ = _ /\ _ => set (w1 := x)
  end.
  destruct (speak_plain_returns App.act 3
              (Text "Yeh sahi nahi hai. Ek baar phir sochiye.") None "hi-IN" w1)
    as (w2 & Hrun & _).
  unfold App.speak, callbackDepth. simpl option_map in Hrun. rewrite Hrun.
  eexists. split; reflexivity.
Qed.

(** The spoken answer "B" to the choices "A cat", "B dog", "C bird" is
    taken as the choice of index 1. *)
Example spoken_choice_is_matched :
  matchChoice ["A cat"; "B dog"; "C bird"] "B" = Some 1.
Proof. reflexivity. Qed.

End HandlerFacts.


(** ** Playing a queue (claim C1) *)

Section Playback.
Import JsString Reading Speech.
Local Open Scope string_scope.
Local Open Scope list_scope.

Variable Action : Type.
Variable Client : Type.
Variable act : Action -> Client -> Client.

(** With one unit at the device and the others in the queue, as many [end]
    events as there are units play them one by one, in order, and then
    call the plain callback, once. *)
Lemma drain_queue :
  forall d (onEnd : option Action) q u (w : World Action Client) s,
    synth w = Some s ->
    playing s = [u] ->
    utteranceQueue (hook w) = q ->
    onEndCallback (hook w) = option_map (@Do Action) onEnd ->
    exists w',
      deliverAll act (S d) (repeat UnitEnded (S (List.length q))) w = Returned w' /\
      history w' = history w ++ oneByOne u q ++
                   match onEnd with Some a => [Invoked (Do a)] | None => [] end /\
      client w' = match onEnd with Some a => act a (client w) | None => client w end /\
      quiet w' /\
      spokenText (hook w') = spokenText (hook w).
Proof.
  intros d onEnd q. induction q as [|v q IH]; intros u w s Hs Hp Hq Hcb.
  - simpl. unfold unitEnded. rewrite Hs, Hp.
    unfold processQueue, processQueueWith. simpl. rewrite Hq. simpl. rewrite Hcb.
    destruct onEnd as [a|]; simpl.
    + eexists. split; [reflexivity|]. simpl.
      unfold quiet, busy. simpl. rewrite <- app_assoc. repeat split; auto.
    + eexists. split; [reflexivity|]. simpl.
      unfold quiet, busy. simpl. repeat split; auto.
  - simpl repeat. simpl deliverAll. unfold unitEnded at 1. rewrite Hs, Hp.
    unfold processQueue, processQueueWith. simpl utteranceQueue. rewrite Hq.
    unfold synthSpeak. simpl synth. unfold andThen at 1.
    match goal with
    | |- exists w', andThen (unitEnded _ _ ?x) _ = _ /\ _ => set (w1 := x)
    end.
    destruct (IH v w1 {| playing := [v]; interrupted := interrupted s; installed := installed s |})
      as (w' & Hrun & Hh & Hc & Hquiet & Ht); try reflexivity.
    { simpl. exact Hcb. }
    exists w'. split; [exact Hrun|].
    rewrite Hh, Hc, Ht. simpl. rewrite <- !app_assoc. simpl.
    split; [reflexivity|]. split; [reflexivity|]. split; [exact Hquiet | reflexivity].
Qed.

(** A call of [speak] with a plain callback that starts playback, followed
    by the [end] events of its units and nothing else: the units are
    handed over in the order of the segments, one at a time, and the
    callback is called once, after the last unit has ended. *)
Lemma speak_then_play :
  forall d input (onEnd : option Action) langOrGender (w : World Action Client) s seg segs,
    isMuted (hook w) = false ->
    synth w = Some s ->
    segmentsOf input langOrGender = seg :: segs ->
    exists w1 w2,
      speak act (S d) input (option_map (@Do Action) onEnd) langOrGender w = Returned w1 /\
      deliverAll act (S d) (repeat UnitEnded (List.length (seg :: segs))) w1 = Returned w2 /\
      history w2 = history w ++
                   Stopped :: Submitted (makeUtterance w langOrGender seg) ::
                   oneByOne (makeUtterance w langOrGender seg)
                            (map (makeUtterance w langOrGender) segs) ++
                   match onEnd with Some a => [Invoked (Do a)] | None => [] end /\
      client w2 = match onEnd with Some a => act a (client w) | None => client w end /\
      quiet w2.
Proof.
  intros d input onEnd lg w s seg segs Hm Hs Hseg.
  destruct (speak_starts_playback act (S d) input (option_map (@Do Action) onEnd) lg w
              Hm Hs Hseg)
    as (w1 & Hrun & _ & _ & _ & Hcb & Hq & Hsy & Hh & Hc & _).
  destruct (drain_queue d onEnd (q := map (makeUtterance w lg) segs)
              (u := makeUtterance w lg seg) w1 Hsy eq_refl Hq Hcb)
    as (w2 & Hrun2 & Hh2 & Hc2 & Hquiet & _).
  exists w1, w2. split; [exact Hrun|]. split.
  - simpl List.length. rewrite length_map in Hrun2. exact Hrun2.
  - rewrite Hh2, Hh, Hc2, Hc. rewrite <- !app_assoc. simpl.
    split; [reflexivity|]. split; [reflexivity | exact Hquiet].
Qed.

End Playback.

Section NestedSpeak.
Import JsString Types Reading Speech.
Local Open Scope string_scope.
Local Open Scope list_scope.

(** C1, at a failing input: the chain of [handleSolveDoubt].  The first
    sentence is spoken with a callback that speaks the second one, whose
    own callback is to speak the third.  When the first unit ends,
    [processQueue] calls the callback, which starts the second sentence and
    stores its callback, and then, back in [processQueue], line 49 erases
    what was just stored.  The second sentence begins playback and its
    only unit ends, and its completion callback is never called: the third
    sentence is never handed to the device. *)
Theorem callback_of_a_nested_speak_is_lost :
  exists w1 w2 w3,
    speak App.act App.callbackDepth (Text Scenario.problemExplanation)
          (Some Scenario.thenExplainSolution) "hi-IN"
          (Scenario.appWorld Scenario.afterExplanation) = Returned w1 /\
    deliver App.act App.callbackDepth UnitEnded w1 = Returned w2 /\
    submissions w2 = [Scenario.unit Scenario.problemExplanation hi;
                      Scenario.unit Scenario.solutionExplanation hi] /\
    isSpeaking (hook w2) = true /\
    busy w2 = true /\
    onEndCallback (hook w2) = None /\
    deliver App.act App.callbackDepth UnitEnded w2 = Returned w3 /\
    history w3 = [Stopped;
                  Submitted (Scenario.unit Scenario.problemExplanation hi);
                  Ended (Scenario.unit Scenario.problemExplanation hi);
                  Invoked Scenario.thenExplainSolution;
                  Stopped;
                  Submitted (Scenario.unit Scenario.solutionExplanation hi);
                  Ended (Scenario.unit Scenario.solutionExplanation hi)] /\
    invocations w3 = [Scenario.thenExplainSolution] /\
    isSpeaking (hook w3) = false /\
    busy w3 = false /\
    utteranceQueue (hook w3) = [].
Proof.
  do 3 eexists.
  split; [vm_compute; reflexivity|].
  split; [vm_compute; reflexivity|].
  repeat split; vm_compute; reflexivity.
Qed.

(** The comment in [cancel] tells that the unit it stops still gets its
    [end] event.  When [speak] is called while a unit is being spoken, that
    event arrives after the new queue is in place and runs [processQueue]
    on it: the second unit of the new call is handed over while the first
    is being spoken, and the callback is called when the first ends, with
    the second still to be spoken. *)
Lemma late_end_event_reaches_the_next_queue :
  exists w1 w2 w3 w4 s3,
    speak App.act App.callbackDepth (Text Scenario.problemExplanation) None "hi-IN"
          (Scenario.appWorld Scenario.afterExplanation) = Returned w1 /\
    speak App.act App.callbackDepth
          (Segments [{| text := "Ab, aapki baari. "; lang := hi |};
                     {| text := "Print the numbers 1 to 5."; lang := en |}])
          (Some (Do (App.SetTutorState AWAITING_CONTINUE))) "hi-IN" w1 = Returned w2 /\
    deliver App.act App.callbackDepth InterruptedUnitEnded w2 = Returned w3 /\
    synth w3 = Some s3 /\
    playing s3 = [Scenario.unit "Ab, aapki baari. " hi;
                  Scenario.unit "Print the numbers 1 to 5." en] /\
    deliver App.act App.callbackDepth UnitEnded w3 = Returned w4 /\
    invocations w4 = [Do (App.SetTutorState AWAITING_CONTINUE)] /\
    busy w4 = true /\
    isSpeaking (hook w4) = false.
Proof.
  do 5 eexists.
  split; [vm_compute; reflexivity|].
  split; [vm_compute; reflexivity|].
  split; [vm_compute; reflexivity|].
  split; [reflexivity|].
  repeat split; vm_compute; reflexivity.
Qed.

End NestedSpeak.


(** ** Further properties of the speech engine *)

Section EngineRuns.
Import JsString Reading Speech Runs.
Local Open Scope string_scope.
Local Open Scope list_scope.

Variable Action : Type.
Variable Client : Type.
Variable act : Action -> Client -> Client.

Lemma keepsSingleFlight_andThen :
  forall (o : Outcome Action Client) k,
    keepsSingleFlight o ->
    (forall w, singleFlight w = true -> keepsSingleFlight (k w)) ->
    keepsSingleFlight (andThen o k).
Proof.
  intros [w|why|] k Ho Hk; simpl in *; auto.
Qed.

Lemma cancel_singleFlight :
  forall w : World Action Client,
    exists w', cancel w = Returned w' /\ singleFlight w' = true /\
               (forall s, synth w = Some s ->
                  exists s', synth w' = Some s' /\ playing s' = []) /\
               isMuted (hook w') = isMuted (hook w).
Proof.
  intros [h [s|] c hist]; unfold cancel; simpl; eexists; (split; [reflexivity|]);
    unfold singleFlight; simpl; repeat split; try reflexivity.
  - intros s0 _. eexists. split; reflexivity.
  - intros s0 H. discriminate.
Qed.

Section WithCallbacks.

Variable run : Callback Action -> World Action Client -> Outcome Action Client.
Hypothesis run_keeps :
  forall cb w, singleFlight w = true -> keepsSingleFlight (run cb w).

Lemma processQueueWith_keeps :
  forall (w : World Action Client) s,
    synth w = Some s -> playing s = [] ->
    keepsSingleFlight (processQueueWith run w).
Proof.
  intros [h sy c hist] s Hs Hp. simpl in Hs. subst sy.
  unfold processQueueWith. simpl.
  destruct (utteranceQueue h) as [|u rest] eqn:Hq.
  - destruct (onEndCallback h) as [cb|] eqn:Hcb.
    + apply keepsSingleFlight_andThen.
      * apply run_keeps. unfold singleFlight. simpl. rewrite Hp, Hq. reflexivity.
      * intros [h2 sy2 c2 hist2] H2. simpl. unfold singleFlight in *. simpl in *. exact H2.
    + simpl. unfold singleFlight. simpl. rewrite Hp, Hq. reflexivity.
  - unfold synthSpeak. simpl. unfold singleFlight. simpl. rewrite Hp. reflexivity.
Qed.

Lemma callIfGiven_keeps :
  forall onEnd (w : World Action Client),
    singleFlight w = true -> keepsSingleFlight (callIfGiven run onEnd w).
Proof.
  intros [cb|] w H; simpl; [apply run_keeps|]; exact H.
Qed.

Lemma speakWith_keeps :
  forall input onEnd langOrGender (w : World Action Client),
    singleFlight w = true ->
    keepsSingleFlight (speakWith run input onEnd langOrGender w).
Proof.
  intros input onEnd lg w H. unfold speakWith.
  destruct (isMuted (hook w) || match synth w with Some _ => false | None => true end) eqn:E.
  - apply callIfGiven_keeps. exact H.
  - apply orb_false_iff in E as [_ Es].
    destruct (synth w) as [s|] eqn:Hs; [|discriminate].
    destruct (cancel_singleFlight w) as (w1 & Hc & H1 & Hp & _).
    rewrite Hc. unfold andThen.
    destruct (Hp s Hs) as (s1 & Hs1 & Hp1).
    destruct (segmentsOf input lg) as [|seg segs].
    + simpl. apply callIfGiven_keeps. exact H1.
    + simpl. apply (@processQueueWith_keeps _ s1); [|exact Hp1].
      destruct w1; simpl in *; exact Hs1.
Qed.

End WithCallbacks.

Lemma invoke_keeps :
  forall depth cb (w : World Action Client),
    singleFlight w = true -> keepsSingleFlight (invoke act depth cb w).
Proof.
  induction depth as [|d IH]; intros cb w H; [exact I|].
  simpl. destruct cb as [a|input onEnd lg].
  - simpl. destruct w as [h sy c hist]. exact H.
  - apply speakWith_keeps; [exact IH|].
    destruct w as [h sy c hist]. exact H.
Qed.

Lemma perform_keeps :
  forall depth c (w : World Action Client),
    singleFlight w = true -> keepsSingleFlight (perform act depth c w).
Proof.
  intros depth c w H. destruct c as [input onEnd lg| | | |name draw]; unfold perform, deliver.
  - apply speakWith_keeps; [apply invoke_keeps | exact H].
  - destruct (cancel_singleFlight w) as (w1 & Hc & H1 & _). rewrite Hc. exact H1.
  - unfold toggleMute. destruct (negb (isMuted (hook w))).
    + destruct (cancel_singleFlight w) as (w1 & Hc & H1 & _). rewrite Hc. simpl.
      destruct w1 as [h1 sy1 c1 hist1]. exact H1.
    + simpl. destruct w as [h sy c hist]. exact H.
  - unfold unitEnded. destruct (synth w) as [s|] eqn:Hs; [|exact H].
    destruct (playing s) as [|u rest] eqn:Hp; [exact H|].
    assert (rest = []) as ->.
    { unfold singleFlight in H. rewrite Hs, Hp in H. destruct rest; [reflexivity|discriminate]. }
    apply (@processQueueWith_keeps _ (invoke_keeps depth) _
             {| playing := []; interrupted := interrupted s; installed := installed s |});
      reflexivity.
  - destruct (busy w); [|exact H].
    unfold boundary. destruct (String.eqb name "word"); [|exact H].
    destruct w as [h sy c hist]. exact H.
Qed.


End EngineRuns.



(** ** Playback in order *)

Section PlaybackOrder.
Import JsString Reading Speech.
Local Open Scope string_scope.
Local Open Scope list_scope.

Variable Action : Type.
Variable Client : Type.
Variable act : Action -> Client -> Client.


End PlaybackOrder.


(** ** Calls of [speak] that say nothing; muting; mouth shapes *)

Section SilentCalls.
Import JsString Reading Speech.
Local Open Scope string_scope.
Local Open Scope list_scope.

Variable Action : Type.
Variable Client : Type.
Variable act : Action -> Client -> Client.

(** While the engine is muted, or when the device has no speech synthesis,
    [speak] touches neither the hook nor the device, whatever is playing:
    it only calls the callback, at once. *)
Theorem speak_when_muted_only_calls_back :
  forall d input (onEnd : option Action) langOrGender (w : World Action Client),
    isMuted (hook w) = true \/ synth w = None ->
    exists w',
      speak act (S d) input (option_map (@Do Action) onEnd) langOrGender w = Returned w' /\
      hook w' = hook w /\
      synth w' = synth w /\
      client w' = match onEnd with Some a => act a (client w) | None => client w end /\
      history w' = history w ++ match onEnd with Some a => [Invoked (Do a)] | None => [] end.
Proof.
  intros d input onEnd lg w H. unfold speak, speakWith.
  assert (E : isMuted (hook w) || match synth w with Some _ => false | None => true end = true).
  { destruct H as [H|H]; rewrite H; [reflexivity | apply orb_true_r]. }
  rewrite E. destruct onEnd as [a|]; simpl.
  - eexists. split; [reflexivity|]. simpl. repeat split; reflexivity.
  - exists w. rewrite app_nil_r. repeat split; reflexivity.
Qed.

(** A request without visible text (an empty or blank string, segments
    that are all blank) on an engine that is not muted: what was playing
    is cancelled, nothing is handed to the device, the callback is called
    at once, and the caption keeps the text of the previous request. *)
Theorem speak_blank_cancels_and_calls_back :
  forall d input (onEnd : option Action) langOrGender (w : World Action Client) s,
    isMuted (hook w) = false ->
    synth w = Some s ->
    segmentsOf input langOrGender = [] ->
    exists w',
      speak act (S d) input (option_map (@Do Action) onEnd) langOrGender w = Returned w' /\
      quiet w' /\
      spokenText (hook w') = spokenText (hook w) /\
      submissions w' = submissions w /\
      client w' = match onEnd with Some a => act a (client w) | None => client w end /\
      history w' = history w ++ Stopped ::
                   match onEnd with Some a => [Invoked (Do a)] | None => [] end.
Proof.
  intros d input onEnd lg w s Hm Hs Hseg. unfold speak, speakWith.
  rewrite Hm, Hs. simpl orb. cbv iota. unfold cancel, andThen. rewrite Hseg. simpl.
  destruct w as [h sy c hist]. simpl in *. subst sy.
  destruct onEnd as [a|]; simpl; eexists; (split; [reflexivity|]);
    unfold quiet, busy, submissions; simpl; rewrite ?flat_map_app; simpl;
    rewrite ?app_nil_r, <- ?app_assoc; repeat split; reflexivity.
Qed.

(** A string with no visible character makes such a request. *)
Lemma blank_text_has_no_segment :
  forall t langOrGender,
    hasVisibleText (ofString t) = false -> segmentsOf (Text t) langOrGender = [].
Proof.
  intros t lg H. unfold segmentsOf. simpl. rewrite H. reflexivity.
Qed.

(** Muting cancels: the queue is emptied, the pending callback is
    forgotten without being called, the engine is quiet and muted.
    Unmuting changes the mute flag and nothing else.  Two toggles in a row
    give back the mute flag. *)
Theorem toggleMute_cancels_when_muting :
  forall w : World Action Client,
    exists w1 w2,
      toggleMute w = Returned w1 /\
      isMuted (hook w1) = negb (isMuted (hook w)) /\
      client w1 = client w /\
      invocations w1 = invocations w /\
      spokenText (hook w1) = spokenText (hook w) /\
      (if isMuted (hook w)
       then w1 = setIsMuted false w
       else quiet w1) /\
      toggleMute w1 = Returned w2 /\
      isMuted (hook w2) = isMuted (hook w).
Proof.
  intros w. unfold toggleMute at 1.
  destruct (isMuted (hook w)) eqn:Hm; simpl negb; cbv iota.
  - simpl. exists (setIsMuted false w).
    destruct (cancel_effect (setIsMuted false w))
      as (w2 & Hc & _ & _ & _ & _ & _ & Hmu & _).
    exists (setIsMuted true w2).
    repeat split; try reflexivity.
    unfold toggleMute. simpl negb. cbv iota. rewrite Hc. reflexivity.
  - destruct (cancel_effect w)
      as (w1 & Hc & Hsp & Hmo & Hq & Hcb & Ht & Hmu & Hv & Hcl & Hi & Hsub & Hb & Hg).
    rewrite Hc. simpl. exists (setIsMuted true w1), (setIsMuted false (setIsMuted true w1)).
    split; [reflexivity|]. split; [reflexivity|]. split; [exact Hcl|].
    split; [exact Hi|]. split; [exact Ht|]. split.
    + unfold quiet, busy in *. simpl. repeat split; assumption.
    + split; reflexivity.
Qed.

(** While a unit is spoken, a word boundary sets the mouth to one of the
    eight shapes, never to the closed shape "X"; any other boundary, and
    any boundary with nothing being spoken, leaves the mouth as it is.
    Nothing else changes. *)
Theorem boundary_picks_an_open_shape :
  forall depth name draw (w : World Action Client),
    exists w',
      deliver act depth (Boundary name draw) w = Returned w' /\
      (if busy w && String.eqb name "word"
       then In (mouthShape (hook w')) MOUTH_SHAPES /\ mouthShape (hook w') <> "X"
       else mouthShape (hook w') = mouthShape (hook w)) /\
      isSpeaking (hook w') = isSpeaking (hook w) /\
      utteranceQueue (hook w') = utteranceQueue (hook w) /\
      onEndCallback (hook w') = onEndCallback (hook w) /\
      spokenText (hook w') = spokenText (hook w) /\
      synth w' = synth w /\ client w' = client w /\ history w' = history w.
Proof.
  intros depth name draw w. unfold deliver. eexists. split; [reflexivity|].
  destruct (busy w); simpl andb; [|repeat split; reflexivity].
  unfold boundary. destruct (String.eqb name "word"); [|repeat split; reflexivity].
  assert (Hlt : (draw mod 8 < 8)%nat) by (apply Nat.mod_upper_bound; discriminate).
  change (List.length MOUTH_SHAPES) with 8%nat.
  remember (draw mod 8)%nat as k eqn:Hk. clear Hk.
  split; [|repeat split; reflexivity].
  destruct k as [|[|[|[|[|[|[|[|n]]]]]]]]; simpl;
    try (split; [auto 10 | discriminate]).
  lia.
Qed.

End SilentCalls.


Lemma speak_when_muted_only_calls_back_witness :
  exists w',
    Speech.speak App.act 1 (Speech.Text Scenario.invitation)
      (Some (Speech.Do (App.SetTutorState Types.AWAITING_CONTINUE))) "hi-IN"%string
      (Speech.setIsMuted true (Scenario.appWorld Scenario.atCodeTask)) = Speech.Returned w' /\
    Speech.hook w' = Speech.hook (Speech.setIsMuted true (Scenario.appWorld Scenario.atCodeTask)) /\
    App.tutorState (Speech.client w') = Types.AWAITING_CONTINUE.
Proof.
  destruct (@speak_when_muted_only_calls_back App.Action App.AppState App.act 0
              (Speech.Text Scenario.invitation)
              (Some (App.SetTutorState Types.AWAITING_CONTINUE)) "hi-IN"%string
              (Speech.setIsMuted true (Scenario.appWorld Scenario.atCodeTask))
              (or_introl eq_refl))
    as (w' & H & Hh & _ & Hc & _).
  exists w'. split; [exact H|]. split; [exact Hh|]. rewrite Hc. reflexivity.
Defined.

Lemma speak_blank_cancels_and_calls_back_witness :
  exists w',
    Speech.speak App.act 1 (Speech.Text "   ")
      (Some (Speech.Do (App.SetTutorState Types.AWAITING_CONTINUE))) "hi-IN"%string
      (Scenario.appWorld Scenario.atCodeTask) = Speech.Returned w' /\
    Reading.quiet w' /\
    App.tutorState (Speech.client w') = Types.AWAITING_CONTINUE.
Proof.
  destruct (@speak_blank_cancels_and_calls_back App.Action App.AppState App.act 0
              (Speech.Text "   ")
              (Some (App.SetTutorState Types.AWAITING_CONTINUE)) "hi-IN"%string
              (Scenario.appWorld Scenario.atCodeTask) Scenario.idleSynth
              eq_refl eq_refl eq_refl)
    as (w' & H & Hq & _ & _ & Hc & _).
  exists w'. split; [exact H|]. split; [exact Hq|]. rewrite Hc. reflexivity.
Defined.

(** ** The voice table *)

Section VoiceTableFacts.
Import JsString Speech Voices.
Local Open Scope string_scope.
Local Open Scope list_scope.

Lemma orElse_some :
  forall (A : Type) (a b : option A) v,
    orElse a b = Some v -> a = Some v \/ b = Some v.
Proof. intros A [x|] b v H; simpl in H; auto. Qed.

Lemma orElse_none :
  forall (A : Type) (a b : option A),
    orElse a b = None -> a = None /\ b = None.
Proof. intros A [x|] b H; simpl in H; [discriminate | auto]. Qed.

Lemma find_ofLocale :
  forall p l allVoices, installedFor l allVoices (find p (ofLocale l allVoices)).
Proof.
  intros p l vs v H. apply find_some in H. destruct H as [H _].
  apply filter_In in H. destruct H as [Hin Hl].
  split; [exact Hin | apply String.eqb_eq; exact Hl].
Qed.

Lemma hd_ofLocale :
  forall l allVoices, installedFor l allVoices (hd_error (ofLocale l allVoices)).
Proof.
  intros l vs v H.
  assert (Hin : In v (ofLocale l vs)).
  { destruct (ofLocale l vs); simpl in H; [discriminate|]. injection H as ->. left. reflexivity. }
  apply filter_In in Hin. destruct Hin as [Hin Hl].
  split; [exact Hin | apply String.eqb_eq; exact Hl].
Qed.

Lemma installedFor_orElse :
  forall l vs a b,
    installedFor l vs a -> installedFor l vs b -> installedFor l vs (orElse a b).
Proof.
  intros l vs a b Ha Hb v H. apply orElse_some in H. destruct H; auto.
Qed.

Lemma installedFor_none : forall l vs, installedFor l vs None.
Proof. intros l vs v H. discriminate. Qed.

Lemma installedFor_fallback :
  forall l vs f m first,
    installedFor l vs f -> installedFor l vs m -> installedFor l vs first ->
    installedFor l vs
      (male (match f, m with
             | None, None => {| male := first; female := first |}
             | _, _ => {| male := m; female := f |}
             end)) /\
    installedFor l vs
      (female (match f, m with
               | None, None => {| male := first; female := first |}
               | _, _ => {| male := m; female := f |}
               end)).
Proof.
  intros l vs [f|] [m|] first Hf Hm Hfirst; simpl; split; assumption.
Qed.

Lemma refreshTable_sound :
  forall allVoices old,
    allVoices <> [] ->
    installedFor "en-US" allVoices (male (voicesEn (refreshTable allVoices old))) /\
    installedFor "en-US" allVoices (female (voicesEn (refreshTable allVoices old))) /\
    installedFor "hi-IN" allVoices (male (voicesHi (refreshTable allVoices old))) /\
    installedFor "hi-IN" allVoices (female (voicesHi (refreshTable allVoices old))).
Proof.
  intros vs old Hne. destruct vs as [|v0 vs0]; [congruence|].
  unfold refreshTable. remember (v0 :: vs0) as vs eqn:Hvs. clear Hvs Hne.
  cbv zeta. unfold voicesEn, voicesHi.
  split; [|split].
  - apply installedFor_fallback;
      repeat apply installedFor_orElse; (apply find_ofLocale || apply hd_ofLocale).
  - apply installedFor_fallback;
      repeat apply installedFor_orElse; (apply find_ofLocale || apply hd_ofLocale).
  - apply installedFor_fallback;
      repeat apply installedFor_orElse; (apply find_ofLocale || apply hd_ofLocale).
Qed.

Lemma fallback_fills :
  forall (f m first : option Voice),
    first <> None ->
    male (match f, m with
          | None, None => {| male := first; female := first |}
          | _, _ => {| male := m; female := f |}
          end) <> None \/
    female (match f, m with
            | None, None => {| male := first; female := first |}
            | _, _ => {| male := m; female := f |}
            end) <> None.
Proof.
  intros [f|] [m|] first H; simpl;
    first [left; assumption | left; discriminate | right; discriminate].
Qed.

Lemma hd_ofLocale_some :
  forall l allVoices v,
    In v allVoices -> vlang v = l -> hd_error (ofLocale l allVoices) <> None.
Proof.
  intros l vs v Hin Hl.
  assert (H : In v (ofLocale l vs)).
  { apply filter_In. split; [exact Hin | apply String.eqb_eq; exact Hl]. }
  destruct (ofLocale l vs); [destruct H | simpl; discriminate].
Qed.

(** After [getAndSetVoices] has read a non-empty list of voices, every
    entry of the table is empty or holds a reported voice of the entry's
    locale (en-US or hi-IN), whatever the table held before; and a locale
    has an entry, male or female, exactly when a voice of that locale was
    reported. *)
Theorem refreshed_table_serves_each_locale :
  forall allVoices old l,
    allVoices <> [] ->
    let entry := match l with
                 | en => voicesEn (refreshTable allVoices old)
                 | hi => voicesHi (refreshTable allVoices old)
                 end in
    installedFor (locale l) allVoices (male entry) /\
    installedFor (locale l) allVoices (female entry) /\
    ((exists v, In v allVoices /\ vlang v = locale l) <->
     (male entry <> None \/ female entry <> None)).
Proof.
  intros vs old l Hne entry.
  destruct (refreshTable_sound old Hne) as (Hem & Hef & Hhm & Hhf).
  assert (Hs : installedFor (locale l) vs (male entry) /\
               installedFor (locale l) vs (female entry)).
  { destruct l; subst entry; simpl locale; split; assumption. }
  destruct Hs as [Hm Hf]. split; [exact Hm|]. split; [exact Hf|]. split.
  - intros (v & Hin & Hl).
    destruct vs as [|v0 vs0]; [congruence|].
    subst entry. unfold refreshTable. remember (v0 :: vs0) as vs eqn:Hvs. clear Hvs.
    cbv zeta. unfold voicesEn, voicesHi.
    destruct l; apply fallback_fills; (eapply hd_ofLocale_some; [exact Hin | exact Hl]).
  - intros [H|H].
    + destruct (male entry) as [v|] eqn:E; [|congruence].
      exists v. apply Hm. reflexivity.
    + destruct (female entry) as [v|] eqn:E; [|congruence].
      exists v. apply Hf. reflexivity.
Qed.

Section Utterances.

Variable Action : Type.
Variable Client : Type.

(** Once the table has been read from a device that reports voices, the
    voice [speak] gives to a unit is one of the reported voices, and it
    speaks the language of the segment: a voice of the segment's locale
    whenever one is reported (whatever gender was asked for); only when
    there is none, a voice whose language tag starts with the segment's
    language; and no voice only when no reported voice does. *)
Theorem utterance_voice_speaks_the_segment_language :
  forall (w0 w : World Action Client) s langOrGender segment,
    synth w0 = Some s ->
    installed s <> [] ->
    getAndSetVoices w0 = Returned w ->
    match uvoice (makeUtterance w langOrGender segment) with
    | Some v =>
        In v (installed s) /\
        (vlang v = locale (lang segment) \/
         (forall v', In v' (installed s) -> vlang v' <> locale (lang segment)) /\
         sStartsWith (vlang v) (languageSubtag (lang segment)) = true)
    | None =>
        forall v', In v' (installed s) ->
          sStartsWith (vlang v') (languageSubtag (lang segment)) = false
    end.
Proof.
  intros w0 w s lg seg Hs Hne Hget.
  unfold getAndSetVoices in Hget. rewrite Hs in Hget. injection Hget as <-.
  destruct (refreshTable_sound (voices (hook w0)) Hne) as (Hem & Hef & Hhm & Hhf).
  unfold makeUtterance. cbv zeta. simpl uvoice.
  unfold getVoices. simpl synth. rewrite Hs.
  simpl voices.
  set (T := refreshTable (installed s) (voices (hook w0))) in *.
  set (chosen := match lang seg with
                 | hi => orElse (female (voicesHi T)) (male (voicesHi T))
                 | en => if String.eqb lg "female" then female (voicesEn T)
                         else male (voicesEn T)
                 end).
  assert (Hc : installedFor (locale (lang seg)) (installed s) chosen).
  { subst chosen. destruct (lang seg); simpl locale.
    - destruct (String.eqb lg "female"); assumption.
    - apply installedFor_orElse; assumption. }
  destruct chosen as [v|] eqn:E.
  - destruct (Hc v eq_refl) as [Hin Hl]. split; [exact Hin | left; exact Hl].
  - destruct (find (fun v => String.eqb (vlang v) (locale (lang seg))) (installed s))
      as [v|] eqn:F1; simpl orElse.
    + apply find_some in F1. destruct F1 as [Hin Hl].
      split; [exact Hin | left; apply String.eqb_eq; exact Hl].
    + assert (Hno : forall v', In v' (installed s) -> vlang v' <> locale (lang seg)).
      { intros v' Hin Heq. apply (find_none _ _ F1) in Hin. simpl in Hin.
        apply String.eqb_neq in Hin. contradiction. }
      destruct (find (fun v => sStartsWith (vlang v) (languageSubtag (lang seg))) (installed s))
        as [v|] eqn:F2.
      * apply find_some in F2. destruct F2 as [Hin Hst].
        split; [exact Hin | right; split; assumption].
      * intros v' Hin. apply (find_none _ _ F2) in Hin. exact Hin.
Qed.

End Utterances.

End VoiceTableFacts.


Lemma refreshed_table_serves_each_locale_witness :
  [Examples.david; Examples.zira; Examples.hemant] <> [] /\
  Speech.male (Speech.voicesEn
    (Voices.refreshTable [Examples.david; Examples.zira; Examples.hemant] Scenario.noVoices))
    = Some Examples.david /\
  Speech.female (Speech.voicesEn
    (Voices.refreshTable [Examples.david; Examples.zira; Examples.hemant] Scenario.noVoices))
    = Some Examples.zira /\
  Voices.installedFor "en-US" [Examples.david; Examples.zira; Examples.hemant]
    (Speech.male (Speech.voicesEn
      (Voices.refreshTable [Examples.david; Examples.zira; Examples.hemant] Scenario.noVoices))).
Proof.
  split; [discriminate|]. split; [reflexivity|]. split; [reflexivity|].
  apply (@refreshed_table_serves_each_locale
           [Examples.david; Examples.zira; Examples.hemant] Scenario.noVoices Speech.en).
  discriminate.
Defined.

(** A female English voice is asked for on a device whose only American
    English voice is David's: the unit is given David's voice, not the
    British one. *)
Lemma utterance_voice_speaks_the_segment_language_witness :
  exists w,
    Voices.getAndSetVoices
      (Examples.worldWith [Examples.hazel; Examples.david; Examples.hemant] Scenario.atCodeTask)
      = Speech.Returned w /\
    Speech.uvoice (Speech.makeUtterance w "female"
                     {| Speech.text := "Print 2.5"; Speech.lang := Speech.en |})
      = Some Examples.david /\
    match Speech.uvoice (Speech.makeUtterance w "female"
                           {| Speech.text := "Print 2.5"; Speech.lang := Speech.en |}) with
    | Some v => In v [Examples.hazel; Examples.david; Examples.hemant]
    | None => False
    end.
Proof.
  eexists. split; [reflexivity|]. split; [reflexivity|].
  pose proof (@utterance_voice_speaks_the_segment_language App.Action App.AppState
                (Examples.worldWith [Examples.hazel; Examples.david; Examples.hemant]
                   Scenario.atCodeTask)
                _ (Examples.deviceWith [Examples.hazel; Examples.david; Examples.hemant])
                "female"%string
                {| Speech.text := "Print 2.5"; Speech.lang := Speech.en |}
                eq_refl ltac:(discriminate) eq_refl) as H.
  vm_compute in H. vm_compute. exact (proj1 H).
Defined.


(** ** The service functions *)

Section ServiceFacts.
Import JsString Reading Provider Services.
Local Open Scope string_scope.
Local Open Scope list_scope.

Lemma startsWith_prefix :
  forall p s, startsWith s p = true <-> exists b, s = p ++ b.
Proof.
  induction p as [|a p IH]; intros s; simpl.
  - split; [intros _; exists s; reflexivity | intros _; destruct s; reflexivity].
  - destruct s as [|c s]; simpl; [split; [discriminate | intros (b & H); discriminate]|].
    rewrite andb_true_iff, IH. split.
    + intros (Hac & b & ->). apply Ascii.eqb_eq in Hac. subst c. exists b. reflexivity.
    + intros (b & H). injection H as -> ->. split; [apply Ascii.eqb_refl | exists b; reflexivity].
Qed.

Lemma includes_unfold :
  forall s p,
    includes s p = startsWith s p || match s with [] => false | _ :: s' => includes s' p end.
Proof. intros [|c s] p; reflexivity. Qed.

Lemma includes_substring :
  forall p s, includes s p = true <-> exists a b, s = a ++ p ++ b.
Proof.
  intros p s. split.
  - induction s as [|c s IH]; rewrite includes_unfold, orb_true_iff; intros [H|H].
    + apply startsWith_prefix in H. destruct H as (b & H). exists [], b. exact H.
    + discriminate.
    + apply startsWith_prefix in H. destruct H as (b & H). exists [], b. exact H.
    + destruct (IH H) as (a & b & ->). exists (c :: a), b. reflexivity.
  - intros (a & b & ->). induction a as [|c a IH]; rewrite includes_unfold.
    + assert (H : startsWith (p ++ b) p = true) by (apply startsWith_prefix; exists b; reflexivity).
      simpl app. rewrite H. reflexivity.
    + change ((c :: a) ++ p ++ b) with (c :: (a ++ p ++ b)). cbv iota.
      rewrite IH. apply orb_true_r.
Qed.

Lemma default_is_not_the_quota_text :
  forall op, defaultMessageOf op <> QUOTA_MESSAGE.
Proof. intros op; destruct op; discriminate. Qed.

(** The quota text is shown exactly for a caught [Error] whose message
    has "429" or "RESOURCE_EXHAUSTED" somewhere inside it; any other
    caught value gives the default text of the operation. *)
Theorem quota_text_exactly_for_rate_limit_errors :
  forall op error,
    (failureOf op error = ErrorObject QUOTA_MESSAGE <->
     exists message a b,
       error = ErrorObject message /\
       (ofString message = a ++ ofString "429" ++ b \/
        ofString message = a ++ ofString "RESOURCE_EXHAUSTED" ++ b)) /\
    (failureOf op error <> ErrorObject QUOTA_MESSAGE ->
     failureOf op error = ErrorObject (defaultMessageOf op)).
Proof.
  intros op error. rewrite failureOf_message. split.
  - split.
    + destruct (quotaSignal error) eqn:Q.
      * intros _. destruct error as [message|shown]; [|discriminate].
        simpl in Q. apply orb_true_iff in Q.
        destruct Q as [Q|Q]; apply includes_substring in Q; destruct Q as (a & b & Q);
          exists message, a, b; auto.
      * intros H. injection H as H. destruct (default_is_not_the_quota_text op H).
    + intros (message & a & b & -> & H).
      assert (Q : quotaSignal (ErrorObject message) = true).
      { simpl. apply orb_true_iff. unfold sIncludes.
        destruct H as [H|H]; [left | right]; apply includes_substring; exists a, b; exact H. }
      rewrite Q. reflexivity.
  - destruct (quotaSignal error); [intros H; destruct (H eq_refl) | reflexivity].
Qed.

Lemma validation_message_is_plain :
  forall op message,
    quotaSignal (ErrorObject message) = false ->
    failureOf op (ErrorObject message) = ErrorObject (defaultMessageOf op).
Proof. intros op message H. rewrite failureOf_message, H. reflexivity. Qed.

(** When the provider answered and the answer was parsed, no service
    function shows the quota text: it returns a result, or rejects with
    the default text of its operation (its own format checks raise errors
    whose messages carry no rate-limit signal). *)
Theorem answered_request_never_shows_the_quota_text :
  (forall j, resolvedOrDefault GenerateLessonContent (generateLessonContent (Parsed j))) /\
  (forall j, resolvedOrDefault EvaluateCode (evaluateCode (Parsed j))) /\
  (forall j, resolvedOrDefault GenerateChatResponse (generateChatResponse (Parsed j))) /\
  (forall j, resolvedOrDefault GenerateInterviewFollowUp
               (Provider.generateInterviewFollowUp (Parsed j))) /\
  (forall j, resolvedOrDefault GenerateCourseOutline (generateCourseOutline (Parsed j))) /\
  (forall j, resolvedOrDefault GenerateProblemSolution (generateProblemSolution (Parsed j))) /\
  (forall j, resolvedOrDefault GenerateInterviewPlan (generateInterviewPlan (Parsed j))).
Proof.
  repeat split; intros j.
  - unfold generateLessonContent.
    destruct (steps j) as [allSteps|]; [|apply validation_message_is_plain; reflexivity].
    destruct (negb (truthyString (topicTitle j)) || (List.length allSteps =? 0)%nat);
      [apply validation_message_is_plain; reflexivity|].
    cbv zeta.
    destruct ((List.length (filter keepStep allSteps) =? 0)%nat && (0 <? List.length allSteps)%nat);
      [apply validation_message_is_plain; reflexivity | exact I].
  - unfold evaluateCode.
    destruct (isCorrect j) as [correct|]; [|apply validation_message_is_plain; reflexivity].
    destruct (feedback j) as [t|]; [|apply validation_message_is_plain; reflexivity].
    destruct (negb correct && match hint j with None => true | Some _ => false end);
      [apply validation_message_is_plain; reflexivity | exact I].
  - unfold generateChatResponse.
    destruct (responseTextJson j) as [t|]; [|apply validation_message_is_plain; reflexivity].
    destruct (String.eqb t EmptyString); [apply validation_message_is_plain; reflexivity | exact I].
  - unfold Provider.generateInterviewFollowUp.
    destruct (responseTextJson j) as [t|]; [|apply validation_message_is_plain; reflexivity].
    destruct (isRoundFinishedJson j) as [b|]; [|apply validation_message_is_plain; reflexivity].
    destruct (String.eqb t EmptyString); [apply validation_message_is_plain; reflexivity | exact I].
  - unfold generateCourseOutline.
    destruct (falsyString (skillNameJson j) ||
              match topicsJson j with Some _ => false | None => true end);
      [apply validation_message_is_plain; reflexivity | exact I].
  - unfold generateProblemSolution.
    destruct (falsyString (problemExplanationJson j) || falsyString (solutionExplanationJson j) ||
              falsyString (solutionCodeJson j) || falsyString (languageJson j));
      [apply validation_message_is_plain; reflexivity | exact I].
  - unfold generateInterviewPlan.
    destruct ((match roundsJson j with Some _ => false | None => true end) ||
              falsyString (openingStatementJson j));
      [apply validation_message_is_plain; reflexivity | exact I].
Qed.

(** A lesson that reaches the application has a title, is the parsed
    lesson with the rejected questions filtered out, and is not empty;
    each question left in it has a numeric index below the number of its
    choices; a step that is not a multiple-choice question is never
    dropped, and the steps keep their order. *)
Theorem delivered_lesson_is_filtered :
  forall reply lesson,
    generateLessonContent reply = Resolved lesson ->
    exists title allSteps kept,
      reply = Parsed {| topicTitle := Some title; steps := Some allSteps |} /\
      title <> EmptyString /\
      lesson = {| topicTitle := Some title; steps := Some kept |} /\
      kept = filter keepStep allSteps /\
      kept <> [] /\
      (forall q c i f, In (MultipleChoiceJson q c i f) kept ->
         exists n cs, i = JNumber n /\ c = Some cs /\ (n < Z.of_nat (List.length cs))%Z) /\
      (forall step, In step allSteps ->
         (forall q c i f, step <> MultipleChoiceJson q c i f) -> In step kept).
Proof.
  intros reply lesson H. unfold generateLessonContent in H.
  destruct reply as [[title allSteps]|e]; [|discriminate].
  simpl in H. destruct allSteps as [allSteps|]; [|discriminate].
  destruct title as [title|]; [|discriminate].
  simpl in H. destruct (String.eqb title EmptyString) eqn:Et; [discriminate|].
  simpl in H. destruct (List.length allSteps =? 0)%nat eqn:El; [discriminate|].
  destruct (filter keepStep allSteps) as [|k ks] eqn:Ef.
  - simpl in H. destruct allSteps; [discriminate El | discriminate H].
  - simpl in H. injection H as <-.
    exists title, allSteps, (k :: ks).
    split; [reflexivity|]. split; [apply String.eqb_neq; exact Et|].
    split; [reflexivity|]. split; [symmetry; exact Ef|]. split; [discriminate|].
    rewrite <- Ef. split.
    + intros q c i f Hin. apply filter_In in Hin. destruct Hin as [_ Hk].
      apply keepStep_multiple_choice in Hk. exact Hk.
    + intros step Hin Hno. apply filter_In. split; [exact Hin | apply keepStep_other; exact Hno].
Qed.

(** A badge title is never empty.  It is the title the provider gave when
    that is a non-empty string; in every other case, failures of the
    request included, it is the skill name up to its first space followed
    by " Master". *)
Theorem badge_title_is_never_empty :
  forall skillName reply,
    generateBadgeTitle skillName reply <> EmptyString /\
    (generateBadgeTitle skillName reply = toString (firstWordChars (ofString skillName)) ++ " Master"
     \/ exists title, reply = Parsed (Some title) /\ title <> EmptyString /\
                      generateBadgeTitle skillName reply = title)%string /\
    ~ In " "%char (firstWordChars (ofString skillName)).
Proof.
  intros skillName reply.
  assert (Hfb : forall w : chars, (toString w ++ " Master")%string <> EmptyString).
  { intros w. induction w as [|c w IH]; simpl; discriminate. }
  assert (Hsp : ~ In " "%char (firstWordChars (ofString skillName))).
  { induction (ofString skillName) as [|c l IH]; simpl; [tauto|].
    destruct (Ascii.eqb c " ") eqn:E; simpl; [tauto|].
    intros [H|H]; [subst c; discriminate E | exact (IH H)]. }
  split; [|split; [|exact Hsp]].
  - destruct reply as [[title|]|e]; simpl; try apply Hfb.
    destruct (String.eqb title EmptyString) eqn:E; [apply Hfb | apply String.eqb_neq; exact E].
  - destruct reply as [[title|]|e]; simpl; auto.
    destruct (String.eqb title EmptyString) eqn:E; [left; reflexivity|].
    right. exists title. split; [reflexivity|]. split; [apply String.eqb_neq; exact E | reflexivity].
Qed.

(** What a service function hands to the application passed its checks:
    a verdict of incorrect code carries a hint; a chat reply and an
    interview follow-up have a text to speak; an outline has a name and a
    list of topics (which may be empty); a solution has its two
    explanations, its code and its language; a plan has rounds and an
    opening statement. *)
Theorem accepted_replies_are_complete :
  (forall reply ev, evaluateCode reply = Resolved ev ->
     evIsCorrect ev = false -> evHint ev <> None) /\
  (forall reply r, generateChatResponse reply = Resolved r ->
     responseText r <> EmptyString /\ isRoundFinished r = false) /\
  (forall reply r, Provider.generateInterviewFollowUp reply = Resolved r ->
     responseText r <> EmptyString) /\
  (forall reply o, generateCourseOutline reply = Resolved o ->
     truthyString (skillNameJson o) = true /\ topicsJson o <> None) /\
  (forall reply s, generateProblemSolution reply = Resolved s ->
     truthyString (problemExplanationJson s) = true /\
     truthyString (solutionExplanationJson s) = true /\
     truthyString (solutionCodeJson s) = true /\
     truthyString (languageJson s) = true) /\
  (forall reply p, generateInterviewPlan reply = Resolved p ->
     roundsJson p <> None /\ truthyString (openingStatementJson p) = true).
Proof.
  split; [|split; [|split; [|split; [|split]]]].
  - intros [j|e] ev H Hc; [|discriminate]. unfold evaluateCode in H.
    destruct (isCorrect j) as [correct|]; [|discriminate].
    destruct (feedback j) as [t|]; [|discriminate].
    destruct (hint j) as [h|] eqn:Eh.
    + rewrite andb_false_r in H. injection H as <-. simpl. discriminate.
    + destruct correct; simpl in H; [|discriminate].
      injection H as <-. simpl in Hc. discriminate.
  - intros [j|e] r H; [|discriminate]. unfold generateChatResponse in H.
    destruct (responseTextJson j) as [t|]; [|discriminate].
    destruct (String.eqb t EmptyString) eqn:E; [discriminate|].
    injection H as <-. simpl. split; [apply String.eqb_neq; exact E | reflexivity].
  - intros [j|e] r H; [|discriminate]. unfold Provider.generateInterviewFollowUp in H.
    destruct (responseTextJson j) as [t|]; [|discriminate].
    destruct (isRoundFinishedJson j) as [b|]; [|discriminate].
    destruct (String.eqb t EmptyString) eqn:E; [discriminate|].
    injection H as <-. simpl. apply String.eqb_neq; exact E.
  - intros [j|e] o H; [|discriminate]. unfold generateCourseOutline, falsyString in H.
    destruct (truthyString (skillNameJson j)) eqn:E1; [|discriminate].
    destruct (topicsJson j) eqn:E2; [|discriminate].
    simpl in H. injection H as <-. rewrite E1, E2. split; [reflexivity | discriminate].
  - intros [j|e] s H; [|discriminate]. unfold generateProblemSolution, falsyString in H.
    destruct (truthyString (problemExplanationJson j)) eqn:E1; [|discriminate].
    destruct (truthyString (solutionExplanationJson j)) eqn:E2; [|discriminate].
    destruct (truthyString (solutionCodeJson j)) eqn:E3; [|discriminate].
    destruct (truthyString (languageJson j)) eqn:E4; [|discriminate].
    simpl in H. injection H as <-. rewrite E1, E2, E3, E4. repeat split.
  - intros [j|e] p H; [|discriminate]. unfold generateInterviewPlan, falsyString in H.
    destruct (roundsJson j) eqn:E1; [|discriminate].
    destruct (truthyString (openingStatementJson j)) eqn:E2; [|discriminate].
    simpl in H. injection H as <-. rewrite E1, E2. split; [discriminate | reflexivity].
Qed.

End ServiceFacts.

(** The theorem at work: of two questions, the one whose index is 3 for
    three choices is removed; the explanation and the code task stay. *)
Lemma delivered_lesson_is_filtered_witness :
  exists kept,
    Provider.generateLessonContent (Provider.Parsed Examples.lessonWithOneBadQuestion)
      = Provider.Resolved {| Provider.topicTitle := Some "Loops"%string;
                             Provider.steps := Some kept |} /\
    List.length kept = 3%nat /\
    kept <> [].
Proof.
  eexists. split; [reflexivity|]. split; [reflexivity|].
  destruct (@delivered_lesson_is_filtered
              (Provider.Parsed Examples.lessonWithOneBadQuestion) _ eq_refl)
    as (title & allSteps & kept & _ & _ & Hl & _ & Hne & _).
  injection Hl as _ <-. exact Hne.
Defined.


(** ** Streak, activity log and profile at the end of a lesson *)

Section ProgressFacts.
Import Streak Course.
Local Open Scope Z_scope.

(** The streak is decided by the stored date as the device shows it (the
    date itself at UTC and east of it, the day before west of it): kept
    when that is the device's today, raised by one when it is the device's
    yesterday, and set to 1 otherwise and when no date is stored. *)
Theorem streak_by_local_day :
  forall c u,
    - msPerDay <= offset c < msPerDay ->
    nextStreak c u =
      match lastActivityDate u with
      | None => 1
      | Some last =>
          if shownDay c last =? toDateString c (now c) then currentStreak u
          else if shownDay c last =? toDateString c (now c) - 1 then currentStreak u + 1
          else 1
      end.
Proof.
  intros c u H. unfold nextStreak.
  destruct (lastActivityDate u) as [last|]; [|reflexivity].
  unfold isToday, isYesterday, shownDay. cbv zeta.
  destruct (Z.leb_spec 0 (offset c)) as [Hp|Hn].
  - rewrite (stored_date_shown_east c last) by lia.
    destruct (last =? toDateString c (now c)); reflexivity.
  - rewrite (stored_date_shown_west c last) by lia.
    destruct (last - 1 =? toDateString c (now c)); reflexivity.
Qed.

Lemma first_match_or_none :
  forall (A : Type) (p : A -> bool) l,
    forallb (fun x => negb (p x)) l = true \/
    exists l1 e l2, l = (l1 ++ e :: l2)%list /\
                    forallb (fun x => negb (p x)) l1 = true /\ p e = true.
Proof.
  intros A p l. induction l as [|x l IH]; [left; reflexivity|].
  destruct (p x) eqn:Hx.
  - right. exists [], x, l. repeat split. exact Hx.
  - destruct IH as [IH|(l1 & e & l2 & -> & Hl & He)].
    + left. simpl. rewrite Hx, IH. reflexivity.
    + right. exists (x :: l1), e, l2. repeat split; [|exact He].
      simpl. rewrite Hx, Hl. reflexivity.
Qed.

Lemma loggedPoints_app :
  forall l1 l2, loggedPoints (l1 ++ l2) = loggedPoints l1 + loggedPoints l2.
Proof.
  intros l1 l2. induction l1 as [|e l1 IH]; simpl; [reflexivity|].
  unfold loggedPoints in *. simpl. rewrite IH. lia.
Qed.

Lemma absent_date :
  forall today log,
    forallb (fun x => negb (date x =? today)) log = true -> ~ In today (map date log).
Proof.
  intros today log. induction log as [|e log IH]; simpl; [tauto|].
  intros H. apply andb_true_iff in H as [He Hl].
  apply negb_true_iff in He. apply Z.eqb_neq in He.
  intros [E|E]; [contradiction | exact (IH Hl E)].
Qed.


Lemma Forall2_map_of :
  forall (A : Type) (R : A -> A -> Prop) (f : A -> A) l,
    (forall x, R x (f x)) -> Forall2 R l (map f l).
Proof.
  intros A R f l H. induction l as [|x l IH]; simpl; constructor; auto.
Qed.

Lemma completeLesson_skills :
  forall c u sid topic,
    skills (completeLesson c u sid topic) = map (markSkill sid topic) (skills u).
Proof. reflexivity. Qed.

Lemma orNumber_zero : forall x, orNumber x 0 = x.
Proof. intros x. unfold orNumber. destruct (Z.eqb_spec x 0); congruence. Qed.


Lemma find_map_same_key :
  forall (p : Skill -> bool) (f : Skill -> Skill) l,
    (forall s, p (f s) = p s) ->
    find p (map f l) = option_map f (find p l).
Proof.
  intros p f l H. induction l as [|x l IH]; simpl; [reflexivity|].
  rewrite H. destruct (p x); [reflexivity | exact IH].
Qed.

Lemma markSkill_id : forall sid topic s, skillId (markSkill sid topic s) = skillId s.
Proof. intros sid topic s. unfold markSkill. destruct (sameId (skillId s) sid); reflexivity. Qed.

Lemma markSkill_name : forall sid topic s, skillName (markSkill sid topic s) = skillName s.
Proof. intros sid topic s. unfold markSkill. destruct (sameId (skillId s) sid); reflexivity. Qed.

Lemma markSkill_keeps_completion :
  forall sid topic s,
    forallb isCompleted (topics s) = true ->
    forallb isCompleted (topics (markSkill sid topic s)) = true.
Proof.
  intros sid topic s H. unfold markSkill.
  destruct (sameId (skillId s) sid); [|exact H]. simpl.
  induction (topics s) as [|t ts IH]; [reflexivity|].
  simpl in H. apply andb_true_iff in H as [Ht Hts]. simpl.
  rewrite (IH Hts), andb_true_r. unfold markTopic.
  destruct (sameId (topicId t) (option_map topicId topic)); [reflexivity | exact Ht].
Qed.

Lemma findSkill_after_lesson :
  forall c u sid topic,
    findSkill (skills (completeLesson c u sid topic)) sid
    = option_map (markSkill sid topic) (findSkill (skills u) sid).
Proof.
  intros c u sid topic. rewrite completeLesson_skills. unfold findSkill.
  apply find_map_same_key. intros s. rewrite markSkill_id. reflexivity.
Qed.

Lemma generateBadgeTitle_not_empty :
  forall skillName reply, Provider.generateBadgeTitle skillName reply <> EmptyString.
Proof.
  intros skillName reply.
  assert (Hfb : forall w : JsString.chars,
             (JsString.toString w ++ " Master")%string <> EmptyString).
  { intros w. destruct w; simpl; discriminate. }
  destruct reply as [[title|]|e]; simpl; try apply Hfb.
  destruct (String.eqb title EmptyString) eqn:E; [apply Hfb | apply String.eqb_neq; exact E].
Qed.


End ProgressFacts.

(** On a device at UTC, the day after the last lesson: the streak of 1
    becomes 2. *)
Lemma streak_by_local_day_witness :
  (- Streak.msPerDay <= Streak.offset Examples.may11AtUTC < Streak.msPerDay)%Z /\
  Streak.nextStreak Examples.may11AtUTC Examples.student = 2%Z.
Proof.
  split; [vm_compute; split; [discriminate | reflexivity]|].
  rewrite (@streak_by_local_day Examples.may11AtUTC Examples.student).
  - reflexivity.
  - vm_compute; split; [discriminate | reflexivity].
Defined.




(** ** Hints, the solution, doubts and retries *)

Section MoreHandlerFacts.
Import JsString Types Reading Provider Speech App Handlers.
Local Open Scope string_scope.
Local Open Scope list_scope.

Lemma speak_without_callback :
  forall input langOrGender (w : App.World),
    exists w',
      App.speak input None langOrGender w = Returned w' /\
      client w' = client w /\
      invocations w' = invocations w.
Proof.
  intros input lg w.
  destruct (speak_plain_returns App.act 3 input None lg w) as (w' & Hrun & Hafter).
  exists w'. split; [exact Hrun|].
  destruct Hafter as [(_ & _ & Hc & Hi & _) | (Hc & Hi)].
  - split; assumption.
  - rewrite app_nil_r in Hi. split; assumption.
Qed.

Lemma speak_with_setter :
  forall input a langOrGender (w : App.World),
    exists w',
      App.speak input (Some (Do a)) langOrGender w = Returned w' /\
      ((client w' = client w /\ onEndCallback (hook w') = Some (Do a) /\ busy w' = true) \/
       client w' = App.act a (client w)).
Proof.
  intros input a lg w.
  destruct (speak_plain_returns App.act 3 input (Some a) lg w) as (w' & Hrun & Hafter).
  exists w'. split; [exact Hrun|].
  destruct Hafter as [(_ & Hb & Hc & _ & Hcb) | (Hc & _)]; [left | right]; auto.
Qed.



Lemma chatExchange_resolved_tutor :
  forall r message attachment isSystemMessage reply (w : App.World) answer,
    appMode r = TUTOR ->
    chatAnswer r reply = Resolved answer ->
    exists w',
      chatExchange r message attachment isSystemMessage reply w = Returned w' /\
      tutorState (client w') = CLARIFYING_DOUBT /\
      stateBeforeDoubt (client w') = tutorState r /\
      conversationHistory (client w')
        = conversationHistory r ++ [userMessageOf message isSystemMessage; aiMessageOf answer] /\
      chatError (client w') = None /\
      lastFailedMessage (client w') = None /\
      clarificationCode (client w')
        = match truthyCode (updatedCode answer) with
          | Some c => Some c
          | None => clarificationCode (client w)
          end /\
      whiteboardDisplayCode (client w') = whiteboardDisplayCode (client w) /\
      lesson (client w') = lesson (client w) /\
      currentStepIndex (client w') = currentStepIndex (client w) /\
      appMode (client w') = appMode (client w) /\
      currentSkillName (client w') = currentSkillName (client w).
Proof.
  intros r message attachment sys reply w answer Hmode Hans.
  unfold chatExchange. rewrite Hans. cbv zeta. rewrite Hmode. simpl appModeEqb.
  simpl andb. cbv iota. simpl String.eqb. cbv iota.
  match goal with
  | |- exists w', andThen (App.speak ?i ?cb ?lg ?x) _ = _ /\ _ => set (w1 := x)
  end.
  destruct (speak_without_callback (Text (responseText answer)) "hi-IN" w1)
    as (w2 & Hrun & Hc & _).
  rewrite Hrun. eexists. split; [reflexivity|].
  destruct (truthyCode (updatedCode answer)) as [c|];
    destruct (visualAid answer) as [d|]; simpl; rewrite Hc; simpl;
    unfold userMessageOf; rewrite <- app_assoc; repeat split; reflexivity.
Qed.

Lemma doubt_round_trip_helper :
  forall r message attachment isSystemMessage reply (w : App.World) answer,
    appMode r = TUTOR ->
    chatAnswer r reply = Resolved answer ->
    exists w1 w2,
      chatExchange r message attachment isSystemMessage reply w = Returned w1 /\
      handleContinueLesson (client w1) w1 = Returned w2 /\
      tutorState (client w2) = tutorState r.
Proof.
  intros r message attachment sys reply w answer Hmode Hans.
  destruct (chatExchange_resolved_tutor r message attachment sys reply w Hmode Hans)
    as (w1 & Hrun & Hts & Hsb & _).
  exists w1. unfold handleContinueLesson.
  match goal with
  | |- exists w2, _ /\ andThen (App.speak ?i ?cb ?lg ?x) _ = _ /\ _ => set (w1' := x)
  end.
  destruct (speak_without_callback (Text continueSpeech) "en" w1') as (w2 & Hrun2 & Hc & _).
  rewrite Hrun2. eexists. split; [exact Hrun|]. split; [reflexivity|].
  simpl. rewrite Hc. simpl. exact Hsb.
Qed.

(** A doubt, answered, and [Continue]: the tutor state is the one the
    question was asked in, the code shown for the doubt is cleared, and
    lesson and step are untouched; the conversation has the question, the
    answer and the closing remark at its end. *)
Theorem doubt_round_trip_restores_the_state :
  forall r message attachment isSystemMessage reply (w : App.World) answer,
    appMode r = TUTOR ->
    chatAnswer r reply = Resolved answer ->
    exists w1 w2,
      chatExchange r message attachment isSystemMessage reply w = Returned w1 /\
      tutorState (client w1) = CLARIFYING_DOUBT /\
      handleContinueLesson (client w1) w1 = Returned w2 /\
      tutorState (client w2) = tutorState r /\
      clarificationCode (client w2) = None /\
      lesson (client w2) = lesson (client w) /\
      currentStepIndex (client w2) = currentStepIndex (client w) /\
      conversationHistory (client w2)
        = conversationHistory r ++
          [userMessageOf message isSystemMessage; aiMessageOf answer;
           plainMessage ai continueSpeech].
Proof.
  intros r message attachment sys reply w answer Hmode Hans.
  destruct (chatExchange_resolved_tutor r message attachment sys reply w Hmode Hans)
    as (w1 & Hrun & Hts & Hsb & Hh & _ & _ & _ & _ & Hl & Hi & _).
  exists w1. unfold handleContinueLesson.
  match goal with
  | |- exists w2, _ /\ _ /\ andThen (App.speak ?i ?cb ?lg ?x) _ = _ /\ _ => set (w1' := x)
  end.
  destruct (speak_without_callback (Text continueSpeech) "en" w1') as (w2 & Hrun2 & Hc & _).
  rewrite Hrun2. eexists. split; [exact Hrun|]. split; [exact Hts|].
  split; [reflexivity|]. simpl. rewrite Hc. simpl.
  rewrite Hsb, Hl, Hi, Hh, <- app_assoc. repeat split; reflexivity.
Qed.

Lemma chatAnswer_tutor :
  forall r reply,
    appMode r = TUTOR ->
    lesson r <> None ->
    truthyString (currentSkillName r) = true ->
    chatAnswer r reply = generateChatResponse reply.
Proof.
  intros r reply Hm Hl Hs. unfold chatAnswer. rewrite Hm. simpl appModeEqb. cbv iota.
  cbv zeta. rewrite Hs. destruct (lesson r); [reflexivity | contradiction Hl; reflexivity].
Qed.

(** A second question asked while the first answer is on screen saves the
    state of the doubt itself: [Continue] then leaves the tutor in
    [CLARIFYING_DOUBT], whatever state the lesson was in when the first
    question was asked. *)
Theorem follow_up_question_forgets_the_lesson_state :
  forall message1 message2 reply1 reply2 (w : App.World) answer1 answer2,
    appMode (client w) = TUTOR ->
    lesson (client w) <> None ->
    truthyString (currentSkillName (client w)) = true ->
    generateChatResponse reply1 = Resolved answer1 ->
    generateChatResponse reply2 = Resolved answer2 ->
    exists w1 w2 w3,
      chatExchange (client w) message1 None false reply1 w = Returned w1 /\
      chatExchange (client w1) message2 None false reply2 w1 = Returned w2 /\
      stateBeforeDoubt (client w2) = CLARIFYING_DOUBT /\
      handleContinueLesson (client w2) w2 = Returned w3 /\
      tutorState (client w3) = CLARIFYING_DOUBT.
Proof.
  intros m1 m2 reply1 reply2 w a1 a2 Hmode Hl Hs Ha1 Ha2.
  assert (Hans1 : chatAnswer (client w) reply1 = Resolved a1)
    by (rewrite chatAnswer_tutor; assumption).
  destruct (chatExchange_resolved_tutor (client w) m1 None false reply1 w Hmode Hans1)
    as (w1 & Hrun1 & Hts1 & _ & _ & _ & _ & _ & _ & Hl1 & _ & Hm1 & Hs1).
  assert (Hmode1 : appMode (client w1) = TUTOR) by (rewrite Hm1; exact Hmode).
  assert (Hans2 : chatAnswer (client w1) reply2 = Resolved a2).
  { rewrite chatAnswer_tutor; [exact Ha2 | exact Hmode1 | rewrite Hl1; exact Hl |
                               rewrite Hs1; exact Hs]. }
  destruct (chatExchange_resolved_tutor (client w1) m2 None false reply2 w1 Hmode1 Hans2)
    as (w2 & Hrun2 & _ & Hsb2 & _).
  destruct (doubt_round_trip_helper (client w1) m2 None false reply2 w1 Hmode1 Hans2)
    as (w2' & w3 & Hrun2' & Hrun3 & Hts3).
  rewrite Hrun2 in Hrun2'. injection Hrun2' as <-.
  exists w1, w2, w3. split; [exact Hrun1|]. split; [exact Hrun2|].
  split; [rewrite Hsb2; exact Hts1|]. split; [exact Hrun3|].
  rewrite Hts3. exact Hts1.
Qed.


Lemma chatExchange_history :
  forall r message attachment isSystemMessage reply (w : App.World),
    exists w' rest,
      chatExchange r message attachment isSystemMessage reply w = Returned w' /\
      conversationHistory (client w')
        = conversationHistory r ++ userMessageOf message isSystemMessage :: rest.
Proof.
  intros r message attachment sys reply w. unfold chatExchange.
  destruct (chatAnswer r reply) as [answer|err]; cbv zeta.
  - destruct (appModeEqb (appMode r) INTERVIEW_PREP && isRoundFinished answer).
    + match goal with
      | |- exists w' rest, App.speak ?i (Some (Do ?a)) ?lg ?x = _ /\ _ => set (w1 := x)
      end.
      destruct (speak_with_setter (Text (responseText answer)) HandleNextInterviewRound
                  (if appModeEqb (appMode r) INTERVIEW_PREP
                   then match currentInterviewRound r with
                        | Some round => genderName (interviewerGender round)
                        | None => "hi"
                        end
                   else "hi") w1) as (w2 & Hrun & Hafter).
      exists w2, [aiMessageOf answer]. split; [exact Hrun|].
      destruct Hafter as [(Hc & _) | Hc]; rewrite Hc; simpl;
        unfold userMessageOf; rewrite <- app_assoc; reflexivity.
    + match goal with
      | |- exists w' rest, andThen (App.speak ?i None ?lg ?x) _ = _ /\ _ =>
          set (w1 := x); destruct (speak_without_callback i lg w1) as (w2 & Hrun & Hc & _)
      end.
      rewrite Hrun. eexists. exists [aiMessageOf answer]. split; [reflexivity|].
      destruct (truthyCode (updatedCode answer)); destruct (visualAid answer);
        destruct (appModeEqb (appMode r) TUTOR); simpl; rewrite Hc; simpl;
        unfold userMessageOf; rewrite <- app_assoc; reflexivity.
  - eexists. exists []. split; reflexivity.
Qed.

Lemma tutorStateEqb_false :
  forall a b, a <> b -> tutorStateEqb a b = false.
Proof. intros a b H. destruct a, b; try reflexivity; contradiction H; reflexivity. Qed.



Lemma findIndexFrom_map :
  forall (A B : Type) (f : A -> B) (p : B -> bool) l i,
    Streak.findIndexFrom p (map f l) i = Streak.findIndexFrom (fun x => p (f x)) l i.
Proof.
  intros A B f p l. induction l as [|x l IH]; intros i; simpl; [reflexivity|].
  destruct (p (f x)); [reflexivity | apply IH].
Qed.

(** What is typed or said while a question is open is taken as the answer
    when, lower-cased, without [.,?] and trimmed, it occurs inside a
    choice: the first such choice is picked, and no choice is picked only
    when none contains it.  A message of punctuation only therefore picks
    the first choice. *)
Theorem typed_answer_picks_the_first_choice_containing_it :
  forall choices message,
    match matchChoice choices message with
    | Some i =>
        (i < List.length choices)%nat /\
        includes (toLowerCase (ofString (nth i choices EmptyString)))
                 (trim (stripPunctuation (toLowerCase (ofString message)))) = true /\
        forall j, (j < i)%nat ->
          includes (toLowerCase (ofString (nth j choices EmptyString)))
                   (trim (stripPunctuation (toLowerCase (ofString message)))) = false
    | None =>
        forall c, In c choices ->
          includes (toLowerCase (ofString c))
                   (trim (stripPunctuation (toLowerCase (ofString message)))) = false
    end /\
    (trim (stripPunctuation (toLowerCase (ofString message))) = [] ->
     choices <> [] ->
     matchChoice choices message = Some 0%nat).
Proof.
  intros choices message.
  set (cleaned := trim (stripPunctuation (toLowerCase (ofString message)))).
  assert (Hm : matchChoice choices message =
               let k := Streak.findIndexFrom
                          (fun c => includes (toLowerCase (ofString c)) cleaned) choices 0 in
               if (-1 <? k)%Z then Some (Z.to_nat k) else None).
  { unfold matchChoice, Streak.findIndex. cbv zeta. fold cleaned.
    rewrite (findIndexFrom_map (fun c => toLowerCase (ofString c))
               (fun c => includes c cleaned)). reflexivity. }
  rewrite Hm. cbv zeta. split.
  - destruct (first_match_or_none
                (fun c => includes (toLowerCase (ofString c)) cleaned) choices)
      as [Habs|(l1 & e & l2 & -> & Hl & He)].
    + rewrite (findIndexFrom_absent _ choices 0 Habs). simpl.
      intros c Hin. rewrite forallb_forall in Habs.
      apply negb_true_iff. apply (Habs c Hin).
    + rewrite (findIndexFrom_first _ l1 e l2 0 Hl He).
      destruct (Z.ltb_spec (-1) (0 + Z.of_nat (List.length l1))) as [_|H]; [|lia].
      replace (Z.to_nat (0 + Z.of_nat (List.length l1))) with (List.length l1) by lia.
      split; [rewrite length_app; simpl; lia|]. split.
      * rewrite app_nth2 by lia. rewrite Nat.sub_diag. exact He.
      * intros j Hj. rewrite app_nth1 by exact Hj.
        rewrite forallb_forall in Hl. apply negb_true_iff. apply Hl.
        apply nth_In. exact Hj.
  - intros Hc Hne. destruct choices as [|c cs]; [contradiction Hne; reflexivity|].
    simpl. rewrite Hc.
    assert (Hi : includes (toLowerCase (ofString c)) [] = true).
    { apply includes_substring. exists [], (toLowerCase (ofString c)). reflexivity. }
    rewrite Hi. reflexivity.
Qed.


End MoreHandlerFacts.


(** With the index -1 every choice is wrong, the first as well. *)
Lemma negative_index_has_no_right_answer_witness :
  exists w',
    App.handleAnswerMcq (Examples.atQuestion (-1)) 0
      (Scenario.appWorld (Examples.atQuestion (-1))) = Speech.Returned w' /\
    App.tutorState (Speech.client w') = Types.INCORRECT.
Proof.
  apply (@negative_index_has_no_right_answer (Examples.atQuestion (-1)) _ _ (-1)%Z _ 0%nat
           (Scenario.appWorld (Examples.atQuestion (-1))) eq_refl).
  reflexivity.
Defined.




(** A question at the code task, answered, and [Continue]: the tutor
    waits for the task again. *)
Lemma doubt_round_trip_restores_the_state_witness :
  exists w1 w2,
    App.chatExchange Scenario.atCodeTask "range kya deta hai?" None false Examples.firstAnswer
      (Scenario.appWorld Scenario.atCodeTask) = Speech.Returned w1 /\
    App.tutorState (Speech.client w1) = Types.CLARIFYING_DOUBT /\
    Handlers.handleContinueLesson (Speech.client w1) w1 = Speech.Returned w2 /\
    App.tutorState (Speech.client w2) = Types.AWAITING_TASK /\
    App.clarificationCode (Speech.client w2) = None.
Proof.
  destruct (@doubt_round_trip_restores_the_state Scenario.atCodeTask
              "range kya deta hai?"%string None false Examples.firstAnswer
              (Scenario.appWorld Scenario.atCodeTask) _ eq_refl eq_refl)
    as (w1 & w2 & H1 & H2 & H3 & H4 & H5 & _).
  exists w1, w2. repeat split; assumption.
Defined.

(** Two questions at the code task and [Continue]: the tutor stays in the
    doubt, not at the task. *)
Lemma follow_up_question_forgets_the_lesson_state_witness :
  exists w1 w2 w3,
    App.chatExchange Scenario.atCodeTask "range kya deta hai?" None false Examples.firstAnswer
      (Scenario.appWorld Scenario.atCodeTask) = Speech.Returned w1 /\
    App.chatExchange (Speech.client w1) "aur 6?" None false Examples.secondAnswer w1
      = Speech.Returned w2 /\
    Handlers.handleContinueLesson (Speech.client w2) w2 = Speech.Returned w3 /\
    App.tutorState (Speech.client w3) = Types.CLARIFYING_DOUBT /\
    App.tutorState Scenario.atCodeTask = Types.AWAITING_TASK.
Proof.
  destruct (@follow_up_question_forgets_the_lesson_state
              "range kya deta hai?"%string "aur 6?"%string
              Examples.firstAnswer Examples.secondAnswer
              (Scenario.appWorld Scenario.atCodeTask) _ _
              eq_refl ltac:(discriminate) eq_refl eq_refl eq_refl)
    as (w1 & w2 & w3 & H1 & H2 & _ & H3 & H4).
  exists w1, w2, w3. repeat split; assumption.
Defined.


(** ** Presenting steps and ending a lesson *)

Section StepFacts.
Import JsString Types Reading Provider Speech App Steps.
Local Open Scope string_scope.
Local Open Scope list_scope.

Lemma step_speech_returns :
  forall input post langOrGender (w : Steps.World),
    exists w',
      Steps.speak input (Some (Do (AfterSpeech post))) langOrGender w = Returned w' /\
      ((client w' = client w /\
        onEndCallback (hook w') = Some (Do (AfterSpeech post)) /\ busy w' = true) \/
       (client w' = stepAct (AfterSpeech post) (client w))).
Proof.
  intros input post lg w.
  destruct (speak_plain_returns stepAct 3 input (Some (AfterSpeech post)) lg w)
    as (w' & Hrun & Hafter).
  exists w'. split; [exact Hrun|].
  destruct Hafter as [(_ & Hb & Hc & _ & Hcb) | (Hc & _)]; [left | right]; auto.
Qed.

(** How [processStep] leaves the cells, whatever the engine does. *)
Lemma processStep_effect :
  forall step (w : Steps.World),
    exists w',
      processStep (Some step) w = Returned w' /\
      currentStepIndex (app (client w')) = currentStepIndex (app (client w)) /\
      users (client w') = users (client w) /\
      conversationHistory (app (client w'))
        = conversationHistory (app (client w)) ++ [stepMessage step] /\
      diagram (app (client w')) = visualAidOf step /\
      match step with
      | EXPLANATION content _ =>
          (tutorState (app (client w')) = EXPLAINING /\
           ((content = EmptyString /\ hook w' = hook w /\ synth w' = synth w) \/
            (onEndCallback (hook w') = Some (Do (AfterSpeech (Some AWAITING_CONTINUE))) /\
             busy w' = true)))
          \/ tutorState (app (client w')) = AWAITING_CONTINUE
      | _ => tutorState (app (client w')) = stateFor step
      end.
Proof.
  intros step w. unfold processStep. cbv zeta.
  destruct step as [content va | question choices idx fb | mission code va].
  - destruct (String.eqb content EmptyString) eqn:E.
    + eexists. split; [reflexivity|]. simpl.
      repeat split; try reflexivity. left. split; [reflexivity|]. left.
      apply String.eqb_eq in E. split; [exact E|]. split; reflexivity.
    + match goal with
      | |- exists w', Steps.speak ?i (Some (Do (AfterSpeech ?p))) ?lg ?x = _ /\ _ =>
          destruct (step_speech_returns i p lg x) as (w2 & Hrun & Hafter)
      end.
      exists w2. split; [exact Hrun|].
      destruct Hafter as [(Hc & Hcb & Hb) | Hc]; rewrite Hc; simpl.
      * repeat split; try reflexivity. left. split; [reflexivity|]. right. split; assumption.
      * repeat split; try reflexivity. right. reflexivity.
  - destruct (String.eqb question EmptyString) eqn:E.
    + eexists. split; [reflexivity|]. simpl. repeat split; reflexivity.
    + match goal with
      | |- exists w', Steps.speak ?i (Some (Do (AfterSpeech ?p))) ?lg ?x = _ /\ _ =>
          destruct (step_speech_returns i p lg x) as (w2 & Hrun & Hafter)
      end.
      exists w2. split; [exact Hrun|].
      destruct Hafter as [(Hc & _) | Hc]; rewrite Hc; simpl; repeat split; reflexivity.
  - match goal with
    | |- exists w', Steps.speak ?i (Some (Do (AfterSpeech ?p))) ?lg ?x = _ /\ _ =>
        destruct (step_speech_returns i p lg x) as (w2 & Hrun & Hafter)
    end.
    exists w2. split; [exact Hrun|].
    destruct Hafter as [(Hc & _) | Hc]; rewrite Hc; simpl; repeat split; reflexivity.
Qed.


Lemma quiet_update :
  forall f (w : Steps.World), quiet w -> quiet (Steps.update f w).
Proof. intros f w H. exact H. Qed.

(** An explanation without text is never left: [Continue] onto such a
    step sets [EXPLAINING], nothing is spoken and no callback waits, so
    whatever the device reports afterwards, the state stays
    [EXPLAINING]. *)
Theorem explanation_without_text_is_never_left :
  forall r p allUsers (w : Steps.World) l learner skill visualAid,
    lesson r = Some l ->
    currentUser p = Some learner ->
    Course.findSkill (Streak.skills learner) (currentSkillId p) = Some skill ->
    nth_error (lessonSteps l) (S (currentStepIndex r))
      = Some (EXPLANATION EmptyString visualAid) ->
    exists w',
      handleNextStep r p allUsers w = Returned w' /\
      tutorState (app (client w')) = EXPLAINING /\
      quiet w' /\
      forall events,
        exists w'',
          deliverAll stepAct callbackDepth events w' = Returned w'' /\
          tutorState (app (client w'')) = EXPLAINING.
Proof.
  intros r p us w l learner skill va Hl Hu Hsk Hstep.
  unfold handleNextStep.
  destruct (cancel_quiet w) as (w0 & Hcancel & Hq).
  rewrite Hcancel. unfold andThen. rewrite Hl, Hu, Hsk. cbv zeta.
  assert (Hlt : (S (currentStepIndex r) <? List.length (lessonSteps l))%nat = true).
  { apply Nat.ltb_lt. apply nth_error_Some. rewrite Hstep. discriminate. }
  rewrite Hlt, Hstep. unfold processStep. cbv zeta. simpl String.eqb. cbv iota.
  eexists. split; [reflexivity|]. split; [reflexivity|].
  match goal with |- quiet ?x /\ _ => assert (Hq' : quiet x) by exact Hq end.
  split; [exact Hq'|]. intros events.
  match goal with
  | |- exists w'', deliverAll _ _ _ ?x = _ /\ _ =>
      destruct (deliverAll_quiet stepAct callbackDepth events Hq')
        as (w'' & Hrun & _ & Hc & _)
  end.
  exists w''. split; [exact Hrun|]. rewrite Hc. reflexivity.
Qed.

Lemma finishLesson_state :
  forall c m u sid topic,
    snd (Course.finishLesson c m u sid topic) = CORRECT \/
    snd (Course.finishLesson c m u sid topic) = COURSE_COMPLETED.
Proof.
  intros c m u sid topic. unfold Course.finishLesson. cbv zeta.
  destruct (Course.findSkill _ sid) as [s|]; [|left; reflexivity].
  destruct (forallb Streak.isCompleted (Streak.topics s)); [right | left]; reflexivity.
Qed.


End StepFacts.


(** The step after the first explanation has no text. *)
Lemma explanation_without_text_is_never_left_witness :
  exists w' w'',
    Steps.handleNextStep Examples.beforeSilentStep Examples.progress [Examples.student]
      (Examples.stepWorld Examples.beforeSilentStep) = Speech.Returned w' /\
    App.tutorState (Steps.app (Speech.client w')) = Types.EXPLAINING /\
    Speech.deliverAll Steps.stepAct App.callbackDepth
      [Speech.UnitEnded; Speech.InterruptedUnitEnded; Speech.Boundary "word" 3] w'
      = Speech.Returned w'' /\
    App.tutorState (Steps.app (Speech.client w'')) = Types.EXPLAINING.
Proof.
  destruct (@explanation_without_text_is_never_left
              Examples.beforeSilentStep Examples.progress [Examples.student]
              (Examples.stepWorld Examples.beforeSilentStep)
              Examples.lessonWithSilentStep Examples.student Examples.python None
              eq_refl eq_refl eq_refl eq_refl)
    as (w' & Hrun & Hs & _ & Hall).
  destruct (Hall [Speech.UnitEnded; Speech.InterruptedUnitEnded; Speech.Boundary "word" 3])
    as (w'' & Hrun2 & Hs2).
  exists w', w''. repeat split; assumption.
Defined.



(** ** Locked topics *)

Section CatalogFacts.
Import JsString Types Reading Speech Streak Course Catalog.
Local Open Scope string_scope.
Local Open Scope list_scope.

Lemma finishLesson_skills :
  forall c m u sid topic,
    skills (fst (finishLesson c m u sid topic)) = map (markSkill sid topic) (skills u).
Proof.
  intros c m u sid topic. rewrite <- (completeLesson_skills c u sid topic).
  unfold finishLesson. cbv zeta.
  destruct (findSkill (skills (completeLesson c u sid topic)) sid) as [s|]; [|reflexivity].
  destruct (forallb isCompleted (topics s)); [|reflexivity].
  destruct (negb (hasBadge (completeLesson c u sid topic) (skillName s))); reflexivity.
Qed.

Lemma markTopic_id : forall topic t, topicId (markTopic topic t) = topicId t.
Proof.
  intros topic t. unfold markTopic.
  destruct (sameId (topicId t) (option_map topicId topic)); reflexivity.
Qed.

Lemma sameId_refl : forall a, sameId a (Some a) = true.
Proof. intros a. simpl. apply String.eqb_refl. Qed.

Lemma other_ids :
  forall id l,
    ~ In id (map topicId l) ->
    forallb (fun x => negb (sameId (topicId x) (Some id))) l = true.
Proof.
  intros id l. induction l as [|x l IH]; intros H; [reflexivity|].
  simpl map in H. cbn [forallb].
  rewrite IH by (intros G; apply H; right; exact G). rewrite andb_true_r. simpl.
  destruct (String.eqb_spec (topicId x) id) as [E|E]; [|reflexivity].
  exfalso. apply H. left. exact E.
Qed.

Lemma topicIndexOf_at :
  forall sk l1 t l2 id,
    topics sk = l1 ++ t :: l2 ->
    topicId t = id ->
    ~ In id (map topicId l1) ->
    topicIndexOf sk (Some id) = Z.of_nat (List.length l1).
Proof.
  intros sk l1 t l2 id Ht Hid Hn. subst id. unfold topicIndexOf, findIndex. rewrite Ht.
  rewrite (findIndexFrom_first (fun x => sameId (topicId x) (Some (topicId t)))
             l1 t l2 0 (other_ids _ l1 Hn) (sameId_refl _)).
  lia.
Qed.

(** A topic whose predecessor in the skill is not completed cannot be
    opened: selecting it changes nothing, and nothing that is being
    spoken is interrupted. *)
Theorem locked_topic_is_not_opened :
  forall r currentUser skill l1 previous t l2 (w : Catalog.World),
    skillOf currentUser r = Some skill ->
    topics skill = l1 ++ previous :: t :: l2 ->
    ~ In (topicId t) (map topicId (l1 ++ [previous])) ->
    isCompleted previous = false ->
    handleSelectTopic r currentUser (topicId t) w = Returned w.
Proof.
  intros r cu skill l1 previous t l2 w Hsk Ht Hn Hp.
  unfold handleSelectTopic. rewrite Hsk.
  assert (Hlock : locked skill (topicId t) = true).
  { unfold locked. cbv zeta.
    rewrite (topicIndexOf_at skill (l1 ++ [previous]) t l2 (id := topicId t))
      by (rewrite ?Ht, <- ?app_assoc; auto).
    rewrite length_app. simpl List.length.
    replace (Z.to_nat (Z.of_nat (List.length l1 + 1) - 1)) with (List.length l1) by lia.
    rewrite Ht, nth_error_app2 by lia. rewrite Nat.sub_diag. simpl. rewrite Hp.
    destruct (Z.ltb_spec 0 (Z.of_nat (List.length l1 + 1))); [reflexivity | lia]. }
  rewrite Hlock. destruct (sameId (topicId t) (currentTopicId r) && lessonLoaded r); reflexivity.
Qed.

(** Finishing a lesson unlocks the next topic: with the profile as the
    end of the lesson leaves it, [Next lesson] opens the topic that
    follows the one just finished (identifiers of topics being distinct
    within the skill): it becomes the current topic, the lesson is
    cleared, loading starts and the engine is quiet. *)
Theorem finished_topic_unlocks_the_next :
  forall c m u r skill l1 t next l2 (w : Catalog.World),
    findSkill (skills u) (currentSkillId r) = Some skill ->
    topics skill = l1 ++ t :: next :: l2 ->
    NoDup (map topicId (topics skill)) ->
    currentTopicId r = Some (topicId t) ->
    exists w',
      handleNextLesson r
        (Some (fst (finishLesson c m u (currentSkillId r) (Some t)))) w = Returned w' /\
      currentTopicId (client w') = Some (topicId next) /\
      Catalog.tutorState (client w') = LOADING_LESSON /\
      lessonLoaded (client w') = false /\
      currentSkillId (client w') = currentSkillId (client w) /\
      quiet w'.
Proof.
  intros c m u r skill l1 t next l2 w Hsk Ht Hnd Hcur.
  set (sk' := markSkill (currentSkillId r) (Some t) skill).
  assert (Hsid : sameId (skillId skill) (currentSkillId r) = true).
  { unfold findSkill in Hsk. apply find_some in Hsk. apply Hsk. }
  assert (Hsk' : skillOf (Some (fst (finishLesson c m u (currentSkillId r) (Some t)))) r
                 = Some sk').
  { unfold skillOf. rewrite finishLesson_skills.
    rewrite (find_map_same_key (fun s => sameId (skillId s) (currentSkillId r))
               (markSkill (currentSkillId r) (Some t)) (skills u))
      by (intros s; rewrite markSkill_id; reflexivity).
    unfold findSkill in Hsk. rewrite Hsk. reflexivity. }
  assert (Ht' : topics sk' = map (markTopic (Some t)) l1 ++ markTopic (Some t) t ::
                             markTopic (Some t) next :: map (markTopic (Some t)) l2).
  { unfold sk', markSkill. rewrite Hsid. simpl. rewrite Ht, map_app. reflexivity. }
  assert (Hids : forall l, map topicId (map (markTopic (Some t)) l) = map topicId l).
  { intros l. rewrite map_map. apply map_ext. intros x. apply markTopic_id. }
  rewrite Ht, map_app in Hnd. simpl in Hnd.
  assert (Hn1' : ~ In (topicId t) (map topicId l1 ++ topicId next :: map topicId l2)).
  { apply NoDup_remove_2. exact Hnd. }
  assert (Hn1 : ~ In (topicId t) (map topicId l1)).
  { intros H. apply Hn1'. apply in_or_app. left. exact H. }
  assert (Htn : topicId next <> topicId t).
  { intros E. apply Hn1'. apply in_or_app. right. left. exact E. }
  assert (Hn2 : ~ In (topicId next) (map topicId (l1 ++ [t]))).
  { replace (map topicId l1 ++ topicId t :: topicId next :: map topicId l2)
      with ((map topicId l1 ++ [topicId t]) ++ topicId next :: map topicId l2) in Hnd
      by (rewrite <- app_assoc; reflexivity).
    apply NoDup_remove_2 in Hnd. rewrite map_app. simpl.
    intros H. apply Hnd. apply in_or_app. left. exact H. }
  unfold handleNextLesson. rewrite Hsk'. cbv zeta. rewrite Hcur.
  rewrite (topicIndexOf_at sk' (map (markTopic (Some t)) l1) (markTopic (Some t) t)
             (markTopic (Some t) next :: map (markTopic (Some t)) l2) (id := topicId t) Ht')
    by (rewrite ?Hids; auto using markTopic_id).
  rewrite Ht', length_app. simpl List.length. rewrite !length_map.
  destruct (Z.ltb_spec (Z.of_nat (List.length l1))
              (Z.of_nat (List.length l1 + S (S (List.length l2))) - 1)) as [_|H]; [|lia].
  replace (Z.to_nat (Z.of_nat (List.length l1) + 1)) with (List.length (map (markTopic (Some t)) l1) + 1)%nat
    by (rewrite length_map; lia).
  rewrite nth_error_app2 by lia.
  replace (List.length (map (markTopic (Some t)) l1) + 1 - List.length (map (markTopic (Some t)) l1))%nat
    with 1%nat by lia.
  simpl nth_error. cbv iota. rewrite markTopic_id.
  unfold handleSelectTopic. rewrite Hsk', Hcur.
  assert (Hfirst : sameId (topicId next) (Some (topicId t)) = false).
  { simpl. apply String.eqb_neq. exact Htn. }
  rewrite Hfirst. simpl andb. cbv iota.
  assert (Hlock : locked sk' (topicId next) = false).
  { unfold locked. cbv zeta.
    assert (Hshape : topics sk' = map (markTopic (Some t)) (l1 ++ [t]) ++
                                  markTopic (Some t) next :: map (markTopic (Some t)) l2).
    { rewrite Ht', map_app, <- app_assoc. reflexivity. }
    assert (Hn2' : ~ In (topicId next) (map topicId (map (markTopic (Some t)) (l1 ++ [t])))).
    { rewrite Hids. exact Hn2. }
    rewrite (topicIndexOf_at sk' (map (markTopic (Some t)) (l1 ++ [t]))
               (markTopic (Some t) next) (map (markTopic (Some t)) l2) (id := topicId next)
               Hshape (markTopic_id (Some t) next) Hn2').
    rewrite length_map, length_app. simpl List.length.
    replace (Z.to_nat (Z.of_nat (List.length l1 + 1) - 1))
      with (List.length (map (markTopic (Some t)) l1)) by (rewrite length_map; lia).
    rewrite Ht', nth_error_app2 by lia. rewrite Nat.sub_diag. simpl nth_error. cbv iota.
    unfold markTopic at 1. simpl option_map. rewrite sameId_refl. simpl.
    apply andb_false_r. }
  rewrite Hlock.
  destruct (cancel_effect w) as (w0 & Hcancel & Hsp & Hmo & Hq & Hcb & _ & _ & _ & Hc0 & _ & _ & Hb & _).
  rewrite Hcancel. unfold andThen. eexists. split; [reflexivity|]. simpl.
  rewrite Hc0. repeat split; assumption.
Qed.


End CatalogFacts.

(** The third topic is selected while the second is open. *)
Lemma locked_topic_is_not_opened_witness :
  Catalog.handleSelectTopic Examples.atLoops (Some Examples.pupil) "topic-3"
    (Examples.catalogWorld Examples.atLoops)
  = Speech.Returned (Examples.catalogWorld Examples.atLoops).
Proof.
  apply (@locked_topic_is_not_opened Examples.atLoops (Some Examples.pupil)
           Examples.pythonCourse [Examples.variables] Examples.loops Examples.functions []
           (Examples.catalogWorld Examples.atLoops) eq_refl eq_refl).
  - simpl. intros [H|[H|[]]]; discriminate H.
  - reflexivity.
Defined.

(** The second topic is finished; [Next lesson] opens the third. *)
Lemma finished_topic_unlocks_the_next_witness :
  exists w',
    Catalog.handleNextLesson Examples.atLoops
      (Some (fst (Course.finishLesson Examples.may11AtUTC Examples.mint Examples.pupil
                    (Some "skill-2"%string) (Some Examples.loops))))
      (Examples.catalogWorld Examples.atLoops) = Speech.Returned w' /\
    Catalog.currentTopicId (Speech.client w') = Some "topic-3"%string /\
    Catalog.tutorState (Speech.client w') = Types.LOADING_LESSON.
Proof.
  destruct (@finished_topic_unlocks_the_next Examples.may11AtUTC Examples.mint Examples.pupil
              Examples.atLoops Examples.pythonCourse [Examples.variables] Examples.loops
              Examples.functions [] (Examples.catalogWorld Examples.atLoops)
              eq_refl eq_refl)
    as (w' & Hrun & Ht & Hs & _).
  - simpl. repeat constructor; simpl; intros H;
      repeat (destruct H as [H|H]; [discriminate H|]); exact H.
  - reflexivity.
  - exists w'. split; [exact Hrun|]. split; [exact Ht | exact Hs].
Defined.


(** ** Accounts *)

Section AuthFacts.
Import JsString Streak Auth.
Local Open Scope string_scope.
Local Open Scope list_scope.

Lemma name_taken :
  forall name l,
    existsb (sameName name) l = true <->
    In (lowerName name) (map (fun u => lowerName (userName u)) l).
Proof.
  intros name l. rewrite existsb_exists, in_map_iff. split.
  - intros (u & Hin & H). exists u. split; [apply String.eqb_eq; exact H | exact Hin].
  - intros (u & H & Hin). exists u. split; [exact Hin | apply String.eqb_eq; exact H].
Qed.

(** Names stay distinct.  Signing up is refused exactly when a profile
    has the same name up to the case of letters; then nothing changes.
    Otherwise one profile is added at the end, with no points, streak,
    badges or skills, and it becomes the current user.  So a list of
    profiles whose names differ, case ignored, stays such a list. *)
Theorem names_stay_distinct :
  forall stamp name pin a,
    NoDup (lowerNames a) ->
    NoDup (lowerNames (fst (handleSignUp stamp name pin a))) /\
    (In (lowerName name) (lowerNames a) ->
     handleSignUp stamp name pin a
     = (a, Some "Username already taken. Please choose another.")) /\
    (~ In (lowerName name) (lowerNames a) ->
     handleSignUp stamp name pin a
     = ({| users := users a ++ [newUser stamp name pin];
           currentUserId := Some ("user-" ++ stamp)%string |}, None)).
Proof.
  intros stamp name pin a Hnd. unfold handleSignUp, lowerNames in *.
  destruct (existsb (sameName name) (users a)) eqn:E.
  - apply name_taken in E. split; [exact Hnd|]. split; [reflexivity | contradiction].
  - assert (Hn : ~ In (lowerName name) (map (fun u => lowerName (userName u)) (users a))).
    { intros H. apply name_taken in H. congruence. }
    split; [|split; [contradiction | reflexivity]].
    simpl. rewrite map_app. simpl. apply NoDup_app; [exact Hnd | repeat constructor; simpl; tauto|].
    intros x Hx [Hx'|[]]. subst x. exact (Hn Hx).
Qed.

Lemma find_last :
  forall (p : UserProfile -> bool) l x,
    existsb p l = false -> p x = true -> find p (l ++ [x]) = Some x.
Proof.
  intros p l x. induction l as [|y l IH]; simpl; intros Hl Hx.
  - rewrite Hx. reflexivity.
  - apply orb_false_iff in Hl as [Hy Hl]. rewrite Hy. apply IH; assumption.
Qed.

(** Sign up, then log in.  After a sign-up that was accepted, logging in
    under that name, in any case of letters, with the same PIN makes the
    new profile the current user and returns no message; with another PIN
    it returns the message about the PIN and the current user stays as it
    was.  The profiles are the same list in both cases. *)
Theorem sign_up_then_log_in :
  forall stamp name pin a a1 typed other current,
    handleSignUp stamp name pin a = (a1, None) ->
    lowerName typed = lowerName name ->
    other <> pin ->
    handleLogin typed pin {| users := users a1; currentUserId := current |}
      = ({| users := users a1; currentUserId := Some ("user-" ++ stamp)%string |}, None) /\
    handleLogin typed other {| users := users a1; currentUserId := current |}
      = ({| users := users a1; currentUserId := current |},
         Some "Incorrect PIN. Please try again.").
Proof.
  intros stamp name pin a a1 typed other current Hs Hn Ho.
  unfold handleSignUp in Hs.
  destruct (existsb (sameName name) (users a)) eqn:E; [discriminate|].
  injection Hs as <-. unfold handleLogin. simpl users.
  assert (Hsame : forall u, sameName typed u = sameName name u).
  { intros u. unfold sameName. rewrite Hn. reflexivity. }
  assert (E' : existsb (sameName typed) (users a) = false).
  { rewrite <- E. clear E. induction (users a) as [|y l IH]; [reflexivity|].
    simpl. rewrite Hsame, IH. reflexivity. }
  assert (Hnew : sameName typed (newUser stamp name pin) = true).
  { rewrite Hsame. unfold sameName. simpl. apply String.eqb_refl. }
  rewrite (find_last (sameName typed) (users a) (newUser stamp name pin) E' Hnew).
  simpl password. rewrite String.eqb_refl. simpl negb. cbv iota.
  split; [reflexivity|].
  destruct (String.eqb_spec pin other) as [Heq|_]; [contradiction Ho; symmetry; exact Heq|].
  reflexivity.
Qed.

End AuthFacts.

(** The name is typed in capitals at the log-in. *)
Lemma sign_up_then_log_in_witness :
  fst (Auth.handleLogin "ASHA" "1234"
         {| Auth.users := Auth.users (fst (Auth.handleSignUp "1715418000000" "Asha" "1234"
                                             {| Auth.users := [Examples.pupil];
                                                Auth.currentUserId := None |}));
            Auth.currentUserId := None |})
  = {| Auth.users := [Examples.pupil; Auth.newUser "1715418000000" "Asha" "1234"];
       Auth.currentUserId := Some "user-1715418000000"%string |} /\
  snd (Auth.handleLogin "asha" "0000"
         {| Auth.users := Auth.users (fst (Auth.handleSignUp "1715418000000" "Asha" "1234"
                                             {| Auth.users := [Examples.pupil];
                                                Auth.currentUserId := None |}));
            Auth.currentUserId := None |})
  = Some "Incorrect PIN. Please try again."%string.
Proof.
  pose proof (@sign_up_then_log_in "1715418000000" "Asha" "1234"
                {| Auth.users := [Examples.pupil]; Auth.currentUserId := None |}
                (fst (Auth.handleSignUp "1715418000000" "Asha" "1234"
                        {| Auth.users := [Examples.pupil]; Auth.currentUserId := None |}))
                "ASHA" "0000" None eq_refl eq_refl ltac:(discriminate)) as H1.
  pose proof (@sign_up_then_log_in "1715418000000" "Asha" "1234"
                {| Auth.users := [Examples.pupil]; Auth.currentUserId := None |}
                (fst (Auth.handleSignUp "1715418000000" "Asha" "1234"
                        {| Auth.users := [Examples.pupil]; Auth.currentUserId := None |}))
                "asha" "0000" None eq_refl eq_refl ltac:(discriminate)) as H2.
  split; [exact (f_equal fst (proj1 H1)) | exact (f_equal snd (proj2 H2))].
Defined.

(** A second "asha" is refused next to "Asha". *)
Lemma names_stay_distinct_witness :
  NoDup (Auth.lowerNames {| Auth.users := [Examples.student; Examples.pupil];
                            Auth.currentUserId := None |}) /\
  Auth.handleSignUp "1715418000000" "asha" "9999"
    {| Auth.users := [Examples.student; Examples.pupil]; Auth.currentUserId := None |}
  = ({| Auth.users := [Examples.student; Examples.pupil]; Auth.currentUserId := None |},
     Some "Username already taken. Please choose another."%string).
Proof.
  assert (H : NoDup (Auth.lowerNames {| Auth.users := [Examples.student; Examples.pupil];
                                        Auth.currentUserId := None |})).
  { vm_compute. repeat constructor; simpl; intros G;
      repeat (destruct G as [G|G]; [discriminate G|]); exact G. }
  split; [exact H|].
  apply (@names_stay_distinct "1715418000000" "asha" "9999" _ H).
  vm_compute. left. reflexivity.
Defined.
